(** * ARthroNeRF view synthesis: the SSIM snippet and the NeRF driver

  A shallow embedding of [DataCollect/utils/ssim.py] and of the control
  flow of [NeRF_instant/scripts/run_modify.py].

  The rendering engine ([pyngp]), the tracker SDK, OpenCV, scikit-image
  and numpy are external to the repository.  What they compute is kept
  abstract (operations of the classes [FloatOps], [LinAlg] and [Vision],
  oracles of the worlds the scripts run in); what the scripts do with the
  results -- the order of the calls, the guards, the arithmetic on Python
  integers -- is modelled as written. *)

From Stdlib Require Import ZArith List String Ascii Bool Lia QArith DecimalString.
Import ListNotations.
Local Open Scope Z_scope.

(* ================================================================== *)
(** * Python values and exceptions *)

Module Py.

(** The exceptions the modelled code can raise. *)
Inductive exn : Type :=
| ZeroDivisionError
| OverflowError
| LinAlgError
| Cv2Error
| ValueError
| FileNotFoundError
| NotADirectoryError
| OSError
| TypeError.

(** A computation that either returns or raises. *)
Inductive result (A : Type) : Type :=
| Ok (a : A)
| Raise (e : exn).
Arguments Ok {A} a.
Arguments Raise {A} e.

Definition bind {A B} (m : result A) (k : A -> result B) : result B :=
  match m with
  | Ok a => k a
  | Raise e => Raise e
  end.

(** [x or d] on integers: [x] when it is truthy (non-zero), else [d]. *)
Definition int_or (x d : Z) : Z := if x =? 0 then d else x.

(** Truthiness of a string: the empty string is falsy. *)
Definition truthy (s : string) : bool := negb (s =? "")%string.

(** [range(n)]: empty when [n <= 0]. *)
Definition range (n : Z) : list Z := map Z.of_nat (seq 0 (Z.to_nat n)).

(** [c in s] for a one-character needle. *)
Fixpoint contains_char (c : ascii) (s : string) : bool :=
  match s with
  | EmptyString => false
  | String a rest => if Ascii.eqb a c then true else contains_char c rest
  end.

(** [x in l] for a list of strings. *)
Definition str_in (x : string) (l : list string) : bool :=
  existsb (String.eqb x) l.

(** ** [int(n / 2)] on a Python integer

    [n / 2] is true division: the result is the double nearest to the exact
    quotient (ties to even), and [OverflowError] when that is beyond the
    range of a double.  [int] then truncates towards zero. *)

Definition DBL_MANT_DIG : Z := 53.
Definition DBL_MAX_EXP : Z := 1024.

(** A non-negative integer rounded to [DBL_MANT_DIG] significant bits,
    ties to even. *)
Definition round_to_double (m : Z) : Z :=
  let bits := Z.log2 m + 1 in
  if bits <=? DBL_MANT_DIG then m
  else
    let e := bits - DBL_MANT_DIG in
    let q := Z.shiftr m e in
    let r := m mod 2 ^ e in
    let half := 2 ^ (e - 1) in
    let q' := if (half <? r) || ((r =? half) && Z.odd q) then q + 1 else q in
    Z.shiftl q' e.

Definition int_of_half (n : Z) : result Z :=
  let r := round_to_double (Z.abs n) in
  if 2 ^ (DBL_MAX_EXP + 1) <=? r then Raise OverflowError
  else Ok (Z.quot (Z.sgn n * r) 2).

End Py.

Notation "x <- m ;; k" := (Py.bind m (fun x => k))
(at level 100, m at next level, right associativity, only parsing).

(* ================================================================== *)
(** * Command line of the driver *)

Module Cli.

(** What the user typed: a flag is present or not, an option is given a
    value or not. *)
Record cli : Type := mkCli {
  cli_vr : bool;
  cli_gui : bool;
  cli_ndi : bool;
  cli_train : bool;
  cli_evaluation : bool;
  cli_second_window : bool;
  cli_video_camera_smoothing : bool;
  cli_n_steps : option Z;
  cli_load_snapshot : option string;
  cli_test_transforms : option string;
  cli_width : option Z;
  cli_height : option Z;
  cli_row : option string;
  cli_video_camera_path : option string;
  cli_video_fps : option Z;
  cli_video_n_seconds : option Z;
  cli_video_render_range : option (Z * Z);
  cli_video_spp : option Z;
  cli_video_output : option string
}.

(** The namespace [parse_args] returns. *)
Record args : Type := mkArgs {
  vr : bool;
  gui : bool;
  ndi : bool;
  train : bool;
  evaluation : bool;
  second_window : bool;
  video_camera_smoothing : bool;
  n_steps : Z;
  load_snapshot : string;
  test_transforms : string;
  width : Z;
  height : Z;
  row : string;
  video_camera_path : string;
  video_fps : Z;
  video_n_seconds : Z;
  video_render_range : Z * Z;
  video_spp : Z;
  video_output : string
}.

Definition default {A} (d : A) (o : option A) : A :=
  match o with Some a => a | None => d end.

(** [parse_args]: the defaults of the [add_argument] table. *)
Definition parse_args (c : cli) : args := {|
  vr := cli_vr c;
  gui := cli_gui c;
  ndi := cli_ndi c;
  train := cli_train c;
  evaluation := cli_evaluation c;
  second_window := cli_second_window c;
  video_camera_smoothing := cli_video_camera_smoothing c;
  n_steps := default (-1) (cli_n_steps c);
  load_snapshot := default ""%string (cli_load_snapshot c);
  test_transforms := default ""%string (cli_test_transforms c);
  width := default 0 (cli_width c);
  height := default 0 (cli_height c);
  row := default "c:/Users/camp/Documents/Xinrui Zou/Tool-ROM/no-pivot.rom"%string (cli_row c);
  video_camera_path := default ""%string (cli_video_camera_path c);
  video_fps := default 60 (cli_video_fps c);
  video_n_seconds := default 1 (cli_video_n_seconds c);
  video_render_range := default (-1, -1) (cli_video_render_range c);
  video_spp := default 8 (cli_video_spp c);
  video_output := default "video.mp4"%string (cli_video_output c)
|}.

(** [if args.vr: args.gui = True] *)
Definition vr_implies_gui (a : args) : args :=
  if vr a then
    {| vr := vr a; gui := true; ndi := ndi a; train := train a;
       evaluation := evaluation a; second_window := second_window a;
       video_camera_smoothing := video_camera_smoothing a;
       n_steps := n_steps a; load_snapshot := load_snapshot a;
       test_transforms := test_transforms a;
       width := width a; height := height a; row := row a;
       video_camera_path := video_camera_path a;
       video_fps := video_fps a; video_n_seconds := video_n_seconds a;
       video_render_range := video_render_range a;
       video_spp := video_spp a; video_output := video_output a |}
  else a.

(** The namespace the rest of [__main__] works with. *)
Definition main_args (c : cli) : args := vr_implies_gui (parse_args c).

End Cli.

(* ================================================================== *)
(** * GUI resolution and number of training steps *)

Module Setup.
Import Py Cli.

Definition MAX_PIXELS : Z := 1920 * 1080 * 4.

(** [while sw * sh > 1920 * 1080 * 4: sw = int(sw / 2); sh = int(sh / 2)].
    [None] is the model running out of fuel; [Some (Raise _)] is the
    script dying in the loop. *)
Fixpoint halve_resolution (fuel : nat) (sw sh : Z) : option (result (Z * Z)) :=
  match fuel with
  | O => None
  | S fuel' =>
      if MAX_PIXELS <? sw * sh then
        match int_of_half sw with
        | Raise e => Some (Raise e)
        | Ok sw' =>
            match int_of_half sh with
            | Raise e => Some (Raise e)
            | Ok sh' => halve_resolution fuel' sw' sh'
            end
        end
      else Some (Ok (sw, sh))
  end.

(** The resolution handed to [testbed.init_window]. *)
Definition gui_resolution (fuel : nat) (a : args) : option (result (Z * Z)) :=
  halve_resolution fuel (int_or (width a) 1920) (int_or (height a) 1080).

(** [n_steps] after the default is applied. *)
Definition effective_n_steps (a : args) : Z :=
  if (n_steps a <? 0) && (negb (truthy (load_snapshot a)) || gui a)
  then 35000
  else n_steps a.

(** [if n_steps > 0:] guards the whole training loop. *)
Definition training_loop_entered (a : args) : bool := 0 <? effective_n_steps a.

(** [if args.gui and args.ndi:] guards the creation of the tracker and,
    in the loop, the call of [TRACKER.get_frame]. *)
Definition tracker_enabled (a : args) : bool := gui a && ndi a.

End Setup.

(* ================================================================== *)
(** * Floating-point numbers, vectors and matrices *)

(** The binary64 operations of Python and numpy.  No law is assumed of them
    (they are not associative, and NaN is not equal to itself): a statement
    proved for every instance holds of the real ones. *)
Class FloatOps : Type := {
  F : Type;
  (** [float(n)] on an integer *)
  of_int : Z -> F;
  (** the decimal literal [m]e[e] *)
  lit : Z -> Z -> F;
  fadd : F -> F -> F;
  fsub : F -> F -> F;
  fmul : F -> F -> F;
  (** IEEE division, used where the divisor is known not to be a Python zero *)
  fdiv : F -> F -> F;
  fneg : F -> F;
  feqb : F -> F -> bool;
  fltb : F -> F -> bool;
  fleb : F -> F -> bool;
  fis_zero : F -> bool;
  (** [np.isnan] *)
  fisnan : F -> bool;
  (** the builtin [sum] over a list of floats *)
  fsum : list F -> F;
  (** [np.cos(np.deg2rad(d))] and [np.sin(np.deg2rad(d))] *)
  cos_deg : Z -> F;
  sin_deg : Z -> F
}.

Module Num.
Import Py.

Section WithFloat.
Context {Fl : FloatOps}.

(** Python's [a / b] on floats. *)
Definition py_div (a b : F) : result F :=
  if fis_zero b then Raise ZeroDivisionError else Ok (fdiv a b).

(** Python's [a / n] with an integer divisor. *)
Definition py_div_int (a : F) (n : Z) : result F :=
  if n =? 0 then Raise ZeroDivisionError else Ok (fdiv a (of_int n)).

(** [sum(l) / len(l)] *)
Definition py_mean (l : list F) : result F :=
  py_div_int (fsum l) (Z.of_nat (List.length l)).

Record vec3 : Type := V3 { x0 : F; x1 : F; x2 : F }.
Record vec4 : Type := V4 { e0 : F; e1 : F; e2 : F; e3 : F }.
(** A 3x3 and a 4x4 array, by rows. *)
Record mat3 : Type := M3 { m3r0 : vec3; m3r1 : vec3; m3r2 : vec3 }.
Record mat4 : Type := M4 { row0 : vec4; row1 : vec4; row2 : vec4; row3 : vec4 }.

(** Indices into an axis of length four. *)
Inductive ix : Type := I0 | I1 | I2 | I3.

Definition vget (v : vec4) (j : ix) : F :=
  match j with I0 => e0 v | I1 => e1 v | I2 => e2 v | I3 => e3 v end.

Definition vset (v : vec4) (j : ix) (a : F) : vec4 :=
  match j with
  | I0 => V4 a (e1 v) (e2 v) (e3 v)
  | I1 => V4 (e0 v) a (e2 v) (e3 v)
  | I2 => V4 (e0 v) (e1 v) a (e3 v)
  | I3 => V4 (e0 v) (e1 v) (e2 v) a
  end.

Definition mrow (m : mat4) (i : ix) : vec4 :=
  match i with I0 => row0 m | I1 => row1 m | I2 => row2 m | I3 => row3 m end.

Definition mset_row (m : mat4) (i : ix) (r : vec4) : mat4 :=
  match i with
  | I0 => M4 r (row1 m) (row2 m) (row3 m)
  | I1 => M4 (row0 m) r (row2 m) (row3 m)
  | I2 => M4 (row0 m) (row1 m) r (row3 m)
  | I3 => M4 (row0 m) (row1 m) (row2 m) r
  end.

(** [m[i, j]] *)
Definition mget (m : mat4) (i j : ix) : F := vget (mrow m i) j.

(** [m[i, j] *= k] *)
Definition mscale_at (k : F) (j : ix) (m : mat4) (i : ix) : mat4 :=
  mset_row m i (vset (mrow m i) j (fmul (mget m i j) k)).

(** [m[0:3, j] *= k] *)
Definition scale_col_0_3 (j : ix) (k : F) (m : mat4) : mat4 :=
  fold_left (mscale_at k j) [I0; I1; I2] m.

(** [m[i, :] *= k] *)
Definition scale_row (i : ix) (k : F) (m : mat4) : mat4 :=
  let r := mrow m i in
  mset_row m i (V4 (fmul (e0 r) k) (fmul (e1 r) k) (fmul (e2 r) k) (fmul (e3 r) k)).

(** [m[[a, b, c, d], :]]: a new array made of the named rows. *)
Definition take_rows (a b c d : ix) (m : mat4) : mat4 :=
  M4 (mrow m a) (mrow m b) (mrow m c) (mrow m d).

(** [m[:3, :3]] *)
Definition top_left_3x3 (m : mat4) : mat3 :=
  let cut r := V3 (e0 r) (e1 r) (e2 r) in
  M3 (cut (row0 m)) (cut (row1 m)) (cut (row2 m)).

(** [m[[0, 1, 2], -1]] and [m[:3, -1]] *)
Definition last_col_0_3 (m : mat4) : vec3 :=
  V3 (e3 (row0 m)) (e3 (row1 m)) (e3 (row2 m)).

Definition vsub3 (a b : vec3) : vec3 :=
  V3 (fsub (x0 a) (x0 b)) (fsub (x1 a) (x1 b)) (fsub (x2 a) (x2 b)).

End WithFloat.
End Num.

(** numpy's linear algebra on the shapes the driver uses.  The order in
    which [@] sums its products is the library's, so [@] is an operation of
    the class and not a definition. *)
Class LinAlg {Fl : FloatOps} : Type := {
  (** [np.linalg.inv]: raises [LinAlgError] on a singular matrix *)
  linalg_inv : Num.mat4 -> Py.result Num.mat4;
  matmul4 : Num.mat4 -> Num.mat4 -> Num.mat4;
  matmul3 : Num.mat3 -> Num.mat3 -> Num.mat3
}.

(* ================================================================== *)
(** * The driver: tracker, camera pose and training loop *)

Module Driver.
Import Py Cli Setup Num.

Section WithEngine.
Context {Fl : FloatOps} {La : LinAlg}.

(** ** The functions of the script *)

(** [flip_matrix]: from OpenCV to OpenGL and from world-to-camera to
    camera-to-world. *)
Definition flip_matrix (m : mat4) : result mat4 :=
  c2w <- linalg_inv m ;;
  let c2w := scale_col_0_3 I2 (of_int (-1)) c2w in
  let c2w := scale_col_0_3 I1 (of_int (-1)) c2w in
  let c2w := take_rows I1 I0 I2 I3 c2w in
  let c2w := scale_row I2 (of_int (-1)) c2w in
  Ok c2w.

Definition rotation_matrix_to_vector (matrix : mat3) : vec3 :=
  let old_vec := V3 (x2 (m3r0 matrix)) (x2 (m3r1 matrix)) (x2 (m3r2 matrix)) in
  V3 (fneg (x1 old_vec)) (fneg (x2 old_vec)) (fneg (x0 old_vec)).

Definition rotation_matrix_x (angle_deg : Z) : mat3 :=
  let cos_theta := cos_deg angle_deg in
  let sin_theta := sin_deg angle_deg in
  M3 (V3 (of_int 1) (of_int 0) (of_int 0))
     (V3 (of_int 0) cos_theta (fneg sin_theta))
     (V3 (of_int 0) sin_theta cos_theta).

Definition calculate_relative_positions (base_pos : mat4) (stream : list (Z * mat4))
  : list (Z * vec3) :=
  map (fun '(i, data) =>
         let base_column := last_col_0_3 base_pos in
         let data_column := last_col_0_3 data in
         (i, vsub3 data_column base_column))
      stream.

(** ** What the script loads before the loop

    The matrices are 4 x 4, as the tracker delivers them and as a hand-eye
    calibration is stored.  [post_avglen] is taken to be a list of Python
    floats, so that [sum(post_avglen) / len(post_avglen)] and
    [4.0 / avg_post_avglen] raise [ZeroDivisionError] on an empty list and on
    a mean of zero. *)

Record calibration : Type := mkCalibration {
  tool2camera : mat4;
  camera2tool : mat4;
  world_center : mat4;
  post_avglen : list F;
  base_pose : mat4
}.

(** ** The camera pose of one tracking sample *)

(** [transform_matrix] after steps 1 to 4 of the loop body. *)
Definition pose_transform (c : calibration) (tracking0 : mat4) : result mat4 :=
  let transform_matrix := tracking0 in
  inv <- linalg_inv transform_matrix ;;
  let transform_matrix := matmul4 (camera2tool c) inv in
  let transform_matrix :=
    matmul4 (matmul4 transform_matrix (world_center c)) (tool2camera c) in
  transform_matrix <- flip_matrix transform_matrix ;;
  avg_post_avglen <- py_mean (post_avglen c) ;;
  k <- py_div (lit 40 (-1)) avg_post_avglen ;;
  Ok (scale_col_0_3 I3 k transform_matrix).

(** [[center[0] + tran_vec[1]/289.13, 0.5 + tran_vec[2]*0.0036754,
      0.5 + tran_vec[0]/313.7255]] *)
Definition look_at_of (tran_vec : vec3) : vec3 :=
  let center := V3 (lit 5 (-1)) (lit (-50478) (-5)) (of_int 0) in
  V3 (fadd (x0 center) (fdiv (x1 tran_vec) (lit 28913 (-2))))
     (fadd (lit 5 (-1)) (fmul (x2 tran_vec) (lit 36754 (-7))))
     (fadd (lit 5 (-1)) (fdiv (x0 tran_vec) (lit 3137255 (-4)))).

(** [[rotation_matrix[1, 1], rotation_matrix[2, 1], rotation_matrix[0, 1]]] *)
Definition up_of (rotation_matrix : mat3) : vec3 :=
  V3 (x1 (m3r1 rotation_matrix)) (x1 (m3r2 rotation_matrix)) (x1 (m3r0 rotation_matrix)).

(** ** The engine and the tracker, as the script sees them *)

(** [testbed.camera_matrix], by columns. *)
Record camera_matrix : Type := mkCamera {
  k_col0 : vec3; k_col1 : vec3; k_col2 : vec3; k_col3 : vec3
}.

(** The calls the script makes and the attributes it writes, in order. *)
Inductive event : Type :=
| NDITracker_init (romfile : string)
| start_tracking
| get_frame
| frame
| set_pressnum (a b c : Z)
| set_tasktime (t : F)
| set_look_at (v : vec3)
| set_view_dir (v : vec3)
| set_up_dir (v : vec3)
| set_scale (s : F)
| set_ndi_rotation (v : vec3)
| set_ndi_camera_1 (v : vec3)
| set_ndi_camera_2 (v : vec3)
| set_ndi_camera_3 (v : vec3)
| reset_accumulation
| stdout (what : string)
| repl
| set_shall_train (b : bool)
| tqdm_reset
| tqdm_update (n : Z)
| tqdm_set_postfix (loss : F).

(** What one loop iteration observes besides the tracking sample: the
    keyboard, the clock at each of its reads, and the engine's attributes. *)
Record ambient : Type := mkAmbient {
  timer : F;
  key_l : bool;
  key_space : bool;
  key_space_again : bool;
  (** [time.time()] at lines 366, 367, 376, 397, 402 and 405 *)
  now_366 : F;
  now_367 : F;
  now_376 : F;
  now_397 : F;
  now_402 : F;
  now_405 : F;
  testbed_camera_matrix : camera_matrix;
  want_repl : bool;
  training_step : Z;
  loss : F;
  (** [time.monotonic()] *)
  monotonic : F
}.

(** One iteration in which [testbed.frame()] returned [True]. *)
Record frame_obs : Type := mkFrame {
  tracking0 : mat4;
  amb : ambient
}.

(** A run: the trace of events so far, and a value or an exception. *)
Definition run (A : Type) : Type := list event * result A.

Definition ret {A} (a : A) : run A := ([], Ok a).
Definition emit (e : event) : run unit := ([e], Ok tt).
Definition emits (l : list event) : run unit := (l, Ok tt).
Definition lift {A} (r : result A) : run A := ([], r).

Definition rbind {A B} (m : run A) (k : A -> run B) : run B :=
  match m with
  | (t, Ok a) => let '(t', r) := k a in (t ++ t', r)
  | (t, Raise e) => (t, Raise e)
  end.

Definition trace {A} (m : run A) : list event := fst m.
Definition outcome {A} (m : run A) : result A := snd m.

End WithEngine.
End Driver.

Notation "x <~ m ;; k" := (Driver.rbind m (fun x => k))
  (at level 100, m at next level, right associativity, only parsing).
Notation "m ;;; k" := (Driver.rbind m (fun _ => k))
  (at level 100, right associativity, only parsing).

Module Training.
Import Py Cli Setup Num Driver.

Section WithEngine.
Context {Fl : FloatOps} {La : LinAlg}.

(** ** The variables of [__main__] that live across iterations *)

(** Those of the baseboard evaluation. *)
Record eval_state : Type := mkEval {
  j : Z;
  key_held : bool;
  last_pressed_time : F;
  press_count : Z;
  prev_timer_value : F;
  start_time : option F;
  times_recorded : list F;
  stream : list (Z * mat4);
  stream_list : list (list (Z * vec3))
}.

Record locals : Type := mkLocals {
  pressnum_initialized : bool;
  (** unbound until the first valid sample *)
  transform_matrix : option mat4;
  ev : eval_state;
  old_training_step : Z;
  tqdm_last_update : F
}.

Definition initial_locals : locals := {|
  pressnum_initialized := false;
  transform_matrix := None;
  ev := {| j := 0; key_held := false; last_pressed_time := of_int 0;
           press_count := 0; prev_timer_value := of_int 0; start_time := None;
           times_recorded := []; stream := []; stream_list := [] |};
  old_training_step := 0;
  tqdm_last_update := of_int 0
|}.

(** The matrix [x] of the evaluation block. *)
Definition eval_x : mat4 :=
  M4 (V4 (lit 179233051 (-9)) (lit 781816542 (-10)) (lit 980695234 (-9)) (lit 269621530 (-6)))
     (V4 (lit 205724419 (-9)) (lit (-977777731) (-9)) (lit 403506246 (-10)) (lit (-286812080) (-8)))
     (V4 (lit 962056639 (-9)) (lit 194520791 (-9)) (lit (-191333961) (-9)) (lit (-697097727) (-7)))
     (V4 (lit 0 0) (lit 0 0) (lit 0 0) (lit 100000000 (-8))).

(** ** [if args.evaluation:] -- timer, reset key and space key *)
Definition evaluation_block (c : calibration) (tracking0 : mat4) (o : ambient)
  (s : eval_state) : list event * eval_state :=
  (* a change of [testbed.timer] closes the running record and opens a new one *)
  let changed := negb (feqb (timer o) (prev_timer_value s)) in
  let times_recorded1 :=
    if changed then
      match start_time s with
      | Some t0 => times_recorded s ++ [fsub (now_366 o) t0]
      | None => times_recorded s
      end
    else times_recorded s in
  let start_time1 := if changed then Some (now_367 o) else start_time s in
  let prev_timer_value1 := if changed then timer o else prev_timer_value s in
  (* 'l' resets the press counter *)
  let ev_l := if key_l o then [set_pressnum 0 0 0; set_pressnum 0 0 0] else [] in
  let j1 := if key_l o then 0 else j s in
  (* space records a position, at most every half second *)
  if key_space o
     && (key_space_again o
         && fleb (lit 5 (-1)) (fsub (now_376 o) (last_pressed_time s)))
  then
    if negb (key_held s) then
      let transformed_data := matmul4 tracking0 eval_x in
      let stream1 := [(j1, transformed_data)] in
      let relative_stream := calculate_relative_positions (base_pose c) stream1 in
      let stream_list1 := stream_list s ++ [relative_stream] in
      let j2 := j1 + 1 in
      let press_count1 := press_count s + 1 in
      let tenth := press_count1 mod 10 =? 0 in
      let times_recorded2 :=
        if tenth then
          match start_time1 with
          | Some t0 => times_recorded1 ++ [fsub (now_397 o) t0]
          | None => times_recorded1
          end
        else times_recorded1 in
      let start_time2 := if tenth then None else start_time1 in
      (ev_l ++ [stdout "stream"; stdout "Relative stream"; stdout "Updated stream_list";
                set_pressnum j2 0 0],
       {| j := j2; key_held := true; last_pressed_time := now_402 o;
          press_count := press_count1; prev_timer_value := prev_timer_value1;
          start_time := start_time2; times_recorded := times_recorded2;
          stream := stream1; stream_list := stream_list1 |})
    else
      (ev_l,
       {| j := j1; key_held := false; last_pressed_time := last_pressed_time s;
          press_count := press_count s; prev_timer_value := prev_timer_value1;
          start_time := start_time1; times_recorded := times_recorded1;
          stream := stream s; stream_list := stream_list s |})
  else
    (ev_l,
     {| j := j1; key_held := key_held s; last_pressed_time := last_pressed_time s;
        press_count := press_count s; prev_timer_value := prev_timer_value1;
        start_time := start_time1; times_recorded := times_recorded1;
        stream := stream s; stream_list := stream_list s |}).

(** ** The writes of the camera pose, lines 409 to 458 *)
Definition pose_writes (o : ambient) (transform_matrix : mat4) : list event :=
  let tran_vec := last_col_0_3 transform_matrix in
  (* the view turned by 45 degrees about x ... *)
  let rot_matrix_x := rotation_matrix_x 45 in
  let rotation_matrix := top_left_3x3 transform_matrix in
  let rotation_matrix := matmul3 rotation_matrix rot_matrix_x in
  let k := testbed_camera_matrix o in
  (* ... and then the first-person view, which is the one that stays *)
  let rotation_matrix' := top_left_3x3 transform_matrix in
  [ set_look_at (look_at_of tran_vec);
    set_view_dir (rotation_matrix_to_vector rotation_matrix);
    set_up_dir (up_of rotation_matrix);
    set_scale (lit 1025 (-3));
    set_ndi_rotation (k_col3 k);
    set_ndi_camera_1 (k_col0 k);
    set_ndi_camera_2 (k_col1 k);
    set_ndi_camera_3 (k_col2 k);
    set_look_at (look_at_of tran_vec);
    set_view_dir (rotation_matrix_to_vector rotation_matrix');
    set_up_dir (up_of rotation_matrix');
    set_scale (fmul (fmul (x2 tran_vec) (lit 36754 (-7))) (lit 4 (-1)));
    reset_accumulation ].

(** The evaluation block when [--evaluation] is given, nothing otherwise. *)
Definition evaluated (a : args) (c : calibration) (tracking0 : mat4) (o : ambient)
  (st : locals) : list event * eval_state :=
  if evaluation a then evaluation_block c tracking0 o (ev st) else ([], ev st).

(** ** [if args.gui and args.ndi:] in the loop *)
Definition ndi_step (a : args) (c : calibration) (tracking0 : mat4) (o : ambient)
  (st : locals) : run locals :=
  emit get_frame ;;;
  if fisnan (mget tracking0 I0 I3) then ret st
  else
    tm <~ lift (pose_transform c tracking0) ;;
    let '(evs, es) := evaluated a c tracking0 o st in
    let time_duration :=
      match start_time es with
      | None => of_int 0
      | Some t0 => fsub (now_405 o) t0
      end in
    emits evs ;;;
    emit (set_tasktime time_duration) ;;;
    emit (stdout "time: ") ;;;
    emits (pose_writes o tm) ;;;
    ret {| pressnum_initialized := pressnum_initialized st;
           transform_matrix := Some tm;
           ev := es;
           old_training_step := old_training_step st;
           tqdm_last_update := tqdm_last_update st |}.

(** ** The rest of an iteration: REPL, end of training, progress bar *)

Definition init_pressnum (st : locals) : run locals :=
  if pressnum_initialized st then ret st
  else
    emit (set_pressnum 0 0 0) ;;;
    ret {| pressnum_initialized := true;
           transform_matrix := transform_matrix st; ev := ev st;
           old_training_step := old_training_step st;
           tqdm_last_update := tqdm_last_update st |}.

Definition progress_bar (o : ambient) (st : locals) : run locals :=
  let reset := (training_step o <? old_training_step st) || (old_training_step st =? 0) in
  let old := if reset then 0 else old_training_step st in
  (if reset then emit tqdm_reset else ret tt) ;;;
  if fltb (lit 1 (-1)) (fsub (monotonic o) (tqdm_last_update st)) then
    emit (tqdm_update (training_step o - old)) ;;;
    emit (tqdm_set_postfix (loss o)) ;;;
    ret {| pressnum_initialized := pressnum_initialized st;
           transform_matrix := transform_matrix st; ev := ev st;
           old_training_step := training_step o;
           tqdm_last_update := monotonic o |}
  else
    ret {| pressnum_initialized := pressnum_initialized st;
           transform_matrix := transform_matrix st; ev := ev st;
           old_training_step := old;
           tqdm_last_update := tqdm_last_update st |}.

(** The body of [while testbed.frame():] on one frame.  The flag returned
    is [false] when the body ends in [break]. *)
Definition iteration (a : args) (n_steps : Z) (c : calibration) (f : frame_obs)
  (st : locals) : run (bool * locals) :=
  emit frame ;;;
  st <~ init_pressnum st ;;
  st <~ (if gui a && ndi a then ndi_step a c (tracking0 f) (amb f) st else ret st) ;;
  (if want_repl (amb f) then emit repl else ret tt) ;;;
  if n_steps <=? training_step (amb f) then
    if gui a then
      emit (set_shall_train false) ;;;
      st <~ progress_bar (amb f) st ;;
      ret (true, st)
    else ret (false, st)
  else
    st <~ progress_bar (amb f) st ;;
    ret (true, st).

(** [while testbed.frame(): ...] over the frames the engine delivers; the
    end of the list is [testbed.frame()] returning [False]. *)
Fixpoint training_loop (a : args) (n_steps : Z) (c : calibration)
  (frames : list frame_obs) (st : locals) : run locals :=
  match frames with
  | [] => ret st
  | f :: frames' =>
      r <~ iteration a n_steps c f st ;;
      if fst r then training_loop a n_steps c frames' (snd r) else ret (snd r)
  end.

(** What the pickles and the CSV of the command line hold. *)
Record files : Type := mkFiles {
  file_calibration : mat4;
  file_world_center : mat4;
  file_post_info : list F;
  file_base_pose : mat4
}.

(** [if args.gui and args.ndi:] before the loop. *)
Definition start_tracker (a : args) : run unit :=
  if gui a && ndi a then
    emit (NDITracker_init (row a)) ;;; emit start_tracking
  else ret tt.

(** The calibration is loaded and inverted, and the loop runs when
    [n_steps > 0].  Of the lines before the loop, the reads of the files
    are the record [files]; the assignment [testbed.usernum = args.user_id]
    leaves no event. *)
Definition load_and_train (a : args) (fs : files) (frames : list frame_obs)
  : run locals :=
  let n_steps := effective_n_steps a in
  camera2tool <~ lift (linalg_inv (file_calibration fs)) ;;
  let c := {| tool2camera := file_calibration fs;
              camera2tool := camera2tool;
              world_center := file_world_center fs;
              post_avglen := file_post_info fs;
              base_pose := file_base_pose fs |} in
  if 0 <? n_steps then training_loop a n_steps c frames initial_locals
  else ret initial_locals.

(** [__main__] from the choice of [n_steps] to the end of the loop. *)
Definition training_phase (a : args) (fs : files) (frames : list frame_obs)
  : run locals :=
  start_tracker a ;;; load_and_train a fs frames.

End WithEngine.
End Training.

(* ================================================================== *)
(** * The driver: evaluation against test transforms *)

Module Evaluate.
Import Py Num.

Section WithMetrics.
Context {Fl : FloatOps}.

(** Rendered images, and the helpers of [common] the block calls. *)
Variable image : Type.
(** [float(compute_error("MSE", A, R))] and [float(compute_error("SSIM", A, R))] *)
Variable compute_mse : image -> image -> F.
Variable compute_ssim : image -> image -> F.
Variable mse2psnr : F -> F.
(** [np.clip(linear_to_srgb(img[...,:3]), 0.0, 1.0)] *)
Variable srgb_clip : image -> image.
(** [np.absolute(image - ref_image)] with alpha set to one *)
Variable diff_image : image -> image -> image.

Inductive event : Type :=
| write_image (name : string) (img : image)
| set_postfix (psnr : F)
| stdout (psnr minpsnr maxpsnr ssim : F).

(** The running totals of the block. *)
Record totals : Type := mkTotals {
  totmse : F;
  totpsnr : F;
  totssim : F;
  totcount : Z;
  minpsnr : F;
  maxpsnr : F
}.

Definition initial_totals : totals := {|
  totmse := of_int 0; totpsnr := of_int 0; totssim := of_int 0;
  totcount := 0; minpsnr := of_int 1000; maxpsnr := of_int 0
|}.

(** What the block prints, and [psnr_avgmse], which it only computes. *)
Record report : Type := mkReport {
  psnr_avgmse : F;
  psnr : F;
  psnr_min : F;
  psnr_max : F;
  ssim : F
}.

(** The body of the loop after the two renders: [ref_image] is the ground
    truth and [img] the rendering of training view [i]. *)
Definition accumulate (t : totals) (ref_image img : image) : totals :=
  let A := srgb_clip img in
  let R := srgb_clip ref_image in
  let mse := compute_mse A R in
  let ssim := compute_ssim A R in
  let totssim := fadd (totssim t) ssim in
  let totmse := fadd (totmse t) mse in
  let psnr := mse2psnr mse in
  let totpsnr := fadd (totpsnr t) psnr in
  let minpsnr := if fltb psnr (minpsnr t) then psnr else minpsnr t in
  let maxpsnr := if fltb (maxpsnr t) psnr then psnr else maxpsnr t in
  {| totmse := totmse; totpsnr := totpsnr; totssim := totssim;
     totcount := totcount t + 1; minpsnr := minpsnr; maxpsnr := maxpsnr |}.

(** [for i in range(n_images)], over the pairs (ground truth, rendering) the
    engine renders; [first] is [i == 0]. *)
Fixpoint test_loop (first : bool) (views : list (image * image)) (t : totals)
  : list event * result totals :=
  match views with
  | [] => ([], Ok t)
  | (ref_image, img) :: views' =>
      let dump :=
        if first then
          [write_image "ref.png" ref_image; write_image "out.png" img;
           write_image "diff.png" (diff_image img ref_image)]
        else [] in
      let t' := accumulate t ref_image img in
      match py_div_int (totpsnr t') (int_or (totcount t') 1) with
      | Raise e => (dump, Raise e)
      | Ok shown =>
          let '(evs, r) := test_loop false views' t' in
          (dump ++ set_postfix shown :: evs, r)
      end
  end.

(** The totals after every view of the dataset went through the body. *)
Definition totals_of (views : list (image * image)) : totals :=
  fold_left (fun t '(ref_image, img) => accumulate t ref_image img) views initial_totals.

(** [totcount or 1] *)
Definition divisor (t : totals) : Z := int_or (totcount t) 1.

(** [if args.test_transforms:] from the loop to the final print. *)
Definition evaluate_test_transforms (views : list (image * image))
  : list event * result report :=
  match test_loop true views initial_totals with
  | (evs, Raise e) => (evs, Raise e)
  | (evs, Ok t) =>
      let r :=
        avgmse <- py_div_int (totmse t) (int_or (totcount t) 1) ;;
        psnr <- py_div_int (totpsnr t) (int_or (totcount t) 1) ;;
        ssim <- py_div_int (totssim t) (int_or (totcount t) 1) ;;
        Ok {| psnr_avgmse := mse2psnr avgmse; psnr := psnr;
              psnr_min := minpsnr t; psnr_max := maxpsnr t; ssim := ssim |} in
      match r with
      | Ok rep => (evs ++ [stdout (psnr rep) (psnr_min rep) (psnr_max rep) (ssim rep)], r)
      | Raise e => (evs, Raise e)
      end
  end.

End WithMetrics.
End Evaluate.

(* ================================================================== *)
(** * The driver: rendering a camera path *)

Module Video.
Import Py Cli.

(** Two steps of the block are modelled with their exceptions: the
    formatting of a frame's name and the removal of an old [tmp].  The
    calls of the engine ([load_camera_path], [render]), [os.makedirs],
    [write_image] with the image it is handed
    ([np.clip(frame * 2**args.exposure, 0.0, 1.0)]) and [os.system] are
    events that return. *)

Section WithFormat.
(** [args.video_output % i]: raises on a malformed format. *)
Variable percent_format : string -> Z -> result string.

(** Where a full-resolution frame is written. *)
Inductive target : Type :=
| frame_file (name : string)
| tmp_jpg (i : Z).

Inductive event : Type :=
| load_camera_path (path : string)
| rmtree (dir : string)
| makedirs (dir : string)
| set_camera_smoothing (b : bool)
| render (w h spp i n_frames fps : Z)
| write_image (t : target)
| ffmpeg (fps : Z) (output : string).

Definition save_frames (a : args) : bool :=
  contains_char "%"%char (video_output a).

Definition n_frames (a : args) : Z := video_n_seconds a * video_fps a.

(** [list(range(min(n_frames, n_frames+1)))] *)
Definition frame_indices (a : args) : list Z :=
  range (Z.min (n_frames a) (n_frames a + 1)).

(** The body of the loop at index [i]. *)
Definition video_frame (a : args) (i : Z) : list event * result unit :=
  let '(start_frame, end_frame) := video_render_range a in
  let smoothing := set_camera_smoothing (video_camera_smoothing a) in
  if (0 <=? start_frame) && (i <? start_frame) then
    ([smoothing; render 32 32 1 i (n_frames a) (video_fps a)], Ok tt)
  else if (0 <=? end_frame) && (end_frame <? i) then
    ([smoothing], Ok tt)
  else
    let full :=
      render (int_or (width a) 1920) (int_or (height a) 1080) (video_spp a)
             i (n_frames a) (video_fps a) in
    if save_frames a then
      match percent_format (video_output a) i with
      | Ok name => ([smoothing; full; write_image (frame_file name)], Ok tt)
      | Raise e => ([smoothing; full], Raise e)
      end
    else ([smoothing; full; write_image (tmp_jpg i)], Ok tt).

Fixpoint video_loop (a : args) (indices : list Z) : list event * result unit :=
  match indices with
  | [] => ([], Ok tt)
  | i :: rest =>
      match video_frame a i with
      | (evs, Ok _) => let '(evs', r) := video_loop a rest in (evs ++ evs', r)
      | (evs, Raise e) => (evs, Raise e)
      end
  end.

(** What the entry [tmp] of the working directory is, when the listing
    has one. *)
Inductive tmp_kind : Type :=
| a_directory
| a_symlink
| a_file.

(** [shutil.rmtree("tmp")] on that entry: it removes a directory, refuses a
    symbolic link with [OSError], and raises [NotADirectoryError] on
    anything else.  The event stands for the removal. *)
Definition remove_old_tmp (tmp : tmp_kind) : list event * result unit :=
  match tmp with
  | a_directory => ([rmtree "tmp"], Ok tt)
  | a_symlink => ([], Raise OSError)
  | a_file => ([], Raise NotADirectoryError)
  end.

(** [if args.video_camera_path:]; [cwd] is what [os.listdir()] returns and
    [tmp] what its entry [tmp] is.  The directory the script creates itself
    is removed at the end. *)
Definition render_video (a : args) (cwd : list string) (tmp : tmp_kind)
  : list event * result unit :=
  if truthy (video_camera_path a) then
    let load := load_camera_path (video_camera_path a) in
    match (if str_in "tmp" cwd then remove_old_tmp tmp else ([], Ok tt)) with
    | (old, Raise e) => (load :: old, Raise e)
    | (old, Ok _) =>
        let setup := load :: old ++ [makedirs "tmp"] in
        match video_loop a (frame_indices a) with
        | (evs, Ok _) =>
            (setup ++ evs
             ++ (if negb (save_frames a) then [ffmpeg (video_fps a) (video_output a)]
                 else [])
             ++ [rmtree "tmp"], Ok tt)
        | (evs, Raise e) => (setup ++ evs, Raise e)
        end
    end
  else ([], Ok tt).

End WithFormat.
End Video.

(* ================================================================== *)
(** * The SSIM snippet *)

(** OpenCV and scikit-image, as the snippet uses them. *)
Class Vision {Fl : FloatOps} : Type := {
  (** a colour image, as [cv2.imread] returns it *)
  image : Type;
  gray : Type;
  (** [cv2.cvtColor(img, cv2.COLOR_BGR2GRAY)] *)
  cvtColor : image -> gray;
  (** the score of [structural_similarity(a, b, full=True)]; raises
      [ValueError] on images it cannot compare *)
  structural_similarity : gray -> gray -> Py.result F
}.

Module Ssim.
Import Py Num.

Section WithVision.
Context {Fl : FloatOps} {Vi : Vision}.

(** The files the snippet finds: [cv2.imread] returns [None] for a path it
    cannot read, [os.listdir] raises for a missing directory. *)
Record world : Type := mkWorld {
  imread : string -> option image;
  listdir : string -> result (list string)
}.

Inductive event : Type :=
| read_image (path : string)
| list_directory (path : string)
| print_ssim (score : F)
| print_average (v : F).

Definition run (A : Type) : Type := list event * result A.

Definition ret {A} (a : A) : run A := ([], Ok a).
Definition emit (e : event) : run unit := ([e], Ok tt).
Definition lift {A} (r : result A) : run A := ([], r).
Definition rbind {A B} (m : run A) (k : A -> run B) : run B :=
  match m with
  | (t, Ok a) => let '(t', r) := k a in (t ++ t', r)
  | (t, Raise e) => (t, Raise e)
  end.

Definition cv2_imread (w : world) (path : string) : run (option image) :=
  ([read_image path], Ok (imread w path)).

(** [cv2.cvtColor] on what [cv2.imread] returned: an error on [None]. *)
Definition cv2_cvtColor (img : option image) : result gray :=
  match img with
  | Some i => Ok (cvtColor i)
  | None => Raise Cv2Error
  end.

Definition path : string := "black_toy".

(** Steps 3 to 6: the two fixed images and their score. *)
Definition header (w : world) : run (gray * gray) :=
  rbind (cv2_imread w "black_toy/images/564.png") (fun imageA =>
  rbind (cv2_imread w "black_toy/test_output/564.png") (fun imageB =>
  rbind (lift (cv2_cvtColor imageA)) (fun grayA =>
  rbind (lift (cv2_cvtColor imageB)) (fun grayB =>
  rbind (lift (structural_similarity grayA grayB)) (fun score =>
  rbind (emit (print_ssim score)) (fun _ =>
  ret (grayA, grayB))))))).

(** [for image in images: ...]: returns [total]. *)
Fixpoint directory_loop (w : world) (grayA grayB : gray) (images : list string)
  (total : list F) : run (list F) :=
  match images with
  | [] => ret total
  | image :: images' =>
      let generated := (path ++ "/test_output/" ++ image)%string in
      let original := (path ++ "/images/" ++ image)%string in
      rbind (cv2_imread w generated) (fun generated =>
      rbind (cv2_imread w original) (fun original =>
      rbind (lift (structural_similarity grayA grayB)) (fun score =>
      directory_loop w grayA grayB images' (total ++ [score]))))
  end.

(** Lines 41 to 51, after the header left [grayA] and [grayB]. *)
Definition directory_average (w : world) (grayA grayB : gray) : run unit :=
  rbind ([list_directory (path ++ "/test_output")%string],
         listdir w (path ++ "/test_output")%string) (fun images =>
  rbind (directory_loop w grayA grayB images []) (fun total =>
  rbind (lift (py_mean total)) (fun avg =>
  emit (print_average avg)))).

(** The whole module. *)
Definition ssim_script (w : world) : run unit :=
  rbind (header w) (fun '(grayA, grayB) => directory_average w grayA grayB).

(** Following the spec's words: the score of the two hardcoded images, in
    grayscale. *)
Definition spec_header_score (w : world) : result F :=
  grayA <- cv2_cvtColor (imread w "black_toy/images/564.png") ;;
  grayB <- cv2_cvtColor (imread w "black_toy/test_output/564.png") ;;
  structural_similarity grayA grayB.

(** Following the spec's words: the score of a generated image against the
    reference image of the same name. *)
Definition spec_pair_score (w : world) (image : string) : result F :=
  grayG <- cv2_cvtColor (imread w (path ++ "/test_output/" ++ image)%string) ;;
  grayO <- cv2_cvtColor (imread w (path ++ "/images/" ++ image)%string) ;;
  structural_similarity grayG grayO.

End WithVision.
End Ssim.

(* ================================================================== *)
(** * The pose pipeline, step by step *)

(** Following the spec's words: handeye calibration, world-centering, axis
    flip, scaling, derivation of the view.  Each step is written out on the
    entries of the matrix, to be compared with the in-place updates of the
    script. *)
Module PoseSpec.
Import Py Num Driver.

Section WithEngine.
Context {Fl : FloatOps} {La : LinAlg}.

(** Step 1: left-multiply the inverse of the tracking matrix by [camera2tool]. *)
Definition handeye (c : calibration) (tracking0 : mat4) : result mat4 :=
  inv <- linalg_inv tracking0 ;;
  Ok (matmul4 (camera2tool c) inv).

(** Step 2: right-multiply by [world_center], then by [tool2camera]. *)
Definition world_centering (c : calibration) (t : mat4) : mat4 :=
  matmul4 (matmul4 t (world_center c)) (tool2camera c).

Definition neg (a : F) : F := fmul a (of_int (-1)).

(** Step 3: invert; flip the sign of columns 1 and 2 in rows 0 to 2; take
    the rows in the order 1, 0, 2, 3; negate row 2. *)
Definition axis_flip (t : mat4) : result mat4 :=
  i <- linalg_inv t ;;
  let r0 := row0 i in
  let r1 := row1 i in
  let r2 := row2 i in
  Ok (M4 (V4 (e0 r1) (neg (e1 r1)) (neg (e2 r1)) (e3 r1))
         (V4 (e0 r0) (neg (e1 r0)) (neg (e2 r0)) (e3 r0))
         (V4 (neg (e0 r2)) (neg (neg (e1 r2))) (neg (neg (e2 r2))) (neg (e3 r2)))
         (row3 i)).

(** Step 4: the translation column times 4.0 over the mean of [post_avglen]. *)
Definition scaling (c : calibration) (t : mat4) : result mat4 :=
  mean <- py_mean (post_avglen c) ;;
  k <- py_div (lit 40 (-1)) mean ;;
  let scaled r := V4 (e0 r) (e1 r) (e2 r) (fmul (e3 r) k) in
  Ok (M4 (scaled (row0 t)) (scaled (row1 t)) (scaled (row2 t)) (row3 t)).

(** What the engine is left with. *)
Record view : Type := mkView {
  view_matrix : mat4;
  look_at : vec3;
  view_dir : vec3;
  up_dir : vec3
}.

(** Step 5: [look_at] from the translation, [view_dir] from the third
    column of the rotation and [up_dir] from its second column. *)
Definition derive_view (t : mat4) : view :=
  let tx := e3 (row0 t) in
  let ty := e3 (row1 t) in
  let tz := e3 (row2 t) in
  {| view_matrix := t;
     look_at := V3 (fadd (lit 5 (-1)) (fdiv ty (lit 28913 (-2))))
                   (fadd (lit 5 (-1)) (fmul tz (lit 36754 (-7))))
                   (fadd (lit 5 (-1)) (fdiv tx (lit 3137255 (-4))));
     view_dir := V3 (fneg (e2 (row1 t))) (fneg (e2 (row2 t))) (fneg (e2 (row0 t)));
     up_dir := V3 (e1 (row1 t)) (e1 (row2 t)) (e1 (row0 t)) |}.

Definition pipeline (c : calibration) (tracking0 : mat4) : result view :=
  t <- handeye c tracking0 ;;
  let t := world_centering c t in
  t <- axis_flip t ;;
  t <- scaling c t ;;
  Ok (derive_view t).

(** ** Reading a run of the loop body *)

Fixpoint last_look_at (t : list event) (acc : option vec3) : option vec3 :=
  match t with
  | [] => acc
  | set_look_at v :: t' => last_look_at t' (Some v)
  | _ :: t' => last_look_at t' acc
  end.

Fixpoint last_view_dir (t : list event) (acc : option vec3) : option vec3 :=
  match t with
  | [] => acc
  | set_view_dir v :: t' => last_view_dir t' (Some v)
  | _ :: t' => last_view_dir t' acc
  end.

Fixpoint last_up_dir (t : list event) (acc : option vec3) : option vec3 :=
  match t with
  | [] => acc
  | set_up_dir v :: t' => last_up_dir t' (Some v)
  | _ :: t' => last_up_dir t' acc
  end.

(** The pose a run of the body leaves: the script's [transform_matrix] and
    the last value written to each of the three attributes. *)
Record pose : Type := mkPose {
  pose_matrix : option mat4;
  pose_look_at : option vec3;
  pose_view_dir : option vec3;
  pose_up_dir : option vec3
}.

Definition pose_of (r : run Training.locals) : result pose :=
  match r with
  | (t, Ok st) =>
      Ok {| pose_matrix := Training.transform_matrix st;
            pose_look_at := last_look_at t None;
            pose_view_dir := last_view_dir t None;
            pose_up_dir := last_up_dir t None |}
  | (_, Raise e) => Raise e
  end.

Definition pose_of_view (v : view) : pose :=
  {| pose_matrix := Some (view_matrix v);
     pose_look_at := Some (look_at v);
     pose_view_dir := Some (view_dir v);
     pose_up_dir := Some (up_dir v) |}.

(** Every write of the three attributes, in order. *)
Definition is_pose_write (e : event) : bool :=
  match e with
  | set_look_at _ | set_view_dir _ | set_up_dir _ => true
  | _ => false
  end.

Definition pose_writes_of {A} (r : run A) : list event :=
  filter is_pose_write (trace r).

Definition matrix_of (r : run Training.locals) : result (option mat4) :=
  match outcome r with
  | Ok st => Ok (Training.transform_matrix st)
  | Raise e => Raise e
  end.

End WithEngine.
End PoseSpec.

(* ================================================================== *)
(** * Instances to compute with *)

(** Exact rationals in place of doubles, an exact inverse by cofactors, and
    one-pixel images.  They serve to run the definitions above on concrete
    inputs; nothing proved for every instance depends on them. *)
Module Concrete.
Import Py Num.

Definition q_lit (m e : Z) : Q := Qred (inject_Z m * Qpower (10 # 1) e).

(** 7071/10000 stands for the cosine and the sine of 45 degrees, the only
    angle the driver asks for. *)
Definition q_float : FloatOps := {|
  F := Q;
  of_int := inject_Z;
  lit := q_lit;
  fadd := fun a b => Qred (a + b);
  fsub := fun a b => Qred (a - b);
  fmul := fun a b => Qred (a * b);
  fdiv := fun a b => Qred (a / b);
  fneg := fun a => Qred (- a);
  feqb := Qeq_bool;
  fltb := fun a b => negb (Qle_bool b a);
  fleb := Qle_bool;
  fis_zero := fun a => Qeq_bool a 0;
  fisnan := fun _ => false;
  fsum := fun l => Qred (fold_left Qplus l 0%Q);
  cos_deg := fun _ => (7071 # 10000)%Q;
  sin_deg := fun _ => (7071 # 10000)%Q
|}.

Definition q_mat4 : Type := @mat4 q_float.
Definition q_mat3 : Type := @mat3 q_float.

Definition rows4 (m : q_mat4) : list (list Q) :=
  map (fun r : @vec4 q_float => [e0 r; e1 r; e2 r; e3 r])
      [row0 m; row1 m; row2 m; row3 m].

Definition rows3 (m : q_mat3) : list (list Q) :=
  map (fun r : @vec3 q_float => [x0 r; x1 r; x2 r]) [m3r0 m; m3r1 m; m3r2 m].

Definition entry (m : list (list Q)) (i k : nat) : Q := nth k (nth i m []) 0%Q.

Definition of_rows4 (m : list (list Q)) : q_mat4 :=
  let r i := @V4 q_float (entry m i 0) (entry m i 1) (entry m i 2) (entry m i 3) in
  @M4 q_float (r 0%nat) (r 1%nat) (r 2%nat) (r 3%nat).

Definition of_rows3 (m : list (list Q)) : q_mat3 :=
  let r i := @V3 q_float (entry m i 0) (entry m i 1) (entry m i 2) in
  @M3 q_float (r 0%nat) (r 1%nat) (r 2%nat).

Definition qsum (l : list Q) : Q := Qred (fold_left Qplus l 0%Q).

(** The product of an n x n matrix with another, by rows and columns. *)
Definition product (n : nat) (a b : list (list Q)) : list (list Q) :=
  map (fun i =>
         map (fun k => qsum (map (fun l => (entry a i l * entry b l k)%Q) (seq 0 n)))
             (seq 0 n))
      (seq 0 n).

Fixpoint drop_nth {A} (n : nat) (l : list A) : list A :=
  match n, l with
  | _, [] => []
  | O, _ :: t => t
  | S k, h :: t => h :: drop_nth k t
  end.

Definition sign (n : nat) : Q := if Nat.even n then 1%Q else (-1)%Q.

(** The determinant of a [size] x [size] matrix, along its first row. *)
Fixpoint det (size : nat) (m : list (list Q)) : Q :=
  match size, m with
  | S k, r :: rest =>
      qsum (map (fun '(c, a) => (sign c * a * det k (map (drop_nth c) rest))%Q)
                (combine (seq 0 (S k)) r))
  | _, _ => 1%Q
  end.

Definition cofactor (m : list (list Q)) (i k : nat) : Q :=
  (sign (i + k) * det 3 (map (drop_nth k) (drop_nth i m)))%Q.

Definition inverse4 (m : q_mat4) : result q_mat4 :=
  let l := rows4 m in
  let d := det 4 l in
  if Qeq_bool d 0 then Raise LinAlgError
  else
    Ok (of_rows4 (map (fun i => map (fun k => Qred (cofactor l k i / d)) (seq 0 4))
                      (seq 0 4))).

Definition q_linalg : @LinAlg q_float := {|
  linalg_inv := inverse4;
  matmul4 := fun a b => of_rows4 (product 4 (rows4 a) (rows4 b));
  matmul3 := fun a b => of_rows3 (product 3 (rows3 a) (rows3 b))
|}.

(** Images of one gray level; two images score 1 when they are equal and 0
    when they are not. *)
Definition pixel_vision : @Vision q_float := {|
  image := Z;
  gray := Z;
  cvtColor := fun i => i;
  structural_similarity := fun a b => @Ok (@F q_float) (if a =? b then 1%Q else 0%Q)
|}.

Definition q (n : Z) : Q := inject_Z n.

Definition mk4 (a b c d e f g h i j k l m n o p : Z) : q_mat4 :=
  @M4 q_float (@V4 q_float (q a) (q b) (q c) (q d)) (@V4 q_float (q e) (q f) (q g) (q h))
      (@V4 q_float (q i) (q j) (q k) (q l)) (@V4 q_float (q m) (q n) (q o) (q p)).

Definition identity4 : q_mat4 := mk4 1 0 0 0  0 1 0 0  0 0 1 0  0 0 0 1.

(** A tracking sample: the tool turned a quarter about z, at (10, 20, 30). *)
Definition sample_tracking : q_mat4 := mk4 0 (-1) 0 10  1 0 0 20  0 0 1 30  0 0 0 1.

Definition sample_calibration : @Driver.calibration q_float :=
  @Driver.mkCalibration q_float
    (mk4 1 0 0 1  0 1 0 2  0 0 1 3  0 0 0 1)
    (mk4 1 0 0 (-1)  0 1 0 (-2)  0 0 1 (-3)  0 0 0 1)
    (mk4 1 0 0 5  0 1 0 0  0 0 1 0  0 0 0 1)
    [q 1; q 3]
    identity4.

Definition zero3 : @vec3 q_float := @V3 q_float (q 0) (q 0) (q 0).

(** Nothing pressed, every clock at 1, the engine at rest. *)
Definition sample_ambient : @Driver.ambient q_float :=
  @Driver.mkAmbient q_float (q 0) false false false
    (q 1) (q 1) (q 1) (q 1) (q 1) (q 1)
    (@Driver.mkCamera q_float zero3 zero3 zero3 zero3)
    false 0 (q 0) (q 1).

Definition sample_files : @Training.files q_float :=
  @Training.mkFiles q_float
    (Driver.tool2camera sample_calibration)
    (Driver.world_center sample_calibration)
    (Driver.post_avglen sample_calibration)
    identity4.

Definition sample_frame : @Driver.frame_obs q_float :=
  @Driver.mkFrame q_float sample_tracking sample_ambient.

(** A later iteration: the timer has moved, [l] and space are down, and the
    loop has seen three presses and another pose. *)
Definition pressed_ambient : @Driver.ambient q_float :=
  @Driver.mkAmbient q_float (q 7) true true true
    (q 100) (q 101) (q 102) (q 103) (q 104) (q 105)
    (@Driver.mkCamera q_float zero3 zero3 zero3 zero3)
    true 12 (q 0) (q 106).

Definition later_locals : @Training.locals q_float :=
  @Training.mkLocals q_float true (Some identity4)
    (@Training.mkEval q_float 3 false (q 50) 9 (q 0) (Some (q 60)) [q 4] [] [])
    10 (q 99).

(** The frame of that later iteration. *)
Definition pressed_frame : @Driver.frame_obs q_float :=
  @Driver.mkFrame q_float sample_tracking pressed_ambient.

(** Two pairs: [564.png] is rendered exactly, [565.png] is not. *)
Definition two_pairs : @Ssim.world q_float pixel_vision :=
  @Ssim.mkWorld q_float pixel_vision
    (fun p =>
       if (p =? "black_toy/images/564.png")%string then Some 10
       else if (p =? "black_toy/test_output/564.png")%string then Some 10
       else if (p =? "black_toy/images/565.png")%string then Some 20
       else if (p =? "black_toy/test_output/565.png")%string then Some 99
       else None)
    (fun d =>
       if (d =? "black_toy/test_output")%string
       then Ok ["564.png"%string; "565.png"%string]
       else Raise FileNotFoundError).

(** Reference images, and an output directory with nothing in it. *)
Definition empty_output : @Ssim.world q_float pixel_vision :=
  @Ssim.mkWorld q_float pixel_vision
    (fun p => if (p =? "black_toy/images/564.png")%string then Some 10 else None)
    (fun d =>
       if (d =? "black_toy/test_output")%string then Ok [] else Raise FileNotFoundError).

(** Both hardcoded images were read, and the output directory has been
    emptied by the time it is listed. *)
Definition emptied_output : @Ssim.world q_float pixel_vision :=
  @Ssim.mkWorld q_float pixel_vision
    (fun p =>
       if (p =? "black_toy/images/564.png")%string then Some 10
       else if (p =? "black_toy/test_output/564.png")%string then Some 10
       else None)
    (fun d =>
       if (d =? "black_toy/test_output")%string then Ok [] else Raise FileNotFoundError).

(** A formatter that hands the name back: for the runs whose name has no
    ['%'], which never format. *)
Definition plain_format (s : string) (i : Z) : result string := Ok s.

(** ** Python's [name % i] on the names of the examples

    The name is scanned from the left.  A conversion is [%d], with an
    optional flag [0] and a width as in [%04d]; [%%] is a percent sign.  As
    CPython does, the scan raises [ValueError] at a conversion character it
    does not know (so at [%q]) and at a name that ends inside a conversion,
    and [TypeError] at a name with no conversion or with a second one.  The
    other conversions, flags and precisions of Python ([%s], [%x], [%-4d],
    ...) are not covered: they go the way of [%q]. *)

Definition is_digit (c : ascii) : bool :=
  ((48 <=? nat_of_ascii c) && (nat_of_ascii c <=? 57))%nat.

Definition digit_value (c : ascii) : nat := nat_of_ascii c - 48.

Fixpoint fill (c : ascii) (n : nat) (s : string) : string :=
  match n with
  | O => s
  | S n' => String c (fill c n' s)
  end.

(** [i] under [%d], [%<width>d] or [%0<width>d]. *)
Definition format_d (zero : bool) (width : nat) (i : Z) : string :=
  let digits := NilZero.string_of_uint (N.to_uint (Z.abs_N i)) in
  if i <? 0 then
    if zero then String "-" (fill "0" (width - 1 - String.length digits) digits)
    else fill " " (width - 1 - String.length digits) (String "-" digits)
  else fill (if zero then "0" else " ")%char (width - String.length digits) digits.

(** Where the scan is: in the text of the name, or after a [%]. *)
Inductive scan : Type :=
| in_text
| in_conversion (zero : bool) (width : option nat).

Fixpoint percent_scan (s : string) (i : Z) (st : scan) (used : bool) : result string :=
  match s, st with
  | EmptyString, in_text => if used then Ok EmptyString else Raise TypeError
  | EmptyString, in_conversion _ _ => Raise ValueError
  | String c rest, in_text =>
      if Ascii.eqb c "%" then percent_scan rest i (in_conversion false None) used
      else t <- percent_scan rest i in_text used ;; Ok (String c t)
  | String c rest, in_conversion zero width =>
      if is_digit c then
        match width with
        | None =>
            if Ascii.eqb c "0" && negb zero
            then percent_scan rest i (in_conversion true None) used
            else percent_scan rest i (in_conversion zero (Some (digit_value c))) used
        | Some w =>
            percent_scan rest i (in_conversion zero (Some (10 * w + digit_value c)%nat)) used
        end
      else if Ascii.eqb c "%" then
        t <- percent_scan rest i in_text used ;; Ok (String "%" t)
      else if used then Raise TypeError
      else if Ascii.eqb c "d" then
        t <- percent_scan rest i in_text true ;;
        Ok (format_d zero (match width with Some w => w | None => O end) i ++ t)%string
      else Raise ValueError
  end.

Definition percent_d (s : string) (i : Z) : result string :=
  percent_scan s i in_text false.

End Concrete.

(* ================================================================== *)
(** * Command lines to compute with *)

Module Inputs.
Import Cli.

Definition with_flags (vr gui ndi : bool) (snapshot : option string)
  (steps : option Z) : cli := {|
  cli_vr := vr; cli_gui := gui; cli_ndi := ndi; cli_train := false;
  cli_evaluation := false; cli_second_window := false;
  cli_video_camera_smoothing := false;
  cli_n_steps := steps; cli_load_snapshot := snapshot;
  cli_test_transforms := None;
  cli_width := None; cli_height := None; cli_row := None;
  cli_video_camera_path := None; cli_video_fps := None;
  cli_video_n_seconds := None; cli_video_render_range := None;
  cli_video_spp := None; cli_video_output := None
|}.

(** [--load_snapshot base.ingp] *)
Definition snapshot_cli : cli :=
  with_flags false false false (Some "base.ingp"%string) None.

(** [--load_snapshot base.ingp --vr] *)
Definition vr_snapshot_cli : cli :=
  with_flags true false false (Some "base.ingp"%string) None.

(** [--vr --ndi] *)
Definition vr_ndi_cli : cli := with_flags true false true None None.

(** [--gui --ndi --evaluation] *)
Definition evaluation_cli : cli := {|
  cli_vr := false; cli_gui := true; cli_ndi := true; cli_train := false;
  cli_evaluation := true; cli_second_window := false;
  cli_video_camera_smoothing := false;
  cli_n_steps := None; cli_load_snapshot := None; cli_test_transforms := None;
  cli_width := None; cli_height := None; cli_row := None;
  cli_video_camera_path := None; cli_video_fps := None;
  cli_video_n_seconds := None; cli_video_render_range := None;
  cli_video_spp := None; cli_video_output := None
|}.

(** [--gui --ndi] *)
Definition gui_ndi_cli : cli := with_flags false true true None None.

(** [--video_camera_path cam.json --video_n_seconds 1 --video_fps 10
     --video_render_range START END], frames to [out_%04d.png] when
    [frames] is set and a video [out.mp4] otherwise. *)
Definition video_cli (seconds : Z) (range : Z * Z) (frames : bool) : cli := {|
  cli_vr := false; cli_gui := false; cli_ndi := false; cli_train := false;
  cli_evaluation := false; cli_second_window := false;
  cli_video_camera_smoothing := false;
  cli_n_steps := None; cli_load_snapshot := None; cli_test_transforms := None;
  cli_width := None; cli_height := None; cli_row := None;
  cli_video_camera_path := Some "cam.json"%string;
  cli_video_fps := Some 10;
  cli_video_n_seconds := Some seconds;
  cli_video_render_range := Some range;
  cli_video_spp := None;
  cli_video_output := Some (if frames then "out_%04d.png" else "out.mp4")%string
|}.

(** The same with [--video_output NAME]. *)
Definition video_named_cli (seconds : Z) (range : Z * Z) (name : string) : cli := {|
  cli_vr := false; cli_gui := false; cli_ndi := false; cli_train := false;
  cli_evaluation := false; cli_second_window := false;
  cli_video_camera_smoothing := false;
  cli_n_steps := None; cli_load_snapshot := None; cli_test_transforms := None;
  cli_width := None; cli_height := None; cli_row := None;
  cli_video_camera_path := Some "cam.json"%string;
  cli_video_fps := Some 10;
  cli_video_n_seconds := Some seconds;
  cli_video_render_range := Some range;
  cli_video_spp := None;
  cli_video_output := Some name
|}.

(** [--gui --ndi --n_steps 0] *)
Definition zero_steps_cli : cli := with_flags false true true None (Some 0).

(** [--n_steps 5] *)
Definition five_steps_cli : cli := with_flags false false false None (Some 5).

(** [--gui --width W --height H] *)
Definition window_cli (w h : Z) : cli := {|
  cli_vr := false; cli_gui := true; cli_ndi := false; cli_train := false;
  cli_evaluation := false; cli_second_window := false;
  cli_video_camera_smoothing := false;
  cli_n_steps := None; cli_load_snapshot := None; cli_test_transforms := None;
  cli_width := Some w; cli_height := Some h; cli_row := None;
  cli_video_camera_path := None; cli_video_fps := None;
  cli_video_n_seconds := None; cli_video_render_range := None;
  cli_video_spp := None; cli_video_output := None
|}.

End Inputs.

(* ================================================================== *)
(** * Reading the trace of the driver *)

Module Observe.
Import Driver.

Section WithEngine.
Context {Fl : FloatOps}.

(** The calls of the tracker, and the frames of the loop. *)
Definition is_tracker_or_frame (e : event) : bool :=
  match e with
  | NDITracker_init _ | start_tracking | get_frame | frame => true
  | _ => false
  end.

(** The trace cut down to the tracker and the frames. *)
Definition tracker_view (t : list event) : list event :=
  filter is_tracker_or_frame t.

(** What the evaluation block emits. *)
Definition is_press_or_stdout (e : event) : bool :=
  match e with
  | set_pressnum _ _ _ | stdout _ => true
  | _ => false
  end.

(** [n] iterations of the loop, each polling the tracker once. *)
Definition polled_frames (n : nat) : list event :=
  List.concat (repeat [frame; get_frame] n).

End WithEngine.
End Observe.

(* ================================================================== *)
(** * Reading the trace of a video run *)

Module VideoObserve.
Import Video.

Definition is_ffmpeg (e : event) : bool :=
  match e with ffmpeg _ _ => true | _ => false end.

End VideoObserve.

(* ================================================================== *)
(** * Reading the trace of the training loop *)

Module LoopObserve.
Import Driver Training.

Section WithEngine.
Context {Fl : FloatOps}.

Definition is_set_pressnum (e : event) : bool :=
  match e with set_pressnum _ _ _ => true | _ => false end.

Definition is_engine_write (e : event) : bool :=
  match e with
  | get_frame | frame | stdout _ | repl
  | tqdm_reset | tqdm_update _ | tqdm_set_postfix _
  | NDITracker_init _ | start_tracking => false
  | _ => true
  end.

(** The last value written to [testbed.pressnum]. *)
Fixpoint last_pressnum (t : list event) (acc : option (Z * Z * Z))
  : option (Z * Z * Z) :=
  match t with
  | [] => acc
  | set_pressnum a b c :: t' => last_pressnum t' (Some (a, b, c))
  | _ :: t' => last_pressnum t' acc
  end.

(** The amounts handed to [t.update]. *)
Fixpoint tqdm_updates (t : list event) : list Z :=
  match t with
  | [] => []
  | tqdm_update n :: t' => n :: tqdm_updates t'
  | _ :: t' => tqdm_updates t'
  end.

(** The counters of the evaluation agree: [j] counts the presses since the
    last reset, [press_count] all of them, and every press left one entry in
    [stream_list]. *)
Definition counters_agree (s : eval_state) : Prop :=
  0 <= j s <= press_count s
  /\ Z.of_nat (List.length (stream_list s)) = press_count s.

(** The block recorded a press. *)
Definition recorded (s s' : eval_state) : bool :=
  press_count s' =? press_count s + 1.

(** A run that returns, and what it returns ([d] when it raises). *)
Definition completes {A} (r : run A) : bool :=
  match outcome r with Py.Ok _ => true | Py.Raise _ => false end.

Definition final {A} (d : A) (r : run A) : A :=
  match outcome r with Py.Ok x => x | Py.Raise _ => d end.

End WithEngine.
End LoopObserve.

(* ================================================================== *)
(** * Reading the frames of a video run *)

Module VideoFrames.
Import Cli Video.

(** Following the help of [--video_render_range]: the frames between
    START_FRAME and END_FRAME, both included, a negative bound being no
    bound. *)
Definition in_render_range (a : args) (i : Z) : bool :=
  ((fst (video_render_range a) <? 0) || (fst (video_render_range a) <=? i))
  && ((snd (video_render_range a) <? 0) || (i <=? snd (video_render_range a))).

(** The indices of the frames written to [tmp]. *)
Fixpoint written_tmp (t : list event) : list Z :=
  match t with
  | [] => []
  | write_image (tmp_jpg i) :: t' => i :: written_tmp t'
  | _ :: t' => written_tmp t'
  end.

(** The names of the frames written under a formatted name. *)
Fixpoint written_files (t : list event) : list string :=
  match t with
  | [] => []
  | write_image (frame_file name) :: t' => name :: written_files t'
  | _ :: t' => written_files t'
  end.

(** A render whose shutter times [float(i)/n_frames] and
    [float(i + 1)/n_frames] are defined and lie between 0 and 1. *)
Definition shutter_defined (e : event) : bool :=
  match e with
  | render _ _ _ i n _ => (0 <=? i) && (i <? n)
  | _ => true
  end.

Definition is_rmtree (e : event) : bool :=
  match e with rmtree _ => true | _ => false end.

End VideoFrames.

(* ================================================================== *)
(** * Reading the trace of the evaluation *)

Module EvaluateObserve.
Import Evaluate.

Section WithMetrics.
Context {Fl : FloatOps}.
Variable image : Type.

Definition written (t : list (event image)) : list (string * image) :=
  flat_map (fun e => match e with
                     | write_image _ name img => [(name, img)]
                     | _ => []
                     end) t.

Definition is_set_postfix (e : event image) : bool :=
  match e with set_postfix _ _ => true | _ => false end.

End WithMetrics.
End EvaluateObserve.

(* ================================================================== *)
(** * Reading the trace of the SSIM snippet *)

Module SsimObserve.
Import Ssim.

Section WithFloat.
Context {Fl : FloatOps}.

Definition is_read_image (e : event) : bool :=
  match e with read_image _ => true | _ => false end.

End WithFloat.
End SsimObserve.

(* ================================================================== *)
(** * The video loop, index by index *)

Module VideoRun.
Import Py Cli Video VideoFrames.

Section WithFormat.
Variable percent_format : string -> Z -> result string.

(** The exception that stops the loop at index [i], if there is one: the
    frame is rendered at full resolution, it is to be written under a
    formatted name, and the name cannot be formatted. *)
Definition stops_at (a : args) (i : Z) : option exn :=
  if in_render_range a i && save_frames a then
    match percent_format (video_output a) i with
    | Raise e => Some e
    | Ok _ => None
    end
  else None.

(** The indices the loop reaches: every index up to the first that stops
    it, that one included. *)
Fixpoint reached (a : args) (indices : list Z) : list Z :=
  match indices with
  | [] => []
  | i :: rest =>
      i :: match stops_at a i with
           | Some _ => []
           | None => reached a rest
           end
  end.

(** How the loop ends: with the exception of the first index that stops
    it, or normally. *)
Fixpoint loop_result (a : args) (indices : list Z) : result unit :=
  match indices with
  | [] => Ok tt
  | i :: rest =>
      match stops_at a i with
      | Some e => Raise e
      | None => loop_result a rest
      end
  end.

End WithFormat.

(** An old [tmp] is in the way when the listing has the name and it is not
    a directory. *)
Definition old_tmp_in_the_way (cwd : list string) (tmp : tmp_kind) : bool :=
  str_in "tmp" cwd
  && match tmp with a_directory => false | _ => true end.

End VideoRun.

(* ================================================================== *)
(** * The evaluation, metric by metric *)

Module EvaluateSpec.
Import Py Num Evaluate.

Section WithMetrics.
Context {Fl : FloatOps}.
Variable image : Type.
Variables compute_mse compute_ssim : image -> image -> F.
Variable mse2psnr : F -> F.
Variable srgb_clip : image -> image.

(** The metrics of a view (ground truth, rendering), both taken to clipped
    sRGB first. *)
Definition mse_of (v : image * image) : F :=
  compute_mse (srgb_clip (snd v)) (srgb_clip (fst v)).

Definition ssim_of (v : image * image) : F :=
  compute_ssim (srgb_clip (snd v)) (srgb_clip (fst v)).

Definition psnr_of (v : image * image) : F := mse2psnr (mse_of v).

(** A total: the values added one after the other, starting from 0. *)
Definition total (xs : list F) : F := fold_left fadd xs (of_int 0).

(** The least value, starting from 1000, and the greatest, starting from
    0: a value takes the place of the current one when it is strictly
    below, or strictly above. *)
Definition least (xs : list F) : F :=
  fold_left (fun m x => if fltb x m then x else m) xs (of_int 1000).

Definition greatest (xs : list F) : F :=
  fold_left (fun m x => if fltb m x then x else m) xs (of_int 0).

(** The values shown on the progress bar. *)
Fixpoint shown (t : list (event image)) : list F :=
  match t with
  | [] => []
  | set_postfix _ x :: t' => x :: shown t'
  | _ :: t' => shown t'
  end.

End WithMetrics.
End EvaluateSpec.

(* ================================================================== *)
(** * File systems of the SSIM snippet *)

Module SsimWorld.
Import Py Ssim.

Section WithVision.
Context {Fl : FloatOps} {Vi : Vision}.

(** The listing of the output directory and the reads agree: an image that
    [cv2.imread] finds in [black_toy/test_output] is listed there. *)
Definition listing_agrees (w : world) : Prop :=
  forall name img,
    imread w ("black_toy/test_output/" ++ name)%string = Some img ->
    exists images,
      listdir w "black_toy/test_output" = Ok images /\ In name images.

End WithVision.
End SsimWorld.

(* ================================================================== *)
(** * Facts: Python integers *)

Section PyFacts.
Import Py.

Lemma range_length (n : Z) : Z.of_nat (List.length (range n)) = Z.max 0 n.
Proof.
  unfold range. rewrite length_map, length_seq. lia.
Qed.

Lemma range_In (n i : Z) : In i (range n) <-> 0 <= i < n.
Proof.
  unfold range. rewrite in_map_iff. split.
  - intros [k [<- Hk]]. apply in_seq in Hk. lia.
  - intros H. exists (Z.to_nat i). split; [lia|]. apply in_seq. lia.
Qed.

(** Rounding to a double never doubles a positive integer. *)
Lemma round_to_double_lt (m : Z) : 0 < m -> 0 <= round_to_double m < 2 * m.
Proof.
  intros Hm. unfold round_to_double.
  destruct (Z.log2 m + 1 <=? DBL_MANT_DIG) eqn:Hbits; [lia|].
  apply Z.leb_gt in Hbits. unfold DBL_MANT_DIG in *.
  set (e := Z.log2 m + 1 - 53) in *.
  assert (He : 0 < e) by lia.
  pose proof (Z.log2_spec m Hm) as [Hlo _].
  assert (Hpow : 0 < 2 ^ e) by (apply Z.pow_pos_nonneg; lia).
  assert (Hq : 2 ^ 52 <= m / 2 ^ e).
  { apply Z.div_le_lower_bound; [lia|].
    rewrite <- Z.pow_add_r by lia.
    replace (e + 52) with (Z.log2 m) by lia. exact Hlo. }
  rewrite Z.shiftr_div_pow2 by lia.
  rewrite Z.shiftl_mul_pow2 by lia.
  set (q := m / 2 ^ e) in *.
  assert (Hdm : 2 ^ e * q <= m) by (apply Z.mul_div_le; lia).
  assert (H52 : 2 <= 2 ^ 52) by (change 2 with (2 ^ 1) at 1; apply Z.pow_le_mono_r; lia).
  destruct ((2 ^ (e - 1) <? m mod 2 ^ e)
            || (m mod 2 ^ e =? 2 ^ (e - 1)) && Z.odd q); nia.
Qed.

(** [int(n / 2)] is strictly closer to zero than a non-zero [n]. *)
Lemma int_of_half_shrinks (n n' : Z) :
  int_of_half n = Ok n' -> n <> 0 -> Z.abs n' < Z.abs n.
Proof.
  unfold int_of_half. intros H Hn.
  destruct (2 ^ (DBL_MAX_EXP + 1) <=? round_to_double (Z.abs n)); [discriminate|].
  injection H as <-.
  pose proof (round_to_double_lt (Z.abs n) ltac:(lia)) as Hr.
  set (r := round_to_double (Z.abs n)) in *.
  rewrite <- Z.quot_abs by lia. rewrite Z.abs_mul.
  replace (Z.abs (Z.sgn n)) with 1 by (destruct n; [contradiction | reflexivity ..]).
  rewrite Z.mul_1_l, (Z.abs_eq r) by lia. change (Z.abs 2) with 2.
  rewrite Z.quot_div_nonneg by lia.
  apply Z.div_lt_upper_bound; lia.
Qed.

End PyFacts.

(* ================================================================== *)
(** * Facts: GUI resolution and number of training steps *)

Section SetupFacts.
Import Py Cli Setup.

Lemma halve_resolution_enough_fuel (fuel : nat) :
  forall sw sh, Z.abs sw < Z.of_nat fuel ->
  exists r, halve_resolution fuel sw sh = Some r
            /\ forall a b, r = Ok (a, b) -> a * b <= MAX_PIXELS.
Proof.
  induction fuel as [|fuel IH]; intros sw sh Hfuel; [lia|].
  cbn [halve_resolution].
  destruct (MAX_PIXELS <? sw * sh) eqn:Hbig.
  - apply Z.ltb_lt in Hbig.
    assert (Hsw : sw <> 0) by (unfold MAX_PIXELS in Hbig; nia).
    destruct (int_of_half sw) as [sw'|e] eqn:Hsw'.
    + pose proof (int_of_half_shrinks _ _ Hsw' Hsw).
      destruct (int_of_half sh) as [sh'|e].
      * apply IH. lia.
      * exists (Raise e). split; [reflexivity | discriminate].
    + exists (Raise e). split; [reflexivity | discriminate].
  - apply Z.ltb_ge in Hbig.
    exists (Ok (sw, sh)). split; [reflexivity|].
    intros a b H. injection H as <- <-. exact Hbig.
Qed.

Lemma halve_resolution_more_fuel (fuel : nat) :
  forall sw sh r, halve_resolution fuel sw sh = Some r ->
  forall fuel', (fuel <= fuel')%nat -> halve_resolution fuel' sw sh = Some r.
Proof.
  induction fuel as [|fuel IH]; intros sw sh r H fuel' Hle; [discriminate|].
  destruct fuel' as [|fuel']; [lia|].
  cbn [halve_resolution] in *.
  destruct (MAX_PIXELS <? sw * sh); [|exact H].
  destruct (int_of_half sw); [|exact H].
  destruct (int_of_half sh); [|exact H].
  apply (IH _ _ _ H). lia.
Qed.

(** Whatever [--width] and [--height] are (0 stands for 1920 and for
    1080), the halving loop of the GUI branch terminates: with enough fuel
    the model returns, and more fuel does not change what it returns.  It
    ends either in an exception, or with a resolution of at most
    1920 * 1080 * 4 pixels. *)
Lemma gui_resolution_terminates (a : args) :
  exists fuel r,
    (forall fuel', (fuel <= fuel')%nat -> gui_resolution fuel' a = Some r)
    /\ (forall sw sh, r = Ok (sw, sh) -> sw * sh <= 1920 * 1080 * 4)
    /\ (width a = 0 -> height a = 0 -> r = Ok (1920, 1080)).
Proof.
  unfold gui_resolution.
  set (sw := int_or (width a) 1920). set (sh := int_or (height a) 1080).
  destruct (halve_resolution_enough_fuel (S (Z.to_nat (Z.abs sw))) sw sh ltac:(lia))
    as [r [Hr Hpost]].
  exists (S (Z.to_nat (Z.abs sw))), r. split; [|split].
  - intros fuel' Hle. exact (halve_resolution_more_fuel _ _ _ _ Hr _ Hle).
  - exact Hpost.
  - intros Hw Hh. subst sw sh. rewrite Hw, Hh in Hr.
    cbn in Hr. now injection Hr as <-.
Qed.

(** The only exception of the loop is the [OverflowError] of [sw / 2]. *)
Lemma halve_resolution_raises (fuel : nat) :
  forall sw sh e, halve_resolution fuel sw sh = Some (Raise e) -> e = OverflowError.
Proof.
  induction fuel as [|fuel IH]; intros sw sh e; [discriminate|].
  cbn [halve_resolution].
  destruct (MAX_PIXELS <? sw * sh); [|discriminate].
  unfold int_of_half at 1.
  destruct (2 ^ (DBL_MAX_EXP + 1) <=? round_to_double (Z.abs sw));
    [intros H; now injection H as <-|].
  unfold int_of_half at 1.
  destruct (2 ^ (DBL_MAX_EXP + 1) <=? round_to_double (Z.abs sh));
    [intros H; now injection H as <-|].
  apply IH.
Qed.

(** The loop halves while it must: a window of 7680 x 4320 comes out as
    3840 x 2160. *)
Example halve_resolution_8k :
  halve_resolution 3 7680 4320 = Some (Ok (3840, 2160)).
Proof. reflexivity. Qed.

(** An integer beyond the doubles kills the script in the loop. *)
Example halve_resolution_overflow :
  halve_resolution 1 (2 ^ 1025) 1 = Some (Raise OverflowError).
Proof. vm_compute. reflexivity. Qed.

(** C10, as the code has it.  When [--n_steps] is not supplied, the number
    of steps is 35000 and the training loop is entered, except when a
    snapshot is loaded and neither [--gui] nor [--vr] is given: then it
    stays at -1 and the training loop is skipped. *)
Theorem n_steps_default (c : cli) :
  cli_n_steps c = None ->
  if truthy (load_snapshot (main_args c)) && negb (cli_gui c || cli_vr c)
  then effective_n_steps (main_args c) = -1
       /\ training_loop_entered (main_args c) = false
  else effective_n_steps (main_args c) = 35000
       /\ training_loop_entered (main_args c) = true.
Proof.
  intros Hn. unfold training_loop_entered, effective_n_steps, main_args, vr_implies_gui.
  destruct c as [v g n t e s sm ns ls tt w h r vp vf vs vr' vsp vo].
  cbn in Hn. subst ns.
  destruct ls as [[|ch s']|], v, g; cbn; split; reflexivity.
Qed.

Lemma n_steps_default_witness :
  effective_n_steps (main_args Inputs.snapshot_cli) = -1
  /\ training_loop_entered (main_args Inputs.snapshot_cli) = false.
Proof. exact (n_steps_default Inputs.snapshot_cli eq_refl). Defined.

(** C10, as the claim has it, fails: with [--load_snapshot base.ingp --vr],
    [--n_steps] is omitted and [--gui] is not given, and yet the number of
    steps is 35000 and the training loop is entered. *)
Lemma n_steps_default_vr_counterexample :
  cli_n_steps Inputs.vr_snapshot_cli = None
  /\ truthy (load_snapshot (main_args Inputs.vr_snapshot_cli)) = true
  /\ cli_gui Inputs.vr_snapshot_cli = false
  /\ effective_n_steps (main_args Inputs.vr_snapshot_cli) = 35000
  /\ training_loop_entered (main_args Inputs.vr_snapshot_cli) = true.
Proof. repeat split. Qed.

End SetupFacts.

(* ================================================================== *)
(** * Facts: the camera pose of a tracking sample *)

Section PoseFacts.
Import Py Cli Setup Num Driver Training Observe.
Context {Fl : FloatOps} {La : LinAlg}.

Lemma trace_rbind {A B} (m : run A) (k : A -> run B) :
  trace (rbind m k)
  = trace m ++ match outcome m with Ok a => trace (k a) | Raise _ => [] end.
Proof.
  destruct m as [t [a|e]]; cbn.
  - now destruct (k a).
  - now rewrite app_nil_r.
Qed.

Lemma outcome_rbind {A B} (m : run A) (k : A -> run B) :
  outcome (rbind m k)
  = match outcome m with Ok a => outcome (k a) | Raise e => Raise e end.
Proof.
  destruct m as [t [a|e]]; cbn; [now destruct (k a) | reflexivity].
Qed.

(** The in-place updates of [flip_matrix], entry by entry. *)
Lemma flip_matrix_entries (m : mat4) : flip_matrix m = PoseSpec.axis_flip m.
Proof.
  unfold flip_matrix, PoseSpec.axis_flip.
  destruct (linalg_inv m) as [[[a0 a1 a2 a3] [b0 b1 b2 b3] [c0 c1 c2 c3] r]|e];
    reflexivity.
Qed.

Lemma scale_translation_entries (k : F) (t : mat4) :
  scale_col_0_3 I3 k t
  = let scaled r := V4 (e0 r) (e1 r) (e2 r) (fmul (e3 r) k) in
    M4 (scaled (row0 t)) (scaled (row1 t)) (scaled (row2 t)) (row3 t).
Proof. destruct t as [[] [] [] r]. reflexivity. Qed.

(** Steps 1 to 4 of the loop body are the first four steps of the pipeline. *)
Lemma pose_transform_pipeline (c : calibration) (tr : mat4) :
  pose_transform c tr
  = (v <- PoseSpec.pipeline c tr ;; Ok (PoseSpec.view_matrix v)).
Proof.
  unfold pose_transform, PoseSpec.pipeline, PoseSpec.handeye,
    PoseSpec.world_centering, PoseSpec.scaling.
  destruct (linalg_inv tr) as [inv|e]; cbn [bind]; [|reflexivity].
  rewrite flip_matrix_entries.
  destruct (PoseSpec.axis_flip _) as [t|e]; cbn [bind]; [|reflexivity].
  destruct (py_mean (post_avglen c)) as [mean|e]; cbn [bind]; [|reflexivity].
  destruct (py_div (lit 40 (-1)) mean) as [k|e]; cbn [bind]; [|reflexivity].
  now rewrite scale_translation_entries.
Qed.

(** The evaluation block writes [pressnum] and prints, and nothing else. *)
Lemma evaluation_block_events (c : calibration) (tr : mat4) (o : ambient)
  (s : eval_state) :
  forallb is_press_or_stdout (fst (evaluation_block c tr o s)) = true.
Proof.
  unfold evaluation_block.
  destruct (key_l o), (key_space o), (key_space_again o),
    (fleb (lit 5 (-1)) (fsub (now_376 o) (last_pressed_time s))), (key_held s);
    reflexivity.
Qed.

Lemma evaluated_events a c tr o st :
  forallb is_press_or_stdout (fst (evaluated a c tr o st)) = true.
Proof.
  unfold evaluated. destruct (evaluation a); [apply evaluation_block_events | reflexivity].
Qed.

(** The loop body on a tracking sample, spelled out. *)
Lemma ndi_step_unfold a c tr o st :
  ndi_step a c tr o st
  = if fisnan (mget tr I0 I3) then ([get_frame], Ok st)
    else
      match pose_transform c tr with
      | Raise e => ([get_frame], Raise e)
      | Ok tm =>
          let es := snd (evaluated a c tr o st) in
          (get_frame :: fst (evaluated a c tr o st)
             ++ [set_tasktime match start_time es with
                              | None => of_int 0
                              | Some t0 => fsub (now_405 o) t0
                              end;
                 stdout "time: "]
             ++ pose_writes o tm,
           Ok {| pressnum_initialized := pressnum_initialized st;
                 transform_matrix := Some tm;
                 ev := es;
                 old_training_step := old_training_step st;
                 tqdm_last_update := tqdm_last_update st |})
      end.
Proof.
  unfold ndi_step.
  destruct (fisnan (mget tr I0 I3)); [reflexivity|].
  destruct (pose_transform c tr) as [tm|e]; [|reflexivity].
  destruct (evaluated a c tr o st) as [evs es].
  reflexivity.
Qed.


Lemma pipeline_derive (c : calibration) (tr : mat4) (v : PoseSpec.view) :
  PoseSpec.pipeline c tr = Ok v -> v = PoseSpec.derive_view (PoseSpec.view_matrix v).
Proof.
  unfold PoseSpec.pipeline.
  destruct (PoseSpec.handeye c tr) as [t1|e]; cbn [bind]; [|discriminate].
  destruct (PoseSpec.axis_flip _) as [t3|e]; cbn [bind]; [|discriminate].
  destruct (PoseSpec.scaling c t3) as [t4|e]; cbn [bind]; [|discriminate].
  now intros [= <-].
Qed.

(** Events of the evaluation block are invisible to the readers of a trace. *)
Lemma last_look_at_skip (evs t : list event) (acc : option vec3) :
  forallb is_press_or_stdout evs = true ->
  PoseSpec.last_look_at (evs ++ t) acc = PoseSpec.last_look_at t acc.
Proof.
  induction evs as [|e evs IH]; [reflexivity|].
  cbn [forallb]. intros [He Hevs]%andb_prop.
  destruct e; try discriminate; cbn; auto.
Qed.

Lemma last_view_dir_skip (evs t : list event) (acc : option vec3) :
  forallb is_press_or_stdout evs = true ->
  PoseSpec.last_view_dir (evs ++ t) acc = PoseSpec.last_view_dir t acc.
Proof.
  induction evs as [|e evs IH]; [reflexivity|].
  cbn [forallb]. intros [He Hevs]%andb_prop.
  destruct e; try discriminate; cbn; auto.
Qed.

Lemma last_up_dir_skip (evs t : list event) (acc : option vec3) :
  forallb is_press_or_stdout evs = true ->
  PoseSpec.last_up_dir (evs ++ t) acc = PoseSpec.last_up_dir t acc.
Proof.
  induction evs as [|e evs IH]; [reflexivity|].
  cbn [forallb]. intros [He Hevs]%andb_prop.
  destruct e; try discriminate; cbn; auto.
Qed.

Lemma filter_skip (p : event -> bool) (evs : list event) :
  (forall e, is_press_or_stdout e = true -> p e = false) ->
  forallb is_press_or_stdout evs = true ->
  filter p evs = [].
Proof.
  intros Hp. induction evs as [|e evs IH]; [reflexivity|].
  cbn [forallb filter]. intros [He Hevs]%andb_prop.
  now rewrite (Hp e He), IH.
Qed.

Lemma pose_write_not_press (e : event) :
  is_press_or_stdout e = true -> PoseSpec.is_pose_write e = false.
Proof. now destruct e. Qed.

Lemma tracker_not_press (e : event) :
  is_press_or_stdout e = true -> is_tracker_or_frame e = false.
Proof. now destruct e. Qed.

(** C2.  On a tracking sample, the body of the NDI branch leaves the pose
    of the five-step pipeline: handeye calibration, world-centering, axis
    flip, scaling of the translation by 4.0 over the mean of [post_avglen],
    and [look_at], [view_dir] and [up_dir] derived from the resulting
    matrix.  It raises where the pipeline raises.  A sample whose first
    row ends in NaN is not valid: it leaves the pose as it was. *)
Theorem ndi_step_is_pipeline (a : args) (c : calibration) (tr : mat4)
  (o : ambient) (st : locals) :
  PoseSpec.pose_of (ndi_step a c tr o st)
  = if fisnan (mget tr I0 I3)
    then Ok {| PoseSpec.pose_matrix := transform_matrix st;
               PoseSpec.pose_look_at := None;
               PoseSpec.pose_view_dir := None;
               PoseSpec.pose_up_dir := None |}
    else v <- PoseSpec.pipeline c tr ;; Ok (PoseSpec.pose_of_view v).
Proof.
  rewrite ndi_step_unfold.
  destruct (fisnan (mget tr I0 I3)); [reflexivity|].
  rewrite pose_transform_pipeline.
  destruct (PoseSpec.pipeline c tr) as [v|e] eqn:Hv; cbn [bind]; [|reflexivity].
  pose proof (evaluated_events a c tr o st) as Hevs.
  pose proof (pipeline_derive _ _ _ Hv) as Hd.
  destruct v as [t la vd ud]. cbn in Hd. injection Hd as -> -> ->.
  cbn [PoseSpec.pose_of transform_matrix PoseSpec.view_matrix].
  cbn [PoseSpec.last_look_at PoseSpec.last_view_dir PoseSpec.last_up_dir].
  rewrite last_look_at_skip, last_view_dir_skip, last_up_dir_skip by exact Hevs.
  reflexivity.
Qed.

(** The writes of the pose in one run of the body. *)
Lemma pose_writes_of_ndi_step a c tr o st :
  PoseSpec.pose_writes_of (ndi_step a c tr o st)
  = if fisnan (mget tr I0 I3) then []
    else
      match pose_transform c tr with
      | Raise _ => []
      | Ok tm =>
          let tran_vec := last_col_0_3 tm in
          let turned := matmul3 (top_left_3x3 tm) (rotation_matrix_x 45) in
          [ set_look_at (look_at_of tran_vec);
            set_view_dir (rotation_matrix_to_vector turned);
            set_up_dir (up_of turned);
            set_look_at (look_at_of tran_vec);
            set_view_dir (rotation_matrix_to_vector (top_left_3x3 tm));
            set_up_dir (up_of (top_left_3x3 tm)) ]
      end.
Proof.
  unfold PoseSpec.pose_writes_of. rewrite ndi_step_unfold.
  destruct (fisnan (mget tr I0 I3)); [reflexivity|].
  destruct (pose_transform c tr) as [tm|e]; [|reflexivity].
  cbn [trace fst filter PoseSpec.is_pose_write].
  rewrite filter_app.
  rewrite (filter_skip _ _ pose_write_not_press (evaluated_events a c tr o st)).
  reflexivity.
Qed.

(** C6.  The pose computed for a tracking sample does not depend on the
    iteration: whatever the variables of the loop hold, whatever the keyboard,
    the clock and the engine say, and whatever the flags are, two runs of
    the body on the same sample and the same loaded constants write the same
    values to [look_at], [view_dir] and [up_dir], in the same order, and on
    a valid sample compute the same [transform_matrix]. *)
Theorem pose_is_stateless (a a' : args) (c : calibration) (tr : mat4)
  (o o' : ambient) (st st' : locals) :
  PoseSpec.pose_writes_of (ndi_step a c tr o st)
  = PoseSpec.pose_writes_of (ndi_step a' c tr o' st')
  /\ (fisnan (mget tr I0 I3) = false ->
      PoseSpec.matrix_of (ndi_step a c tr o st)
      = PoseSpec.matrix_of (ndi_step a' c tr o' st')).
Proof.
  split.
  - now rewrite !pose_writes_of_ndi_step.
  - intros Hvalid. unfold PoseSpec.matrix_of. rewrite !ndi_step_unfold, Hvalid.
    now destruct (pose_transform c tr).
Qed.

End PoseFacts.

(* ================================================================== *)
(** * Facts: the tracker in the training loop *)

Section TrackerFacts.
Import Py Cli Setup Num Driver Training Observe.
Context {Fl : FloatOps} {La : LinAlg}.

Lemma tracker_view_rbind {A B} (m : run A) (k : A -> run B) :
  tracker_view (trace (rbind m k))
  = tracker_view (trace m)
    ++ match outcome m with Ok a => tracker_view (trace (k a)) | Raise _ => [] end.
Proof.
  unfold tracker_view. rewrite trace_rbind, filter_app.
  now destruct (outcome m).
Qed.

Lemma tracker_view_ndi_step a c tr o st :
  tracker_view (trace (ndi_step a c tr o st)) = [get_frame].
Proof.
  rewrite ndi_step_unfold. unfold tracker_view.
  destruct (fisnan (mget tr I0 I3)); [reflexivity|].
  destruct (pose_transform c tr) as [tm|e]; [|reflexivity].
  cbn [trace fst filter is_tracker_or_frame].
  rewrite filter_app.
  now rewrite (filter_skip _ _ tracker_not_press (evaluated_events a c tr o st)).
Qed.

Lemma init_pressnum_quiet (st : locals) :
  tracker_view (trace (init_pressnum st)) = []
  /\ exists st', outcome (init_pressnum st) = Ok st'.
Proof.
  unfold init_pressnum. destruct (pressnum_initialized st); cbn; eauto.
Qed.

Lemma progress_bar_quiet (o : ambient) (st : locals) :
  tracker_view (trace (progress_bar o st)) = []
  /\ exists st', outcome (progress_bar o st) = Ok st'.
Proof.
  unfold progress_bar.
  destruct ((training_step o <? old_training_step st) || (old_training_step st =? 0)),
    (fltb (lit 1 (-1)) (fsub (monotonic o) (tqdm_last_update st))); cbn; eauto.
Qed.

(** What is left of an iteration after the tracker was polled. *)
Lemma iteration_tail_quiet (a : args) (n : Z) (o : ambient) (st : locals) :
  tracker_view
    (trace ((if want_repl o then emit repl else ret tt) ;;;
            if n <=? training_step o then
              if gui a then
                emit (set_shall_train false) ;;;
                st <~ progress_bar o st ;;
                ret (true, st)
              else ret (false, st)
            else
              st <~ progress_bar o st ;;
              ret (true, st))) = [].
Proof.
  destruct (progress_bar_quiet o st) as [Hq [st' Hst']].
  rewrite tracker_view_rbind.
  destruct (want_repl o), (n <=? training_step o), (gui a); cbn [emit ret trace outcome fst snd app tracker_view filter is_tracker_or_frame];
    rewrite ?tracker_view_rbind, ?Hq, ?Hst'; cbn;
    rewrite ?tracker_view_rbind, ?Hq, ?Hst'; reflexivity.
Qed.

(** One iteration polls the tracker exactly once when [args.gui] and
    [args.ndi] are set, and never otherwise. *)
Lemma tracker_view_iteration (a : args) (n : Z) (c : calibration)
  (f : frame_obs) (st : locals) :
  tracker_view (trace (iteration a n c f st))
  = if gui a && ndi a then [frame; get_frame] else [frame].
Proof.
  unfold iteration.
  rewrite tracker_view_rbind. cbn [emit trace outcome fst snd].
  rewrite tracker_view_rbind.
  destruct (init_pressnum_quiet st) as [-> [st1 ->]].
  rewrite tracker_view_rbind.
  destruct (gui a && ndi a).
  - rewrite tracker_view_ndi_step.
    destruct (outcome (ndi_step a c (tracking0 f) (amb f) st1)) as [st2|e].
    + now rewrite iteration_tail_quiet.
    + reflexivity.
  - cbn [ret trace outcome fst snd]. now rewrite iteration_tail_quiet.
Qed.

Lemma tracker_view_training_loop (a : args) (n : Z) (c : calibration)
  (frames : list frame_obs) :
  forall st, exists k,
    (k <= List.length frames)%nat
    /\ tracker_view (trace (training_loop a n c frames st))
       = List.concat (repeat (if gui a && ndi a then [frame; get_frame] else [frame]) k).
Proof.
  induction frames as [|f frames IH]; intros st.
  - exists 0%nat. split; [lia | reflexivity].
  - cbn [training_loop]. rewrite tracker_view_rbind, tracker_view_iteration.
    destruct (outcome (iteration a n c f st)) as [[[|] st']|e]; cbn [fst snd].
    + destruct (IH st') as [k [Hk ->]].
      exists (S k). split; [cbn; lia | reflexivity].
    + exists 1%nat. split; [cbn; lia | reflexivity].
    + exists 1%nat. split; [cbn; lia | reflexivity].
Qed.

Lemma concat_repeat_singleton {A} (x : A) (k : nat) :
  List.concat (repeat [x] k) = repeat x k.
Proof. induction k as [|k IH]; [reflexivity | cbn; now rewrite IH]. Qed.

Lemma gui_main_args (c : cli) : gui (main_args c) = cli_gui c || cli_vr c.
Proof.
  unfold main_args, vr_implies_gui, parse_args. cbn.
  destruct (cli_vr c), (cli_gui c); reflexivity.
Qed.

Lemma ndi_main_args (c : cli) : ndi (main_args c) = cli_ndi c.
Proof.
  unfold main_args, vr_implies_gui, parse_args. cbn. now destruct (cli_vr c).
Qed.

Lemma tracker_view_load_and_train (a : args) (fs : files) (frames : list frame_obs) :
  exists k,
    (k <= List.length frames)%nat
    /\ tracker_view (trace (load_and_train a fs frames))
       = List.concat (repeat (if gui a && ndi a then [frame; get_frame] else [frame]) k).
Proof.
  unfold load_and_train.
  rewrite tracker_view_rbind. cbn [lift trace outcome fst snd app tracker_view filter].
  destruct (linalg_inv (file_calibration fs)) as [c2t|e].
  - destruct (0 <? effective_n_steps a).
    + apply tracker_view_training_loop.
    + exists 0%nat. split; [lia | reflexivity].
  - exists 0%nat. split; [lia | reflexivity].
Qed.

(** C5, as the code has it.  The tracker is created, started and polled
    when [--ndi] is given together with [--gui] or [--vr]: the calls of the
    tracker are then one [NDITracker], one [start_tracking], and exactly one
    [get_frame] in each iteration of the training loop.  In every other
    configuration there is no call of the tracker at all. *)
Theorem tracker_iff_ndi_and_gui_or_vr (c : cli) (fs : files) (frames : list frame_obs) :
  exists k,
    (k <= List.length frames)%nat
    /\ tracker_view (trace (training_phase (main_args c) fs frames))
       = if cli_ndi c && (cli_gui c || cli_vr c)
         then NDITracker_init (row (main_args c)) :: start_tracking :: polled_frames k
         else repeat frame k.
Proof.
  destruct (tracker_view_load_and_train (main_args c) fs frames) as [k [Hk Hview]].
  exists k. split; [exact Hk|].
  unfold training_phase, start_tracker.
  rewrite tracker_view_rbind, Hview, gui_main_args, ndi_main_args.
  rewrite (andb_comm (cli_ndi c)).
  destruct ((cli_gui c || cli_vr c) && cli_ndi c).
  - reflexivity.
  - apply concat_repeat_singleton.
Qed.

End TrackerFacts.

(* ================================================================== *)
(** * Facts: the driver on concrete samples *)

Section DriverExamples.
Import Py Cli Setup Num Driver Training Observe Concrete.

(** The sample of [Concrete] through the body of the loop: the pose worked
    out by hand from the five steps. *)
Example ndi_step_sample :
  PoseSpec.pose_of
    (@ndi_step q_float q_linalg (main_args Inputs.gui_ndi_cli) sample_calibration
       sample_tracking sample_ambient (@initial_locals q_float))
  = Ok (@PoseSpec.mkPose q_float
          (Some (mk4 1 0 0 38  0 1 0 4  0 0 1 (-60)  0 0 0 1))
          (Some (@V3 q_float (29713 # 57826) (69869 # 250000) (779451 # 1254902))%Q)
          (Some (@V3 q_float (q 0) (q (-1)) (q 0)))
          (Some (@V3 q_float (q 1) (q 0) (q 0)))).
Proof. vm_compute. reflexivity. Qed.

(** A singular tracking matrix stops the script at the first inversion. *)
Example ndi_step_singular :
  @ndi_step q_float q_linalg (main_args Inputs.gui_ndi_cli) sample_calibration
    (mk4 1 0 0 0  0 1 0 0  0 0 0 0  0 0 0 0) sample_ambient (@initial_locals q_float)
  = ([get_frame], Raise LinAlgError).
Proof. vm_compute. reflexivity. Qed.

(** The same sample in a later iteration, in the middle of an evaluation:
    the evaluation block runs and records a press. *)
Example ndi_step_later :
  Training.j (Training.ev
    match Driver.outcome
            (@ndi_step q_float q_linalg (main_args Inputs.evaluation_cli)
               sample_calibration sample_tracking pressed_ambient later_locals) with
    | Ok st => st
    | Raise _ => later_locals
    end) = 1.
Proof. vm_compute. reflexivity. Qed.

Lemma pose_is_stateless_witness :
  PoseSpec.pose_writes_of
    (@ndi_step q_float q_linalg (main_args Inputs.gui_ndi_cli) sample_calibration
       sample_tracking sample_ambient (@initial_locals q_float))
  = PoseSpec.pose_writes_of
      (@ndi_step q_float q_linalg (main_args Inputs.evaluation_cli) sample_calibration
         sample_tracking pressed_ambient later_locals)
  /\ PoseSpec.matrix_of
       (@ndi_step q_float q_linalg (main_args Inputs.gui_ndi_cli) sample_calibration
          sample_tracking sample_ambient (@initial_locals q_float))
     = PoseSpec.matrix_of
         (@ndi_step q_float q_linalg (main_args Inputs.evaluation_cli) sample_calibration
            sample_tracking pressed_ambient later_locals).
Proof.
  destruct (@pose_is_stateless q_float q_linalg
              (main_args Inputs.gui_ndi_cli) (main_args Inputs.evaluation_cli)
              sample_calibration sample_tracking sample_ambient pressed_ambient
              (@initial_locals q_float) later_locals) as [Hwrites Hmatrix].
  split; [exact Hwrites | exact (Hmatrix eq_refl)].
Defined.

(** An empty [post_avglen] stops it at the mean. *)
Example pose_transform_empty_post_avglen :
  @pose_transform q_float q_linalg
    (@mkCalibration q_float identity4 identity4 identity4 [] identity4)
    sample_tracking
  = Raise ZeroDivisionError.
Proof. vm_compute. reflexivity. Qed.

(** C5, as the claim has it, fails: with [--vr --ndi] the flag [--gui] is
    not given, and yet the tracker is created, started and polled. *)
Lemma tracker_without_gui_flag_counterexample :
  cli_gui Inputs.vr_ndi_cli = false
  /\ tracker_view
       (trace (@training_phase q_float q_linalg (main_args Inputs.vr_ndi_cli)
                 sample_files [sample_frame]))
     = [NDITracker_init "c:/Users/camp/Documents/Xinrui Zou/Tool-ROM/no-pivot.rom";
        start_tracking; frame; get_frame].
Proof. split; vm_compute; reflexivity. Qed.

(** Without [--ndi] the same frames go by with no call of the tracker. *)
Example no_tracker_without_ndi :
  tracker_view
    (trace (@training_phase q_float q_linalg
              (main_args (Inputs.with_flags false true false None None))
              sample_files [sample_frame; sample_frame]))
  = [frame; frame].
Proof. vm_compute. reflexivity. Qed.

End DriverExamples.

(* ================================================================== *)
(** * Facts: evaluation against test transforms *)

Section EvaluateFacts.
Import Py Num Evaluate EvaluateSpec.
Context {Fl : FloatOps}.
Variable image : Type.
Variables compute_mse compute_ssim : image -> image -> F.
Variable mse2psnr : F -> F.
Variable srgb_clip : image -> image.
Variable diff_image : image -> image -> image.

Local Abbreviation accumulate := (accumulate image compute_mse compute_ssim mse2psnr srgb_clip).
Local Abbreviation test_loop := (test_loop image compute_mse compute_ssim mse2psnr srgb_clip diff_image).
Local Abbreviation totals_of := (totals_of image compute_mse compute_ssim mse2psnr srgb_clip).
Local Abbreviation evaluate_test_transforms :=
  (evaluate_test_transforms image compute_mse compute_ssim mse2psnr srgb_clip diff_image).
Local Abbreviation mse_of := (mse_of image compute_mse srgb_clip).
Local Abbreviation ssim_of := (ssim_of image compute_ssim srgb_clip).
Local Abbreviation psnr_of := (psnr_of image compute_mse mse2psnr srgb_clip).
Local Abbreviation shown := (shown image).

Lemma totcount_fold (views : list (image * image)) :
  forall t,
    totcount (fold_left (fun t '(ref_image, img) => accumulate t ref_image img) views t)
    = totcount t + Z.of_nat (List.length views).
Proof.
  induction views as [|[r i] views IH]; intros t; cbn [fold_left List.length].
  - lia.
  - rewrite IH. cbn [accumulate Evaluate.accumulate totcount]. lia.
Qed.

Lemma totcount_totals_of (views : list (image * image)) :
  totcount (totals_of views) = Z.of_nat (List.length views).
Proof. unfold Evaluate.totals_of. rewrite totcount_fold. reflexivity. Qed.

(** [totcount or 1] is the number of images, or 1 when there is none. *)
Lemma divisor_totals_of (views : list (image * image)) :
  divisor (totals_of views) = Z.max 1 (Z.of_nat (List.length views)).
Proof.
  unfold divisor, int_or. rewrite totcount_totals_of.
  destruct (Z.of_nat (List.length views) =? 0) eqn:E; lia.
Qed.

Lemma py_div_int_ok (x : F) (n : Z) : n <> 0 -> py_div_int x n = Ok (fdiv x (of_int n)).
Proof.
  intros Hn. unfold py_div_int. now apply Z.eqb_neq in Hn as ->.
Qed.

(** The loop never raises: after the increment [totcount] is positive. *)
Lemma test_loop_ok (views : list (image * image)) :
  forall first t, 0 <= totcount t ->
    snd (test_loop first views t)
    = Ok (fold_left (fun t '(ref_image, img) => accumulate t ref_image img) views t).
Proof.
  induction views as [|[r i] views IH]; intros first t Ht; [reflexivity|].
  cbn [Evaluate.test_loop fold_left].
  set (t' := accumulate t r i).
  assert (Ht' : totcount t' = totcount t + 1) by reflexivity.
  rewrite py_div_int_ok by (unfold int_or; destruct (totcount t' =? 0) eqn:E; lia).
  specialize (IH false t' ltac:(lia)).
  destruct (test_loop false views t') as [evs r']. exact IH.
Qed.

(** The totals are the sums of the metrics of the views, in order. *)
Lemma totals_of_sums (views : list (image * image)) :
  let mse v := compute_mse (srgb_clip (snd v)) (srgb_clip (fst v)) in
  let ssim v := compute_ssim (srgb_clip (snd v)) (srgb_clip (fst v)) in
  totmse (totals_of views) = fold_left fadd (map mse views) (of_int 0)
  /\ totssim (totals_of views) = fold_left fadd (map ssim views) (of_int 0)
  /\ totpsnr (totals_of views)
     = fold_left fadd (map (fun v => mse2psnr (mse v)) views) (of_int 0).
Proof.
  cbv zeta. unfold Evaluate.totals_of.
  assert (H : forall t,
    totmse (fold_left (fun t '(r, i) => accumulate t r i) views t)
    = fold_left fadd
        (map (fun v => compute_mse (srgb_clip (snd v)) (srgb_clip (fst v))) views)
        (totmse t)
    /\ totssim (fold_left (fun t '(r, i) => accumulate t r i) views t)
       = fold_left fadd
           (map (fun v => compute_ssim (srgb_clip (snd v)) (srgb_clip (fst v))) views)
           (totssim t)
    /\ totpsnr (fold_left (fun t '(r, i) => accumulate t r i) views t)
       = fold_left fadd
           (map (fun v => mse2psnr (compute_mse (srgb_clip (snd v)) (srgb_clip (fst v))))
                views)
           (totpsnr t)).
  { induction views as [|[r i] vs IH]; intros t; cbn [fold_left map]; [auto|].
    apply IH. }
  exact (H initial_totals).
Qed.

(** The least and the greatest PSNR are kept as the loop goes. *)
Lemma totals_of_least_greatest (views : list (image * image)) :
  minpsnr (totals_of views) = least (map psnr_of views)
  /\ maxpsnr (totals_of views) = greatest (map psnr_of views).
Proof.
  unfold Evaluate.totals_of, EvaluateSpec.least, EvaluateSpec.greatest.
  assert (H : forall t,
    minpsnr (fold_left (fun t '(r, i) => accumulate t r i) views t)
    = fold_left (fun m x => if fltb x m then x else m) (map psnr_of views) (minpsnr t)
    /\ maxpsnr (fold_left (fun t '(r, i) => accumulate t r i) views t)
       = fold_left (fun m x => if fltb m x then x else m) (map psnr_of views) (maxpsnr t)).
  { induction views as [|[r i] vs IH]; intros t; cbn [fold_left map]; [auto|].
    apply IH. }
  exact (H initial_totals).
Qed.

Lemma totals_of_spec (views : list (image * image)) :
  totals_of views
  = {| totmse := total (map mse_of views);
       totpsnr := total (map psnr_of views);
       totssim := total (map ssim_of views);
       totcount := Z.of_nat (List.length views);
       minpsnr := least (map psnr_of views);
       maxpsnr := greatest (map psnr_of views) |}.
Proof.
  destruct (totals_of_sums views) as (Hmse & Hssim & Hpsnr).
  destruct (totals_of_least_greatest views) as (Hmin & Hmax).
  pose proof (totcount_totals_of views) as Hcount.
  destruct (totals_of views) as [m p s c lo hi]. cbn [totmse totpsnr totssim totcount
    minpsnr maxpsnr] in *.
  subst. reflexivity.
Qed.

Lemma shown_app (t1 t2 : list (event image)) :
  shown (t1 ++ t2) = shown t1 ++ shown t2.
Proof.
  induction t1 as [|e t1 IH]; [reflexivity|].
  destruct e; cbn; now rewrite ?IH.
Qed.

(** After each image the progress bar shows the PSNR added up so far over
    the number of images so far. *)
Lemma test_loop_shown (views : list (image * image)) :
  forall first t, 0 <= totcount t ->
    shown (fst (test_loop first views t))
    = map (fun k => fdiv (fold_left fadd (firstn k (map psnr_of views)) (totpsnr t))
                         (of_int (totcount t + Z.of_nat k)))
          (seq 1 (List.length views)).
Proof.
  induction views as [|[r i] views IH]; intros first t Ht; [reflexivity|].
  cbn [Evaluate.test_loop].
  set (t' := accumulate t r i).
  assert (Ht' : totcount t' = totcount t + 1) by reflexivity.
  assert (Hor : int_or (totcount t') 1 = totcount t + 1)
    by (unfold int_or; destruct (totcount t' =? 0) eqn:E; lia).
  rewrite Hor, py_div_int_ok by lia.
  specialize (IH false t' ltac:(lia)).
  destruct (test_loop false views t') as [evs res]. cbn [fst] in *.
  rewrite shown_app.
  replace (shown (if first
                  then [write_image image "ref.png" r; write_image image "out.png" i;
                        write_image image "diff.png" (diff_image i r)]
                  else [])) with (@nil F) by (destruct first; reflexivity).
  cbn [app EvaluateSpec.shown List.length seq map firstn fold_left].
  f_equal.
  rewrite IH, <- (seq_shift (List.length views) 1), map_map.
  apply map_ext. intros k. cbn [firstn fold_left].
  rewrite Ht'. do 2 f_equal. lia.
Qed.

(** C3.  The evaluation block goes through every image of the test
    dataset: the totals it ends with are the MSE, the SSIM and the PSNR of
    all images added up in order, their number, and the least and the
    greatest PSNR met.  It never raises.  What it returns and prints are
    the totals divided by [totcount or 1], which is the number of images,
    and 1 for an empty dataset: there the averages are 0 / 1.  The progress
    bar shows, after each image, the PSNR so far over the number of images
    so far. *)
Theorem evaluation_never_divides_by_zero (views : list (image * image)) :
  let n := Z.of_nat (List.length views) in
  let d := Z.max 1 n in
  let rep :=
    {| psnr_avgmse := mse2psnr (fdiv (total (map mse_of views)) (of_int d));
       psnr := fdiv (total (map psnr_of views)) (of_int d);
       psnr_min := least (map psnr_of views);
       psnr_max := greatest (map psnr_of views);
       ssim := fdiv (total (map ssim_of views)) (of_int d) |} in
  totals_of views
  = {| totmse := total (map mse_of views);
       totpsnr := total (map psnr_of views);
       totssim := total (map ssim_of views);
       totcount := n;
       minpsnr := least (map psnr_of views);
       maxpsnr := greatest (map psnr_of views) |}
  /\ int_or n 1 = d
  /\ d <> 0
  /\ snd (evaluate_test_transforms views) = Ok rep
  /\ (exists evs,
        fst (evaluate_test_transforms views)
        = evs ++ [stdout image (psnr rep) (psnr_min rep) (psnr_max rep) (ssim rep)])
  /\ shown (fst (evaluate_test_transforms views))
     = map (fun k => fdiv (total (firstn k (map psnr_of views))) (of_int (Z.of_nat k)))
           (seq 1 (List.length views))
  /\ snd (evaluate_test_transforms [])
     = Ok {| psnr_avgmse := mse2psnr (fdiv (of_int 0) (of_int 1));
             psnr := fdiv (of_int 0) (of_int 1);
             psnr_min := of_int 1000;
             psnr_max := of_int 0;
             ssim := fdiv (of_int 0) (of_int 1) |}.
Proof.
  cbv zeta.
  pose proof (divisor_totals_of views) as Hd. unfold divisor in Hd.
  rewrite totcount_totals_of in Hd.
  assert (Hrun : evaluate_test_transforms views
                 = (fst (test_loop true views initial_totals)
                    ++ [stdout image
                          (fdiv (total (map psnr_of views))
                                (of_int (Z.max 1 (Z.of_nat (List.length views)))))
                          (least (map psnr_of views))
                          (greatest (map psnr_of views))
                          (fdiv (total (map ssim_of views))
                                (of_int (Z.max 1 (Z.of_nat (List.length views)))))],
                    Ok {| psnr_avgmse :=
                            mse2psnr (fdiv (total (map mse_of views))
                                           (of_int (Z.max 1 (Z.of_nat (List.length views)))));
                          psnr := fdiv (total (map psnr_of views))
                                       (of_int (Z.max 1 (Z.of_nat (List.length views))));
                          psnr_min := least (map psnr_of views);
                          psnr_max := greatest (map psnr_of views);
                          ssim := fdiv (total (map ssim_of views))
                                       (of_int (Z.max 1 (Z.of_nat (List.length views)))) |})).
  { unfold Evaluate.evaluate_test_transforms.
    pose proof (test_loop_ok views true initial_totals ltac:(cbn; lia)) as Hloop.
    destruct (test_loop true views initial_totals) as [evs [t|e]];
      cbn [fst snd] in *; [|discriminate].
    injection Hloop as ->.
    fold (totals_of views). rewrite totals_of_spec.
    cbn [totmse totpsnr totssim totcount minpsnr maxpsnr].
    rewrite Hd. rewrite !py_div_int_ok by lia. reflexivity. }
  split; [apply totals_of_spec|].
  split; [exact Hd|].
  split; [lia|].
  split; [now rewrite Hrun|].
  split; [rewrite Hrun; eexists; reflexivity|].
  split; [|reflexivity].
  rewrite Hrun. cbn [fst]. rewrite shown_app. cbn [EvaluateSpec.shown].
  rewrite app_nil_r.
  exact (test_loop_shown views true initial_totals ltac:(cbn; lia)).
Qed.

End EvaluateFacts.

(* ================================================================== *)
(** * Facts: rendering a camera path *)

Section VideoFacts.
Import Py Cli Video VideoObserve VideoFrames VideoRun.
Variable percent_format : string -> Z -> result string.

Local Abbreviation video_frame := (video_frame percent_format).
Local Abbreviation video_loop := (video_loop percent_format).
Local Abbreviation render_video := (render_video percent_format).
Local Abbreviation stops_at := (stops_at percent_format).
Local Abbreviation reached := (reached percent_format).
Local Abbreviation loop_result := (loop_result percent_format).

Lemma frame_indices_range (a : args) : frame_indices a = range (n_frames a).
Proof. unfold frame_indices. now rewrite Z.min_l by lia. Qed.

(** A frame written as a file of [tmp] cannot fail; a frame written under
    a formatted name fails where the format does. *)
Lemma video_frame_ok_without_percent (a : args) (i : Z) :
  save_frames a = false -> snd (video_frame a i) = Ok tt.
Proof.
  intros Hs. unfold Video.video_frame. rewrite Hs.
  destruct (video_render_range a) as [s e].
  destruct ((0 <=? s) && (i <? s)); [reflexivity|].
  destruct ((0 <=? e) && (e <? i)); reflexivity.
Qed.

Lemma no_ffmpeg_in_frame (a : args) (i : Z) :
  existsb is_ffmpeg (fst (video_frame a i)) = false.
Proof.
  unfold Video.video_frame.
  destruct (video_render_range a) as [s e].
  destruct ((0 <=? s) && (i <? s)); [reflexivity|].
  destruct ((0 <=? e) && (e <? i)); [reflexivity|].
  destruct (save_frames a); [|reflexivity].
  destruct (percent_format (video_output a) i); reflexivity.
Qed.

Lemma no_ffmpeg_in_loop (a : args) (indices : list Z) :
  existsb is_ffmpeg (fst (video_loop a indices)) = false.
Proof.
  induction indices as [|i rest IH]; [reflexivity|].
  cbn [Video.video_loop].
  pose proof (no_ffmpeg_in_frame a i) as Hi.
  destruct (video_frame a i) as [evs [[]|e]]; cbn [fst] in Hi.
  - destruct (video_loop a rest) as [evs' r]. cbn [fst] in *.
    now rewrite existsb_app, Hi, IH.
  - exact Hi.
Qed.

Lemma video_loop_ok_without_percent (a : args) (indices : list Z) :
  save_frames a = false -> snd (video_loop a indices) = Ok tt.
Proof.
  intros Hs. induction indices as [|i rest IH]; [reflexivity|].
  cbn [Video.video_loop].
  pose proof (video_frame_ok_without_percent a i Hs) as Hi.
  destruct (video_frame a i) as [evs [[]|e]]; cbn [snd] in Hi; [|discriminate].
  now destruct (video_loop a rest).
Qed.

(** A loop that completes went through every index, in order. *)
Lemma video_loop_complete (a : args) (indices : list Z) :
  snd (video_loop a indices) = Ok tt ->
  fst (video_loop a indices)
  = List.concat (map (fun i => fst (video_frame a i)) indices).
Proof.
  induction indices as [|i rest IH]; [reflexivity|].
  cbn [Video.video_loop map List.concat].
  destruct (video_frame a i) as [evs [[]|e]]; [|discriminate].
  destruct (video_loop a rest) as [evs' r]. cbn [fst snd] in *.
  intros Hr. now rewrite (IH Hr).
Qed.

(** A frame raises exactly where the name of a full-resolution frame
    cannot be formatted. *)
Lemma video_frame_result (a : args) (i : Z) :
  snd (video_frame a i)
  = match stops_at a i with
    | Some e => Raise e
    | None => Ok tt
    end.
Proof.
  unfold Video.video_frame, VideoRun.stops_at, in_render_range.
  destruct (video_render_range a) as [s e]. cbn [fst snd].
  destruct (0 <=? s) eqn:H1, (i <? s) eqn:H2, (0 <=? e) eqn:H3, (e <? i) eqn:H4,
    (s <? 0) eqn:H5, (s <=? i) eqn:H6, (e <? 0) eqn:H7, (i <=? e) eqn:H8;
    try lia; cbn [andb orb negb snd]; try reflexivity;
    destruct (save_frames a); try reflexivity;
    destruct (percent_format (video_output a) i); reflexivity.
Qed.

(** The loop goes through the indices it reaches, and ends as the first
    index that stops it says. *)
Lemma video_loop_reached (a : args) (indices : list Z) :
  video_loop a indices
  = (List.concat (map (fun i => fst (video_frame a i)) (reached a indices)),
     loop_result a indices).
Proof.
  induction indices as [|i rest IH]; [reflexivity|].
  cbn [Video.video_loop VideoRun.reached VideoRun.loop_result].
  pose proof (video_frame_result a i) as Hi.
  destruct (video_frame a i) as [evs [[]|e]] eqn:Hframe; cbn [snd] in Hi;
    destruct (stops_at a i) as [e'|]; try discriminate.
  - rewrite IH. cbn [map List.concat]. now rewrite Hframe.
  - injection Hi as <-. cbn [map List.concat]. rewrite Hframe. cbn [fst].
    now rewrite app_nil_r.
Qed.

Lemma reached_prefix (a : args) (indices : list Z) :
  exists later, indices = reached a indices ++ later.
Proof.
  induction indices as [|i rest [later IH]]; [now exists []|].
  cbn [VideoRun.reached]. destruct (stops_at a i).
  - now exists rest.
  - exists later. cbn [app]. now rewrite <- IH.
Qed.

Lemma reached_all (a : args) (indices : list Z) :
  loop_result a indices = Ok tt -> reached a indices = indices.
Proof.
  induction indices as [|i rest IH]; [reflexivity|].
  cbn [VideoRun.reached VideoRun.loop_result].
  destruct (stops_at a i); [discriminate|]. intros H. now rewrite (IH H).
Qed.

Lemma reached_stop (a : args) (indices : list Z) (e : exn) :
  loop_result a indices = Raise e ->
  exists before i,
    reached a indices = before ++ [i]
    /\ stops_at a i = Some e
    /\ forall j, In j before -> stops_at a j = None.
Proof.
  induction indices as [|i rest IH]; [discriminate|].
  cbn [VideoRun.reached VideoRun.loop_result].
  destruct (stops_at a i) as [e'|] eqn:Hi.
  - intros H. injection H as ->. exists [], i. repeat split; [exact Hi | intros j []].
  - intros H. destruct (IH H) as (before & k & Hreached & Hk & Hbefore).
    exists (i :: before), k. rewrite Hreached. repeat split; [exact Hk|].
    intros j [<-|Hj]; [exact Hi | now apply Hbefore].
Qed.

Lemma stops_at_without_percent (a : args) (i : Z) :
  save_frames a = false -> stops_at a i = None.
Proof.
  intros Hs. unfold VideoRun.stops_at. rewrite Hs. now rewrite andb_false_r.
Qed.


End VideoFacts.

Section VideoExamples.
Import Py Cli Video VideoObserve VideoRun Concrete.

(** Six frames, of which 2 to 4 are asked for: two warm-up renders, three
    frames written, one index skipped, and the stitching. *)
Example render_video_range_2_4 :
  render_video plain_format
    (main_args (Inputs.video_cli 1 (2, 4) false))
    ["tmp"%string; "data"%string] a_directory
  = (let n := 10 in
     let s := set_camera_smoothing false in
     [load_camera_path "cam.json"; rmtree "tmp"; makedirs "tmp";
      s; render 32 32 1 0 n 10;
      s; render 32 32 1 1 n 10;
      s; render 1920 1080 8 2 n 10; write_image (tmp_jpg 2);
      s; render 1920 1080 8 3 n 10; write_image (tmp_jpg 3);
      s; render 1920 1080 8 4 n 10; write_image (tmp_jpg 4);
      s; s; s; s; s;
      ffmpeg 10 "out.mp4"; rmtree "tmp"], Ok tt).
Proof. vm_compute. reflexivity. Qed.

(** The same frames under the name [out_%04d.png]: three files, and no
    stitching. *)
Example render_frames_range_2_4 :
  render_video percent_d
    (main_args (Inputs.video_cli 1 (2, 4) true)) [] a_directory
  = (let n := 10 in
     let s := set_camera_smoothing false in
     [load_camera_path "cam.json"; makedirs "tmp";
      s; render 32 32 1 0 n 10;
      s; render 32 32 1 1 n 10;
      s; render 1920 1080 8 2 n 10; write_image (frame_file "out_0002.png");
      s; render 1920 1080 8 3 n 10; write_image (frame_file "out_0003.png");
      s; render 1920 1080 8 4 n 10; write_image (frame_file "out_0004.png");
      s; s; s; s; s;
      rmtree "tmp"], Ok tt).
Proof. vm_compute. reflexivity. Qed.



End VideoExamples.

(* ================================================================== *)
(** * Facts: the SSIM snippet *)

Section SsimFacts.
Import Py Num Ssim SsimWorld.
Context {Fl : FloatOps} {Vi : Vision}.

Lemma header_unfold (w : world) :
  header w
  = match cv2_cvtColor (imread w "black_toy/images/564.png") with
    | Raise e =>
        ([read_image "black_toy/images/564.png";
          read_image "black_toy/test_output/564.png"], Raise e)
    | Ok grayA =>
        match cv2_cvtColor (imread w "black_toy/test_output/564.png") with
        | Raise e =>
            ([read_image "black_toy/images/564.png";
              read_image "black_toy/test_output/564.png"], Raise e)
        | Ok grayB =>
            match structural_similarity grayA grayB with
            | Raise e =>
                ([read_image "black_toy/images/564.png";
                  read_image "black_toy/test_output/564.png"], Raise e)
            | Ok score =>
                ([read_image "black_toy/images/564.png";
                  read_image "black_toy/test_output/564.png";
                  print_ssim score], Ok (grayA, grayB))
            end
        end
    end.
Proof.
  unfold header, cv2_imread, rbind, lift, emit, ret.
  destruct (cv2_cvtColor (imread w "black_toy/images/564.png")) as [gA|e]; [|reflexivity].
  destruct (cv2_cvtColor (imread w "black_toy/test_output/564.png")) as [gB|e];
    [|reflexivity].
  destruct (structural_similarity gA gB) as [s|e]; reflexivity.
Qed.

Lemma directory_average_unfold (w : world) (grayA grayB : gray) :
  directory_average w grayA grayB
  = match listdir w "black_toy/test_output" with
    | Raise e => ([list_directory "black_toy/test_output"], Raise e)
    | Ok images =>
        match directory_loop w grayA grayB images [] with
        | (evs, Raise e) => (list_directory "black_toy/test_output" :: evs, Raise e)
        | (evs, Ok total) =>
            match py_mean total with
            | Raise e => (list_directory "black_toy/test_output" :: evs, Raise e)
            | Ok avg =>
                (list_directory "black_toy/test_output" :: evs ++ [print_average avg],
                 Ok tt)
            end
        end
    end.
Proof.
  unfold directory_average, rbind, lift, emit. cbn [path append].
  destruct (listdir w "black_toy/test_output") as [images|e]; [|reflexivity].
  destruct (directory_loop w grayA grayB images []) as [evs [total|e]]; [|reflexivity].
  destruct (py_mean total) as [avg|e]; cbn; [reflexivity | now rewrite app_nil_r].
Qed.

(** The loop reads two files per name and appends one score per name. *)
Lemma directory_loop_outcome (w : world) (grayA grayB : gray) (s : F)
  (images : list string) :
  structural_similarity grayA grayB = Ok s ->
  forall total,
    snd (directory_loop w grayA grayB images total)
    = Ok (total ++ repeat s (List.length images)).
Proof.
  intros Hs. induction images as [|image images IH]; intros total.
  - cbn. now rewrite app_nil_r.
  - cbn [directory_loop cv2_imread rbind lift]. rewrite Hs.
    specialize (IH (total ++ [s])).
    destruct (directory_loop w grayA grayB images (total ++ [s])) as [evs r].
    cbn [snd] in *. rewrite IH. cbn [List.length repeat].
    now rewrite <- app_assoc.
Qed.

Lemma directory_loop_reads (w : world) (grayA grayB : gray) (images : list string) :
  forall total v, ~ In (print_average v) (fst (directory_loop w grayA grayB images total)).
Proof.
  induction images as [|image images IH]; intros total v; [intros []|].
  cbn [directory_loop cv2_imread rbind lift].
  destruct (structural_similarity grayA grayB) as [s|e].
  - specialize (IH (total ++ [s]) v).
    destruct (directory_loop w grayA grayB images (total ++ [s])) as [evs r].
    cbn [fst app] in *. intros [H|[H|H]]; [discriminate | discriminate | auto].
  - cbn. intros [H|[H|[]]]; discriminate.
Qed.

(** C1 does not hold of the code.  Every score the loop appends to [total]
    is the score of the two images the header loaded, [grayA] and [grayB]:
    the images the loop reads, [generated] and [original], are not compared.
    Whatever the directory holds, [total] is that one score repeated once
    per file name. *)
Theorem directory_scores_are_the_header_score (w : world) (grayA grayB : gray)
  (s : F) (images : list string) :
  structural_similarity grayA grayB = Ok s ->
  snd (directory_loop w grayA grayB images []) = Ok (repeat s (List.length images)).
Proof.
  intros Hs. now rewrite (directory_loop_outcome w grayA grayB s images Hs).
Qed.

(** C7.  The snippet first reads the two hardcoded paths, whatever the
    files are.  It converts both images to grayscale and compares them:
    when that gives a score, the score is printed, and only then is the
    directory listed; when it raises (an image that cannot be read, or two
    that cannot be compared), the snippet stops there. *)
Theorem header_prints_the_score_first (w : world) :
  match spec_header_score w with
  | Ok s =>
      exists rest,
        fst (ssim_script w)
        = read_image "black_toy/images/564.png"
          :: read_image "black_toy/test_output/564.png"
          :: print_ssim s
          :: list_directory "black_toy/test_output"
          :: rest
  | Raise e =>
      ssim_script w
      = ([read_image "black_toy/images/564.png";
          read_image "black_toy/test_output/564.png"], Raise e)
  end.
Proof.
  unfold spec_header_score, ssim_script. rewrite header_unfold.
  destruct (cv2_cvtColor (imread w "black_toy/images/564.png")) as [gA|e];
    cbn [bind]; [|reflexivity].
  destruct (cv2_cvtColor (imread w "black_toy/test_output/564.png")) as [gB|e];
    cbn [bind]; [|reflexivity].
  destruct (structural_similarity gA gB) as [s|e]; [|reflexivity].
  cbn [rbind]. rewrite directory_average_unfold.
  destruct (listdir w "black_toy/test_output") as [images|e]; [|cbn; eauto].
  destruct (directory_loop w gA gB images []) as [evs [total|e]]; [|cbn; eauto].
  destruct (py_mean total); cbn; eauto.
Qed.

(** An average that is printed comes from a listing that is not empty. *)
Lemma average_needs_files (w : world) (grayA grayB : gray) (v : F) :
  In (print_average v) (fst (directory_average w grayA grayB)) ->
  exists images, listdir w "black_toy/test_output" = Ok images /\ images <> [].
Proof.
  rewrite directory_average_unfold.
  destruct (listdir w "black_toy/test_output") as [[|image images]|e] eqn:Hdir.
  - cbn. intros [H|[]]. discriminate.
  - intros _. exists (image :: images). split; [reflexivity | discriminate].
  - cbn. intros [H|[]]. discriminate.
Qed.

(** With an empty listing that agrees with the reads, the second
    hardcoded image cannot be read. *)
Lemma empty_listing_has_no_564 (w : world) :
  listdir w "black_toy/test_output" = Ok [] ->
  listing_agrees w ->
  imread w "black_toy/test_output/564.png" = None.
Proof.
  intros Hdir Hagree.
  destruct (imread w "black_toy/test_output/564.png") as [img|] eqn:Himg; [|reflexivity].
  destruct (Hagree "564.png"%string img Himg) as (images & Hlist & Hin).
  rewrite Hdir in Hlist. injection Hlist as <-. destruct Hin.
Qed.

(** C9, as the code has it.  With nothing in [black_toy/test_output], the
    second hardcoded image is missing: [cv2.imread] returns [None], the
    conversion to grayscale raises, and the snippet stops after the two
    reads, before the directory is listed and before any division.  The
    average [sum(total)/len(total)] is a division by zero whenever the
    directory block is reached with an empty listing: then the snippet
    prints the header score, lists the directory and raises
    [ZeroDivisionError].  An average is printed only when the listing is
    not empty. *)
Theorem empty_directory_stops_at_the_header (w : world) :
  (listdir w "black_toy/test_output" = Ok [] ->
   listing_agrees w ->
   ssim_script w
   = ([read_image "black_toy/images/564.png";
       read_image "black_toy/test_output/564.png"], Raise Cv2Error))
  /\ (listdir w "black_toy/test_output" = Ok [] ->
      forall grayA grayB,
        directory_average w grayA grayB
        = ([list_directory "black_toy/test_output"], Raise ZeroDivisionError))
  /\ (listdir w "black_toy/test_output" = Ok [] ->
      forall s,
        spec_header_score w = Ok s ->
        ssim_script w
        = ([read_image "black_toy/images/564.png";
            read_image "black_toy/test_output/564.png";
            print_ssim s;
            list_directory "black_toy/test_output"], Raise ZeroDivisionError))
  /\ (listdir w "black_toy/test_output" = Ok [] ->
      (exists e, snd (ssim_script w) = Raise e)
      /\ forall v, ~ In (print_average v) (fst (ssim_script w)))
  /\ (forall v,
        In (print_average v) (fst (ssim_script w)) ->
        exists images,
          listdir w "black_toy/test_output" = Ok images /\ images <> []).
Proof.
  assert (Hblock : listdir w "black_toy/test_output" = Ok [] ->
                   forall gA gB,
                     directory_average w gA gB
                     = ([list_directory "black_toy/test_output"], Raise ZeroDivisionError)).
  { intros Hdir gA gB. rewrite directory_average_unfold, Hdir. reflexivity. }
  assert (Hprinted : forall v,
             In (print_average v) (fst (ssim_script w)) ->
             exists images,
               listdir w "black_toy/test_output" = Ok images /\ images <> []).
  { intros v. unfold ssim_script. rewrite header_unfold.
    destruct (cv2_cvtColor (imread w "black_toy/images/564.png")) as [gA|e].
    2:{ cbn. intros [H|[H|[]]]; discriminate. }
    destruct (cv2_cvtColor (imread w "black_toy/test_output/564.png")) as [gB|e].
    2:{ cbn. intros [H|[H|[]]]; discriminate. }
    destruct (structural_similarity gA gB) as [s|e].
    2:{ cbn. intros [H|[H|[]]]; discriminate. }
    cbn [rbind].
    pose proof (average_needs_files w gA gB v) as Hneeds.
    destruct (directory_average w gA gB) as [evs r]. cbn [fst app] in *.
    intros [H|[H|[H|H]]]; [discriminate | discriminate | discriminate | auto]. }
  split; [|split; [|split; [|split]]].
  - intros Hdir Hagree. unfold ssim_script. rewrite header_unfold.
    rewrite (empty_listing_has_no_564 w Hdir Hagree).
    destruct (imread w "black_toy/images/564.png"); reflexivity.
  - exact Hblock.
  - intros Hdir s. unfold spec_header_score, ssim_script. rewrite header_unfold.
    destruct (cv2_cvtColor (imread w "black_toy/images/564.png")) as [gA|e];
      cbn [bind]; [|discriminate].
    destruct (cv2_cvtColor (imread w "black_toy/test_output/564.png")) as [gB|e];
      cbn [bind]; [|discriminate].
    intros ->. cbn [rbind]. now rewrite (Hblock Hdir).
  - intros Hdir. split.
    + unfold ssim_script. rewrite header_unfold.
      destruct (cv2_cvtColor (imread w "black_toy/images/564.png")) as [gA|e];
        [|eexists; reflexivity].
      destruct (cv2_cvtColor (imread w "black_toy/test_output/564.png")) as [gB|e];
        [|eexists; reflexivity].
      destruct (structural_similarity gA gB) as [s|e]; [|eexists; reflexivity].
      cbn [rbind]. rewrite (Hblock Hdir). eexists; reflexivity.
    + intros v Hin. destruct (Hprinted v Hin) as (images & Hlist & Hne).
      rewrite Hdir in Hlist. now injection Hlist as <-.
  - exact Hprinted.
Qed.

End SsimFacts.

Section SsimExamples.
Import Py Num Ssim SsimWorld Concrete.

Lemma directory_scores_witness :
  snd (@directory_loop q_float pixel_vision two_pairs 10 10
         ["564.png"%string; "565.png"%string] [])
  = Ok [1%Q; 1%Q].
Proof.
  exact (@directory_scores_are_the_header_score q_float pixel_vision two_pairs
           10 10 1%Q ["564.png"%string; "565.png"%string] eq_refl).
Defined.

(** On two pairs of which one is rendered exactly and the other is not, the
    snippet prints the average 1, and the scores of the pairs are 1 and 0. *)
Example two_pairs_average :
  @ssim_script q_float pixel_vision two_pairs
  = ([read_image "black_toy/images/564.png";
      read_image "black_toy/test_output/564.png";
      @print_ssim q_float 1%Q;
      list_directory "black_toy/test_output";
      read_image "black_toy/test_output/564.png";
      read_image "black_toy/images/564.png";
      read_image "black_toy/test_output/565.png";
      read_image "black_toy/images/565.png";
      @print_average q_float 1%Q], Ok tt)
  /\ map (@spec_pair_score q_float pixel_vision two_pairs)
         ["564.png"%string; "565.png"%string]
     = [@Ok Q 1%Q; @Ok Q 0%Q].
Proof. split; vm_compute; reflexivity. Qed.

Lemma empty_output_agrees : @listing_agrees q_float pixel_vision empty_output.
Proof.
  intros name img. cbn. discriminate.
Qed.

Lemma empty_directory_witness :
  @ssim_script q_float pixel_vision empty_output
  = ([read_image "black_toy/images/564.png";
      read_image "black_toy/test_output/564.png"], Raise Cv2Error).
Proof.
  exact (proj1 (@empty_directory_stops_at_the_header q_float pixel_vision empty_output)
           eq_refl empty_output_agrees).
Defined.

(** C9, as the claim has it, fails: in a directory tree whose
    [black_toy/test_output] has no entries, the second hardcoded image
    cannot be read, and the snippet ends in the error of [cv2.cvtColor]
    after the two reads.  The directory is not listed and nothing is
    divided. *)
Lemma empty_directory_counterexample :
  @listdir q_float pixel_vision empty_output "black_toy/test_output" = Ok []
  /\ @imread q_float pixel_vision empty_output "black_toy/test_output/564.png" = None
  /\ @ssim_script q_float pixel_vision empty_output
     = ([read_image "black_toy/images/564.png";
         read_image "black_toy/test_output/564.png"], Raise Cv2Error)
  /\ snd (@ssim_script q_float pixel_vision empty_output) <> Raise ZeroDivisionError.
Proof. repeat split. discriminate. Qed.

(** When the directory is emptied after the header has read its images,
    the average is reached and divides by zero. *)
Example emptied_output_divides_by_zero :
  @ssim_script q_float pixel_vision emptied_output
  = ([read_image "black_toy/images/564.png";
      read_image "black_toy/test_output/564.png";
      @print_ssim q_float 1%Q;
      list_directory "black_toy/test_output"], Raise ZeroDivisionError).
Proof. vm_compute. reflexivity. Qed.

End SsimExamples.

(* ================================================================== *)
(** * More facts: the GUI resolution *)

Section ResolutionFacts.
Import Py Cli Setup.

Lemma pow2_53_lt_1025 : 2 ^ 53 < 2 ^ (DBL_MAX_EXP + 1).
Proof. apply Z.pow_lt_mono_r; unfold DBL_MAX_EXP; lia. Qed.

Lemma round_to_double_exact (m : Z) :
  0 <= m < 2 ^ 53 -> round_to_double m = m.
Proof.
  intros Hm. unfold round_to_double.
  destruct (Z.log2 m + 1 <=? DBL_MANT_DIG) eqn:Hbits; [reflexivity|].
  apply Z.leb_gt in Hbits. unfold DBL_MANT_DIG in Hbits.
  assert (0 < m) by (destruct (Z.eq_dec m 0) as [->|]; [cbn in Hbits; lia | lia]).
  assert (Z.log2 m < 53) by (apply Z.log2_lt_pow2; lia).
  lia.
Qed.

Lemma int_of_half_is_quot (n : Z) :
  Z.abs n < 2 ^ 53 -> int_of_half n = Ok (n ÷ 2).
Proof.
  intros Hn. unfold int_of_half.
  rewrite round_to_double_exact by lia.
  pose proof pow2_53_lt_1025.
  destruct (2 ^ (DBL_MAX_EXP + 1) <=? Z.abs n) eqn:Hov;
    [apply Z.leb_le in Hov; lia|].
  f_equal. f_equal. destruct n; reflexivity.
Qed.

(** X1.  [int(n / 2)] is the division that truncates towards zero for every
    integer below [2 ** 53] in magnitude: there the double [n / 2] is exact. *)
Theorem int_of_half_exact (n : Z) :
  Z.abs n < 2 ^ 53 -> int_of_half n = Ok (n ÷ 2).
Proof.
  intros Hn. unfold int_of_half.
  rewrite round_to_double_exact by lia.
  pose proof pow2_53_lt_1025 as Hpow.
  destruct (2 ^ (DBL_MAX_EXP + 1) <=? Z.abs n) eqn:Hov.
  - apply Z.leb_le in Hov. lia.
  - destruct n as [|p|p]; reflexivity.
Qed.

Lemma int_of_half_exact_witness : int_of_half (-7) = Ok (-3).
Proof. exact (int_of_half_exact (-7) ltac:(reflexivity)). Defined.

(** Beyond the doubles' 53 bits the two differ. *)
Example int_of_half_rounds : int_of_half (2 ^ 54 + 6) = Ok ((2 ^ 54 + 6) ÷ 2 + 1).
Proof. vm_compute. reflexivity. Qed.

Lemma int_of_half_no_overflow (n : Z) :
  Z.abs n < 2 ^ DBL_MAX_EXP -> exists n', int_of_half n = Ok n'.
Proof.
  intros Hn. unfold int_of_half.
  assert (Hr : round_to_double (Z.abs n) < 2 ^ (DBL_MAX_EXP + 1)).
  { replace (DBL_MAX_EXP + 1) with (Z.succ DBL_MAX_EXP) by lia.
    rewrite Z.pow_succ_r by (unfold DBL_MAX_EXP; lia).
    destruct (Z.eq_dec n 0) as [->|Hnz].
    - change (round_to_double (Z.abs 0)) with 0.
      pose proof (Z.pow_pos_nonneg 2 DBL_MAX_EXP ltac:(lia) ltac:(unfold DBL_MAX_EXP; lia)).
      lia.
    - pose proof (round_to_double_lt (Z.abs n) ltac:(lia)). lia. }
  destruct (2 ^ (DBL_MAX_EXP + 1) <=? round_to_double (Z.abs n)) eqn:Hov;
    [apply Z.leb_le in Hov; lia | eauto].
Qed.

Lemma halve_resolution_no_overflow (fuel : nat) :
  forall sw sh,
    Z.abs sw < Z.of_nat fuel ->
    Z.abs sw < 2 ^ DBL_MAX_EXP -> Z.abs sh < 2 ^ DBL_MAX_EXP ->
    exists sw' sh', halve_resolution fuel sw sh = Some (Ok (sw', sh'))
                    /\ sw' * sh' <= MAX_PIXELS.
Proof.
  induction fuel as [|fuel IH]; intros sw sh Hfuel Hsw Hsh; [lia|].
  cbn [halve_resolution].
  destruct (MAX_PIXELS <? sw * sh) eqn:Hbig.
  - apply Z.ltb_lt in Hbig.
    assert (sw <> 0 /\ sh <> 0) as [Hsw0 Hsh0] by (unfold MAX_PIXELS in Hbig; nia).
    destruct (int_of_half_no_overflow sw Hsw) as [sw' Hsw'].
    destruct (int_of_half_no_overflow sh Hsh) as [sh' Hsh'].
    rewrite Hsw', Hsh'.
    pose proof (int_of_half_shrinks _ _ Hsw' Hsw0).
    pose proof (int_of_half_shrinks _ _ Hsh' Hsh0).
    apply IH; lia.
  - apply Z.ltb_ge in Hbig. eauto.
Qed.

(** X2.  For a width and a height below [2 ** 1024] in magnitude, the halving
    loop does not raise: it ends with a resolution of at most
    1920 * 1080 * 4 pixels. *)
Theorem gui_resolution_no_overflow (a : args) :
  Z.abs (width a) < 2 ^ 1024 -> Z.abs (height a) < 2 ^ 1024 ->
  exists fuel sw sh,
    gui_resolution fuel a = Some (Ok (sw, sh)) /\ sw * sh <= 1920 * 1080 * 4.
Proof.
  intros Hw Hh. unfold gui_resolution.
  assert (H1920 : 1920 < 2 ^ 1024)
    by (apply Z.lt_trans with (2 ^ 11); [reflexivity | apply Z.pow_lt_mono_r; lia]).
  change DBL_MAX_EXP with 1024 in *.
  assert (Hor : forall x d, 0 <= d <= 1920 -> Z.abs x < 2 ^ 1024 ->
                            Z.abs (int_or x d) < 2 ^ 1024).
  { intros x d Hd Hx. unfold int_or. destruct (x =? 0); [|exact Hx].
    rewrite Z.abs_eq by lia. lia. }
  pose proof (Hor (width a) 1920 ltac:(lia) Hw) as Hsw.
  pose proof (Hor (height a) 1080 ltac:(lia) Hh) as Hsh.
  destruct (halve_resolution_no_overflow
              (S (Z.to_nat (Z.abs (int_or (width a) 1920))))
              (int_or (width a) 1920) (int_or (height a) 1080) ltac:(lia) Hsw Hsh)
    as [sw [sh H]].
  eauto.
Qed.

Lemma gui_resolution_no_overflow_witness :
  exists fuel sw sh,
    gui_resolution fuel (main_args (Inputs.window_cli 7680 4320)) = Some (Ok (sw, sh))
    /\ sw * sh <= 1920 * 1080 * 4.
Proof.
  apply gui_resolution_no_overflow; vm_compute; reflexivity.
Defined.

Lemma halve_resolution_closed_form (n : nat) :
  forall w h,
    0 <= w < 2 ^ 53 -> 0 <= h < 2 ^ 53 -> w < Z.of_nat n ->
    exists k : nat,
      halve_resolution (S k) w h
      = Some (Ok (w / 2 ^ Z.of_nat k, h / 2 ^ Z.of_nat k))
      /\ (w / 2 ^ Z.of_nat k) * (h / 2 ^ Z.of_nat k) <= MAX_PIXELS
      /\ forall i : nat, (i < k)%nat ->
           MAX_PIXELS < (w / 2 ^ Z.of_nat i) * (h / 2 ^ Z.of_nat i).
Proof.
  induction n as [|n IH]; intros w h Hw Hh Hn; [lia|].
  destruct (MAX_PIXELS <? w * h) eqn:Hbig.
  - apply Z.ltb_lt in Hbig.
    assert (0 < w) by (unfold MAX_PIXELS in Hbig; nia).
    assert (Hw2 : 0 <= w / 2 < w) by (split; [apply Z.div_pos; lia | apply Z.div_lt; lia]).
    assert (Hh2 : 0 <= h / 2 <= h)
      by (split; [apply Z.div_pos; lia | apply Z.div_le_upper_bound; lia]).
    destruct (IH (w / 2) (h / 2) ltac:(lia) ltac:(lia) ltac:(lia)) as [k [Hrun [Hfit Hmin]]].
    exists (S k).
    assert (Hdiv : forall x, 0 <= x -> x / 2 ^ Z.of_nat (S k) = x / 2 / 2 ^ Z.of_nat k).
    { intros x Hx. rewrite Nat2Z.inj_succ, Z.pow_succ_r by lia.
      rewrite Z.div_div by (try apply Z.pow_pos_nonneg; lia). reflexivity. }
    rewrite !Hdiv by lia. split; [|split].
    + cbn [halve_resolution].
      apply Z.ltb_lt in Hbig. rewrite Hbig.
      rewrite !int_of_half_is_quot by (rewrite Z.abs_eq; lia).
      rewrite !Z.quot_div_nonneg by lia. exact Hrun.
    + exact Hfit.
    + intros [|i] Hi.
      * cbn. rewrite !Z.div_1_r. exact Hbig.
      * assert (Hdiv' : forall x, 0 <= x -> x / 2 ^ Z.of_nat (S i) = x / 2 / 2 ^ Z.of_nat i).
        { intros x Hx. rewrite Nat2Z.inj_succ, Z.pow_succ_r by lia.
          rewrite Z.div_div by (try apply Z.pow_pos_nonneg; lia). reflexivity. }
        rewrite !Hdiv' by lia. apply Hmin. lia.
  - exists 0%nat. cbn [halve_resolution Z.of_nat]. rewrite Hbig.
    change (2 ^ 0) with 1. rewrite !Z.div_1_r.
    apply Z.ltb_ge in Hbig. split; [reflexivity|]. split; [exact Hbig | intros i Hi; lia].
Qed.

(** X3.  For a width and a height that doubles hold exactly, the window is the
    requested resolution halved [k] times, rounding down, for the least [k]
    that brings it within 1920 * 1080 * 4 pixels; a resolution already
    within the bound is kept as it is. *)
Theorem gui_resolution_least_halving (a : args) :
  0 <= int_or (width a) 1920 < 2 ^ 53 -> 0 <= int_or (height a) 1080 < 2 ^ 53 ->
  exists k : nat,
    gui_resolution (S k) a
    = Some (Ok (int_or (width a) 1920 / 2 ^ Z.of_nat k,
                int_or (height a) 1080 / 2 ^ Z.of_nat k))
    /\ (int_or (width a) 1920 / 2 ^ Z.of_nat k)
       * (int_or (height a) 1080 / 2 ^ Z.of_nat k) <= 1920 * 1080 * 4
    /\ forall i : nat, (i < k)%nat ->
         1920 * 1080 * 4
         < (int_or (width a) 1920 / 2 ^ Z.of_nat i)
           * (int_or (height a) 1080 / 2 ^ Z.of_nat i).
Proof.
  intros Hw Hh.
  exact (halve_resolution_closed_form
           (S (Z.to_nat (int_or (width a) 1920))) _ _ Hw Hh ltac:(lia)).
Qed.

Lemma gui_resolution_least_halving_witness :
  exists k : nat,
    gui_resolution (S k) (main_args (Inputs.window_cli 100000 100000))
    = Some (Ok (100000 / 2 ^ Z.of_nat k, 100000 / 2 ^ Z.of_nat k))
    /\ (100000 / 2 ^ Z.of_nat k) * (100000 / 2 ^ Z.of_nat k) <= 1920 * 1080 * 4
    /\ forall i : nat, (i < k)%nat ->
         1920 * 1080 * 4 < (100000 / 2 ^ Z.of_nat i) * (100000 / 2 ^ Z.of_nat i).
Proof.
  apply (gui_resolution_least_halving (main_args (Inputs.window_cli 100000 100000)));
    split; vm_compute; congruence.
Defined.

End ResolutionFacts.

(* ================================================================== *)
(** * Facts: the resolution of the window *)

Section WindowFacts.
Import Py Cli Setup.

(** C8, as the code has it.  Whatever [--width] and [--height] are (0
    stands for 1920 and for 1080), the halving loop terminates: with enough
    fuel the model returns, and more fuel does not change what it returns.
    It ends either in the [OverflowError] of [sw / 2], and [init_window] is
    not reached, or with the resolution [init_window] receives, of at most
    1920 * 1080 * 4 pixels.  For a width and a height below [2 ** 1024] in
    magnitude it does not raise.  A resolution within the bound from the
    start is kept as it is, and that of the defaults is 1920 x 1080. *)
Theorem gui_resolution_within_bound (a : args) :
  exists fuel r,
    (forall fuel', (fuel <= fuel')%nat -> gui_resolution fuel' a = Some r)
    /\ (r = Raise OverflowError
        \/ exists sw sh, r = Ok (sw, sh) /\ sw * sh <= 1920 * 1080 * 4)
    /\ (Z.abs (width a) < 2 ^ 1024 -> Z.abs (height a) < 2 ^ 1024 ->
        exists sw sh, r = Ok (sw, sh) /\ sw * sh <= 1920 * 1080 * 4)
    /\ (int_or (width a) 1920 * int_or (height a) 1080 <= 1920 * 1080 * 4 ->
        r = Ok (int_or (width a) 1920, int_or (height a) 1080))
    /\ (width a = 0 -> height a = 0 -> r = Ok (1920, 1080)).
Proof.
  destruct (gui_resolution_terminates a) as (fuel & r & Hfuel & Hbound & Hdefault).
  exists (S fuel), r.
  assert (Hrun : gui_resolution (S fuel) a = Some r) by (apply Hfuel; lia).
  split; [intros fuel' Hle; apply Hfuel; lia|].
  split; [|split; [|split]].
  - destruct r as [[sw sh]|e].
    + right. exists sw, sh. split; [reflexivity | now apply Hbound].
    + left. f_equal. exact (halve_resolution_raises _ _ _ _ Hrun).
  - intros Hw Hh.
    assert (H1920 : 1920 < 2 ^ 1024)
      by (apply Z.lt_trans with (2 ^ 11); [reflexivity | apply Z.pow_lt_mono_r; lia]).
    assert (Hor : forall x d, 0 <= d <= 1920 -> Z.abs x < 2 ^ 1024 ->
                              Z.abs (int_or x d) < 2 ^ 1024).
    { intros x d Hd Hx. unfold int_or. destruct (x =? 0); [|exact Hx].
      rewrite Z.abs_eq by lia. lia. }
    pose proof (Hor (width a) 1920 ltac:(lia) Hw) as Hsw.
    pose proof (Hor (height a) 1080 ltac:(lia) Hh) as Hsh.
    destruct (halve_resolution_no_overflow
                (S (Z.to_nat (Z.abs (int_or (width a) 1920))))
                (int_or (width a) 1920) (int_or (height a) 1080) ltac:(lia) Hsw Hsh)
      as (sw & sh & Hok & Hfit).
    pose proof (halve_resolution_more_fuel _ _ _ _ Hok
                  (S fuel + S (Z.to_nat (Z.abs (int_or (width a) 1920))))%nat
                  ltac:(lia)) as Hmore.
    pose proof (Hfuel (S fuel + S (Z.to_nat (Z.abs (int_or (width a) 1920))))%nat
                  ltac:(lia)) as Hsame.
    unfold gui_resolution in Hsame. rewrite Hmore in Hsame.
    injection Hsame as <-. eauto.
  - intros Hfit. unfold gui_resolution in Hrun. cbn [halve_resolution] in Hrun.
    unfold MAX_PIXELS in Hrun.
    replace (1920 * 1080 * 4 <? int_or (width a) 1920 * int_or (height a) 1080)
      with false in Hrun by (symmetry; apply Z.ltb_ge; exact Hfit).
    now injection Hrun as <-.
  - exact Hdefault.
Qed.

Lemma gui_resolution_within_bound_witness :
  exists fuel sw sh,
    gui_resolution fuel (main_args (Inputs.window_cli 7680 4320)) = Some (Ok (sw, sh))
    /\ sw * sh <= 1920 * 1080 * 4.
Proof.
  destruct (gui_resolution_within_bound (main_args (Inputs.window_cli 7680 4320)))
    as (fuel & r & Hfuel & _ & Hok & _).
  destruct (Hok ltac:(vm_compute; reflexivity) ltac:(vm_compute; reflexivity))
    as (sw & sh & -> & Hfit).
  exists fuel, sw, sh. split; [apply Hfuel; lia | exact Hfit].
Defined.

(** C8, as the claim has it, fails: with [--width] [2 ** 1025] and
    [--height 1] the product is above the bound, [sw / 2] is beyond the
    doubles, and the script ends in [OverflowError] with no resolution. *)
Lemma gui_resolution_overflow_counterexample :
  1920 * 1080 * 4
  < width (main_args (Inputs.window_cli (2 ^ 1025) 1))
    * height (main_args (Inputs.window_cli (2 ^ 1025) 1))
  /\ gui_resolution 1 (main_args (Inputs.window_cli (2 ^ 1025) 1))
     = Some (Raise OverflowError)
  /\ gui_resolution 2000 (main_args (Inputs.window_cli (2 ^ 1025) 1))
     = Some (Raise OverflowError).
Proof. repeat split; vm_compute; reflexivity. Qed.

End WindowFacts.

(* ================================================================== *)
(** * More facts: one tracking sample *)

Section SampleFacts.
Import Py Cli Setup Num Driver Training Observe LoopObserve.
Context {Fl : FloatOps} {La : LinAlg}.

(** X5.  A sample that is not valid, or whose pose cannot be computed, leaves
    the engine and the variables of the loop untouched: the tracker was
    polled and nothing else happened. *)
Theorem failed_sample_writes_nothing (a : args) (c : calibration) (tr : mat4)
  (o : ambient) (st : locals) :
  (fisnan (mget tr I0 I3) = true -> ndi_step a c tr o st = ([get_frame], Ok st))
  /\ (forall e, outcome (ndi_step a c tr o st) = Raise e ->
                trace (ndi_step a c tr o st) = [get_frame]).
Proof.
  rewrite ndi_step_unfold. split.
  - now intros ->.
  - intros e. destruct (fisnan (mget tr I0 I3)); [discriminate|].
    destruct (pose_transform c tr); [discriminate | reflexivity].
Qed.

(** X6.  With an empty [post_avglen] every valid sample is fatal: whatever the
    tracking matrix, the body raises before it writes anything. *)
Theorem empty_post_avglen_is_fatal (a : args) (c : calibration) (tr : mat4)
  (o : ambient) (st : locals) :
  post_avglen c = [] -> fisnan (mget tr I0 I3) = false ->
  exists e, ndi_step a c tr o st = ([get_frame], Raise e).
Proof.
  intros Hempty Hvalid. rewrite ndi_step_unfold, Hvalid.
  unfold pose_transform. rewrite Hempty.
  destruct (linalg_inv tr) as [i|e]; cbn [bind]; [|eauto].
  destruct (flip_matrix _) as [t|e]; cbn [bind]; [|eauto].
  cbn. eauto.
Qed.

End SampleFacts.

Section SampleExamples.
Import Py Cli Setup Num Driver Training Observe LoopObserve Concrete.

Lemma failed_sample_witness :
  trace (@ndi_step q_float q_linalg (main_args Inputs.gui_ndi_cli) sample_calibration
           (mk4 1 0 0 0  0 1 0 0  0 0 0 0  0 0 0 0) sample_ambient
           (@initial_locals q_float))
  = [get_frame].
Proof.
  exact (proj2 (@failed_sample_writes_nothing q_float q_linalg
                  (main_args Inputs.gui_ndi_cli) sample_calibration
                  (mk4 1 0 0 0  0 1 0 0  0 0 0 0  0 0 0 0) sample_ambient
                  (@initial_locals q_float)) LinAlgError eq_refl).
Defined.

Lemma empty_post_avglen_witness :
  exists e,
    @ndi_step q_float q_linalg (main_args Inputs.gui_ndi_cli)
      (@mkCalibration q_float identity4 identity4 identity4 [] identity4)
      sample_tracking sample_ambient (@initial_locals q_float)
    = ([get_frame], Raise e).
Proof.
  exact (@empty_post_avglen_is_fatal q_float q_linalg (main_args Inputs.gui_ndi_cli)
           (@mkCalibration q_float identity4 identity4 identity4 [] identity4)
           sample_tracking sample_ambient (@initial_locals q_float) eq_refl eq_refl).
Defined.

End SampleExamples.

(* ================================================================== *)
(** * More facts: the evaluation block *)

Section EvaluationBlockFacts.
Import Py Cli Setup Num Driver Training Observe LoopObserve.
Context {Fl : FloatOps} {La : LinAlg}.

(** The two ways through the block: a press is recorded, or none is. *)
Lemma evaluation_block_cases (c : calibration) (tr : mat4) (o : ambient)
  (s : eval_state) :
  let s' := snd (evaluation_block c tr o s) in
  let evs := fst (evaluation_block c tr o s) in
  let j1 := if key_l o then 0 else j s in
  let reset := if key_l o then [set_pressnum 0 0 0; set_pressnum 0 0 0] else [] in
  (key_held s = false
   /\ j s' = j1 + 1
   /\ press_count s' = press_count s + 1
   /\ key_held s' = true
   /\ stream_list s'
      = stream_list s
        ++ [calculate_relative_positions (base_pose c) [(j1, matmul4 tr eval_x)]]
   /\ evs = reset ++ [stdout "stream"; stdout "Relative stream";
                      stdout "Updated stream_list"; set_pressnum (j1 + 1) 0 0])
  \/ (j s' = j1
      /\ press_count s' = press_count s
      /\ (key_held s' = true -> key_held s = true)
      /\ stream_list s' = stream_list s
      /\ evs = reset).
Proof.
  cbv zeta. unfold evaluation_block.
  destruct (key_space o
            && (key_space_again o
                && fleb (lit 5 (-1)) (fsub (now_376 o) (last_pressed_time s)))).
  - destruct (key_held s) eqn:Hheld; cbn [negb snd fst j press_count key_held stream_list].
    + right. repeat split; auto.
    + left. repeat split; auto.
  - right. cbn [snd fst j press_count key_held stream_list]. repeat split; auto.
Qed.

Lemma evaluation_block_counters (c : calibration) (tr : mat4) (o : ambient)
  (s : eval_state) :
  counters_agree s -> counters_agree (snd (evaluation_block c tr o s)).
Proof.
  intros [Hj Hlen]. unfold counters_agree.
  destruct (evaluation_block_cases c tr o s)
    as [(_ & -> & -> & _ & -> & _) | (-> & -> & _ & -> & _)].
  - rewrite length_app. cbn [List.length]. destruct (key_l o); lia.
  - destruct (key_l o); lia.
Qed.

(** X8.  A press is never recorded in two consecutive runs of the block: after a
    recorded press the next run at most releases the key. *)
Theorem no_two_presses_in_a_row (c : calibration) (tr tr' : mat4) (o o' : ambient)
  (s : eval_state) :
  recorded s (snd (evaluation_block c tr o s)) = true ->
  recorded (snd (evaluation_block c tr o s))
           (snd (evaluation_block c tr' o' (snd (evaluation_block c tr o s))))
  = false.
Proof.
  unfold recorded. intros Hrec.
  destruct (evaluation_block_cases c tr o s)
    as [(_ & _ & Hpc & Hheld & _) | (_ & Hpc & _)].
  - destruct (evaluation_block_cases c tr' o' (snd (evaluation_block c tr o s)))
      as [(Hfree & _) | (_ & Hpc' & _)].
    + congruence.
    + rewrite Hpc'. apply Z.eqb_neq. lia.
  - rewrite Hpc in Hrec. apply Z.eqb_eq in Hrec. lia.
Qed.

(** Whenever the block writes [testbed.pressnum], the last value it writes
    is [[j, 0, 0]] for the [j] it leaves; when it does not write, [j] is
    unchanged. *)
Lemma pressnum_shows_j (c : calibration) (tr : mat4) (o : ambient)
  (s : eval_state) :
  last_pressnum (fst (evaluation_block c tr o s)) (Some (j s, 0, 0))
  = Some (j (snd (evaluation_block c tr o s)), 0, 0).
Proof.
  destruct (evaluation_block_cases c tr o s)
    as [(_ & -> & _ & _ & _ & ->) | (-> & _ & _ & _ & ->)];
    destruct (key_l o); reflexivity.
Qed.

(** Durations once recorded stay: the block only appends to
    [times_recorded], at most two entries. *)
Lemma evaluation_block_times (c : calibration) (tr : mat4) (o : ambient)
  (s : eval_state) :
  exists more,
    times_recorded (snd (evaluation_block c tr o s)) = times_recorded s ++ more
    /\ (List.length more <= 2)%nat.
Proof.
  unfold evaluation_block.
  destruct (negb (feqb (timer o) (prev_timer_value s))), (start_time s) as [t0|],
    (key_space o
     && (key_space_again o
         && fleb (lit 5 (-1)) (fsub (now_376 o) (last_pressed_time s)))),
    (key_held s), ((press_count s + 1) mod 10 =? 0);
    cbn [negb snd times_recorded];
    first [ exists []; rewrite app_nil_r; split; [reflexivity | cbn; lia]
          | eexists [_]; split; [reflexivity | cbn; lia]
          | eexists [_; _]; rewrite <- app_assoc; split; [reflexivity | cbn; lia] ].
Qed.

(** X11.  The tenth press stops the clock: after a recorded press that brings
    [press_count] to a multiple of ten no duration is running. *)
Theorem tenth_press_stops_the_clock (c : calibration) (tr : mat4) (o : ambient)
  (s : eval_state) :
  recorded s (snd (evaluation_block c tr o s)) = true ->
  press_count (snd (evaluation_block c tr o s)) mod 10 = 0 ->
  start_time (snd (evaluation_block c tr o s)) = None.
Proof.
  unfold recorded, evaluation_block.
  destruct (negb (feqb (timer o) (prev_timer_value s))), (start_time s) as [t0|],
    (key_space o
     && (key_space_again o
         && fleb (lit 5 (-1)) (fsub (now_376 o) (last_pressed_time s)))),
    (key_held s);
    cbn [negb snd press_count start_time];
    intros Hrec Hten;
    try (apply Z.eqb_eq in Hrec; lia);
    apply Z.eqb_eq in Hten; rewrite Hten; reflexivity.
Qed.

End EvaluationBlockFacts.

(* ================================================================== *)
(** * More facts: the training loop *)

Section LoopFacts.
Import Py Cli Setup Num Driver Training Observe LoopObserve.
Context {Fl : FloatOps} {La : LinAlg}.

Lemma init_pressnum_outcome (st : locals) :
  exists st1,
    outcome (init_pressnum st) = Ok st1
    /\ pressnum_initialized st1 = true
    /\ ev st1 = ev st.
Proof.
  unfold init_pressnum. destruct (pressnum_initialized st) eqn:H; cbn; eauto.
Qed.

Lemma progress_bar_outcome (o : ambient) (st : locals) :
  exists st',
    outcome (progress_bar o st) = Ok st'
    /\ pressnum_initialized st' = pressnum_initialized st
    /\ ev st' = ev st.
Proof.
  unfold progress_bar.
  destruct ((training_step o <? old_training_step st) || (old_training_step st =? 0)),
    (fltb (lit 1 (-1)) (fsub (monotonic o) (tqdm_last_update st))); cbn; eauto.
Qed.

Lemma ndi_step_outcome (a : args) (c : calibration) (tr : mat4) (o : ambient)
  (st st' : locals) :
  outcome (ndi_step a c tr o st) = Ok st' ->
  pressnum_initialized st' = pressnum_initialized st
  /\ (ev st' = ev st
      \/ (evaluation a = true /\ ev st' = snd (evaluation_block c tr o (ev st)))).
Proof.
  rewrite ndi_step_unfold.
  destruct (fisnan (mget tr I0 I3)); [intros [= <-]; auto|].
  destruct (pose_transform c tr) as [tm|e]; [|discriminate].
  cbn [outcome snd]. intros [= <-]. cbn [pressnum_initialized ev].
  split; [reflexivity|]. unfold evaluated. destruct (evaluation a); auto.
Qed.

(** What an iteration that completes does to the variables of the loop. *)
Lemma iteration_outcome (a : args) (n : Z) (c : calibration) (f : frame_obs)
  (st : locals) (b : bool) (st' : locals) :
  outcome (iteration a n c f st) = Ok (b, st') ->
  pressnum_initialized st' = true
  /\ (ev st' = ev st
      \/ (gui a && ndi a = true /\ evaluation a = true
          /\ ev st' = snd (evaluation_block c (tracking0 f) (amb f) (ev st))))
  /\ b = negb (negb (gui a) && (n <=? training_step (amb f))).
Proof.
  unfold iteration.
  rewrite outcome_rbind. cbn [emit outcome snd].
  rewrite outcome_rbind.
  destruct (init_pressnum_outcome st) as (st1 & -> & Hinit1 & Hev1).
  rewrite outcome_rbind.
  destruct (outcome (if gui a && ndi a
                     then ndi_step a c (tracking0 f) (amb f) st1
                     else ret st1)) as [st2|e] eqn:Hstep; [|discriminate].
  assert (Hst2 : pressnum_initialized st2 = true
                 /\ (ev st2 = ev st
                     \/ (gui a && ndi a = true /\ evaluation a = true
                         /\ ev st2 = snd (evaluation_block c (tracking0 f) (amb f) (ev st))))).
  { destruct (gui a && ndi a).
    - apply ndi_step_outcome in Hstep. rewrite Hinit1, Hev1 in Hstep.
      destruct Hstep as [? [?|[? ?]]]; auto.
    - injection Hstep as <-. rewrite Hev1. auto. }
  destruct Hst2 as [Hinit2 Hev2].
  rewrite outcome_rbind.
  replace (outcome (if want_repl (amb f) then emit repl else ret tt)) with (@Ok unit tt)
    by (destruct (want_repl (amb f)); reflexivity).
  destruct (progress_bar_outcome (amb f) st2) as (st3 & Hpb & Hinit3 & Hev3).
  destruct (n <=? training_step (amb f)), (gui a);
    rewrite ?outcome_rbind; cbn [emit ret outcome snd]; rewrite ?outcome_rbind, ?Hpb;
    cbn [ret outcome snd];
    intros H; injection H as <- <-; cbn [negb andb];
    rewrite ?Hinit3, ?Hev3; auto.
Qed.

Lemma training_loop_counters (a : args) (n : Z) (c : calibration)
  (frames : list frame_obs) :
  forall st st',
    counters_agree (ev st) ->
    outcome (training_loop a n c frames st) = Ok st' ->
    counters_agree (ev st').
Proof.
  induction frames as [|f frames IH]; intros st st' Hst.
  - cbn. now intros [= <-].
  - cbn [training_loop]. rewrite outcome_rbind.
    destruct (outcome (iteration a n c f st)) as [[b st1]|e] eqn:Hit; [|discriminate].
    apply iteration_outcome in Hit. destruct Hit as (_ & Hev & _).
    assert (Hst1 : counters_agree (ev st1)).
    { destruct Hev as [->|(_ & _ & ->)]; [exact Hst|].
      now apply evaluation_block_counters. }
    cbn [fst snd]. destruct b.
    + now apply IH.
    + cbn. now intros [= <-].
Qed.

(** X7.  The counters of the evaluation agree after every training phase that
    completes: [j] is between 0 and [press_count], and [stream_list] holds
    one entry per press. *)
Theorem training_keeps_counters (a : args) (fs : files) (frames : list frame_obs)
  (st : locals) :
  outcome (training_phase a fs frames) = Ok st -> counters_agree (ev st).
Proof.
  unfold training_phase, load_and_train.
  assert (H0 : counters_agree (ev initial_locals))
    by (unfold counters_agree; cbn; lia).
  rewrite outcome_rbind.
  replace (outcome (start_tracker a)) with (@Ok unit tt)
    by (unfold start_tracker; destruct (gui a && ndi a); reflexivity).
  rewrite outcome_rbind. cbn [lift outcome snd].
  destruct (linalg_inv (file_calibration fs)) as [c2t|e]; [|discriminate].
  destruct (0 <? effective_n_steps a).
  - now apply training_loop_counters.
  - cbn. now intros [= <-].
Qed.

(** X10.  Durations once recorded stay: whatever the loop does, the
    [times_recorded] it ends with extend the ones it started with. *)
Theorem training_loop_keeps_times (a : args) (n : Z) (c : calibration)
  (frames : list frame_obs) :
  forall st st',
    outcome (training_loop a n c frames st) = Ok st' ->
    exists more, times_recorded (ev st') = times_recorded (ev st) ++ more.
Proof.
  induction frames as [|f frames IH]; intros st st'.
  - cbn. intros [= <-]. exists []. now rewrite app_nil_r.
  - cbn [training_loop]. rewrite outcome_rbind.
    destruct (outcome (iteration a n c f st)) as [[b st1]|e] eqn:Hit; [|discriminate].
    apply iteration_outcome in Hit. destruct Hit as (_ & Hev & _).
    assert (Hst1 : exists more, times_recorded (ev st1) = times_recorded (ev st) ++ more).
    { destruct Hev as [->|(_ & _ & ->)].
      - exists []. now rewrite app_nil_r.
      - destruct (evaluation_block_times c (tracking0 f) (amb f) (ev st)) as (m & -> & _).
        eauto. }
    destruct Hst1 as [m1 Hm1]. cbn [fst snd]. destruct b.
    + intros H. destruct (IH _ _ H) as [m2 ->]. rewrite Hm1, <- app_assoc. eauto.
    + cbn. intros [= <-]. eauto.
Qed.

(** X12.  Without a GUI the loop ends at the first frame whose training step has
    reached [n_steps]: the frames after it are never looked at. *)
Theorem training_stops_at_n_steps (a : args) (n : Z) (c : calibration)
  (before after : list frame_obs) (f : frame_obs) :
  gui a = false -> n <= training_step (amb f) ->
  forall st,
    training_loop a n c (before ++ f :: after) st
    = training_loop a n c (before ++ [f]) st.
Proof.
  intros Hgui Hn.
  assert (Hlast : forall st,
             training_loop a n c (f :: after) st = training_loop a n c [f] st).
  { intros st. cbn [training_loop].
    destruct (iteration a n c f st) as [t [[b st1]|e]] eqn:Hit; [|reflexivity].
    assert (Hb : b = false).
    { pose proof (iteration_outcome a n c f st b st1) as H.
      rewrite Hit in H. destruct (H eq_refl) as (_ & _ & ->).
      rewrite Hgui. apply Z.leb_le in Hn. now rewrite Hn. }
    subst b. reflexivity. }
  induction before as [|g before IH]; intros st; [apply Hlast|].
  cbn [app training_loop].
  destruct (iteration a n c g st) as [t [[b st1]|e]]; [|reflexivity].
  cbn [rbind fst snd]. destruct b; [now rewrite IH | reflexivity].
Qed.

(** X13.  With a GUI the loop goes on for as long as the engine delivers frames:
    a loop that completes has gone through every one of them. *)
Theorem gui_loop_sees_every_frame (a : args) (n : Z) (c : calibration)
  (frames : list frame_obs) :
  gui a = true ->
  forall st st',
    outcome (training_loop a n c frames st) = Ok st' ->
    tracker_view (trace (training_loop a n c frames st))
    = List.concat (repeat (if ndi a then [frame; get_frame] else [frame])
                          (List.length frames)).
Proof.
  intros Hgui. induction frames as [|f frames IH]; intros st st'; [reflexivity|].
  cbn [training_loop List.length repeat List.concat].
  rewrite outcome_rbind, tracker_view_rbind, tracker_view_iteration, Hgui.
  cbn [andb].
  destruct (outcome (iteration a n c f st)) as [[b st1]|e] eqn:Hit; [|discriminate].
  apply iteration_outcome in Hit. destruct Hit as (_ & _ & ->).
  rewrite Hgui. cbn [negb andb fst snd].
  intros H. now rewrite (IH _ _ H).
Qed.

(** X4.  When the training loop is skipped, no frame is asked of the engine,
    whatever frames it would deliver, and the tracker, if there is one, is
    created and started and never polled; the variables of the loop keep
    their initial values. *)
Theorem skipped_loop_never_polls (a : args) (fs : files) (frames : list frame_obs) :
  training_loop_entered a = false ->
  Observe.tracker_view (trace (training_phase a fs frames))
  = (if gui a && ndi a then [NDITracker_init (row a); start_tracking] else [])
  /\ forall st, outcome (training_phase a fs frames) = Ok st -> st = initial_locals.
Proof.
  unfold training_loop_entered, training_phase, load_and_train, start_tracker.
  intros ->.
  assert (Hrest : (camera2tool <~ lift (linalg_inv (file_calibration fs)) ;;
                   ret initial_locals)
                  = ([], match linalg_inv (file_calibration fs) with
                         | Ok _ => Ok initial_locals
                         | Raise e => Raise e
                         end)).
  { unfold rbind, lift, ret. now destruct (linalg_inv (file_calibration fs)). }
  rewrite Hrest.
  destruct (gui a && ndi a); cbn [rbind emit ret trace outcome fst snd app];
    (split; [reflexivity|]);
    destruct (linalg_inv (file_calibration fs)); intros st H;
    [now injection H as <- | discriminate | now injection H as <- | discriminate].
Qed.

Lemma last_pressnum_app (t1 t2 : list event) (acc : option (Z * Z * Z)) :
  last_pressnum (t1 ++ t2) acc = last_pressnum t2 (last_pressnum t1 acc).
Proof.
  revert acc. induction t1 as [|e t1 IH]; intros acc; [reflexivity|].
  destruct e; cbn; apply IH.
Qed.

Lemma last_pressnum_rbind {A B} (m : run A) (k : A -> run B) (acc : option (Z * Z * Z)) :
  last_pressnum (trace (rbind m k)) acc
  = match outcome m with
    | Ok x => last_pressnum (trace (k x)) (last_pressnum (trace m) acc)
    | Raise _ => last_pressnum (trace m) acc
    end.
Proof.
  rewrite trace_rbind, last_pressnum_app. now destruct (outcome m).
Qed.

Lemma progress_bar_pressnum (o : ambient) (st : locals) (acc : option (Z * Z * Z)) :
  last_pressnum (trace (progress_bar o st)) acc = acc.
Proof.
  unfold progress_bar.
  destruct ((training_step o <? old_training_step st) || (old_training_step st =? 0)),
    (fltb (lit 1 (-1)) (fsub (monotonic o) (tqdm_last_update st))); reflexivity.
Qed.

Lemma ndi_step_pressnum (a : args) (c : calibration) (tr : mat4) (o : ambient)
  (st st' : locals) :
  outcome (ndi_step a c tr o st) = Ok st' ->
  last_pressnum (trace (ndi_step a c tr o st)) (Some (j (ev st), 0, 0))
  = Some (j (ev st'), 0, 0).
Proof.
  rewrite ndi_step_unfold.
  destruct (fisnan (mget tr I0 I3)); [now intros [= <-]|].
  destruct (pose_transform c tr) as [tm|e]; [|discriminate].
  cbn [outcome snd trace fst]. intros [= <-]. cbn [ev last_pressnum].
  rewrite last_pressnum_app. unfold evaluated.
  destruct (evaluation a); cbn [fst snd].
  - now rewrite pressnum_shows_j.
  - reflexivity.
Qed.

Lemma iteration_pressnum (a : args) (n : Z) (c : calibration) (f : frame_obs)
  (st : locals) (acc : option (Z * Z * Z)) (b : bool) (st' : locals) :
  (pressnum_initialized st = true -> acc = Some (j (ev st), 0, 0)) ->
  (pressnum_initialized st = false -> j (ev st) = 0) ->
  outcome (iteration a n c f st) = Ok (b, st') ->
  last_pressnum (trace (iteration a n c f st)) acc = Some (j (ev st'), 0, 0).
Proof.
  intros Hacc Hzero. unfold iteration.
  rewrite outcome_rbind, last_pressnum_rbind. cbn [emit outcome trace fst snd last_pressnum].
  rewrite outcome_rbind, last_pressnum_rbind.
  assert (Hinit : exists st1,
             outcome (init_pressnum st) = Ok st1
             /\ ev st1 = ev st
             /\ last_pressnum (trace (init_pressnum st)) acc = Some (j (ev st), 0, 0)).
  { unfold init_pressnum. destruct (pressnum_initialized st).
    - exists st. cbn. auto.
    - eexists. cbn. rewrite Hzero by reflexivity. auto. }
  destruct Hinit as (st1 & -> & Hev1 & ->).
  rewrite outcome_rbind, last_pressnum_rbind.
  destruct (outcome (if gui a && ndi a
                     then ndi_step a c (tracking0 f) (amb f) st1
                     else ret st1)) as [st2|e] eqn:Hstep; [|discriminate].
  assert (Hshown : last_pressnum
                     (trace (if gui a && ndi a
                             then ndi_step a c (tracking0 f) (amb f) st1
                             else ret st1)) (Some (j (ev st), 0, 0))
                   = Some (j (ev st2), 0, 0)).
  { rewrite <- Hev1. destruct (gui a && ndi a).
    - now apply ndi_step_pressnum.
    - now injection Hstep as <-. }
  rewrite Hshown, outcome_rbind, last_pressnum_rbind.
  destruct (progress_bar_outcome (amb f) st2) as (st3 & Hpb & _ & Hev3).
  destruct (want_repl (amb f)), (n <=? training_step (amb f)), (gui a);
    cbn [emit ret outcome trace fst snd last_pressnum];
    rewrite ?outcome_rbind, ?last_pressnum_rbind;
    cbn [emit ret outcome trace fst snd last_pressnum];
    rewrite ?outcome_rbind, ?last_pressnum_rbind, ?Hpb, ?progress_bar_pressnum;
    cbn [ret outcome trace fst snd last_pressnum];
    intros H; injection H as <- <-; rewrite ?Hev3; reflexivity.
Qed.

Lemma training_loop_pressnum (a : args) (n : Z) (c : calibration)
  (frames : list frame_obs) :
  forall st st',
    pressnum_initialized st = true ->
    outcome (training_loop a n c frames st) = Ok st' ->
    last_pressnum (trace (training_loop a n c frames st)) (Some (j (ev st), 0, 0))
    = Some (j (ev st'), 0, 0).
Proof.
  induction frames as [|f frames IH]; intros st st' Hinit.
  - cbn. now intros [= <-].
  - cbn [training_loop]. rewrite outcome_rbind, last_pressnum_rbind.
    destruct (outcome (iteration a n c f st)) as [[b st1]|e] eqn:Hit; [|discriminate].
    rewrite (iteration_pressnum a n c f st _ b st1) by (auto; congruence).
    apply iteration_outcome in Hit. destruct Hit as (Hinit1 & _ & _).
    cbn [fst snd]. destruct b.
    + now apply IH.
    + cbn. now intros [= <-].
Qed.

(** X9.  After a training loop that went through at least one frame,
    [testbed.pressnum] is [[j, 0, 0]]: the counter on display is the number
    of presses since the last reset. *)
Theorem pressnum_follows_j (a : args) (n : Z) (c : calibration)
  (f : frame_obs) (frames : list frame_obs) (st' : locals) :
  outcome (training_loop a n c (f :: frames) initial_locals) = Ok st' ->
  last_pressnum (trace (training_loop a n c (f :: frames) initial_locals)) None
  = Some (j (ev st'), 0, 0).
Proof.
  cbn [training_loop]. rewrite outcome_rbind, last_pressnum_rbind.
  destruct (outcome (iteration a n c f initial_locals)) as [[b st1]|e] eqn:Hit;
    [|discriminate].
  rewrite (iteration_pressnum a n c f initial_locals None b st1)
    by (auto; cbn; congruence).
  apply iteration_outcome in Hit. destruct Hit as (Hinit1 & _ & _).
  cbn [fst snd]. destruct b.
  - now apply training_loop_pressnum.
  - cbn. now intros [= <-].
Qed.

Lemma tqdm_updates_app (t1 t2 : list event) :
  tqdm_updates (t1 ++ t2) = tqdm_updates t1 ++ tqdm_updates t2.
Proof.
  induction t1 as [|e t1 IH]; [reflexivity|].
  destruct e; cbn; now rewrite ?IH.
Qed.

Lemma tqdm_updates_rbind {A B} (m : run A) (k : A -> run B) :
  tqdm_updates (trace (rbind m k))
  = tqdm_updates (trace m)
    ++ match outcome m with Ok x => tqdm_updates (trace (k x)) | Raise _ => [] end.
Proof.
  rewrite trace_rbind, tqdm_updates_app. now destruct (outcome m).
Qed.

Lemma tqdm_updates_skip (evs : list event) :
  forallb is_press_or_stdout evs = true -> tqdm_updates evs = [].
Proof.
  induction evs as [|e evs IH]; [reflexivity|].
  cbn [forallb]. intros [He Hevs]%andb_prop.
  destruct e; try discriminate; cbn; auto.
Qed.

Lemma tqdm_updates_ndi_step (a : args) (c : calibration) (tr : mat4) (o : ambient)
  (st : locals) :
  tqdm_updates (trace (ndi_step a c tr o st)) = [].
Proof.
  rewrite ndi_step_unfold.
  destruct (fisnan (mget tr I0 I3)); [reflexivity|].
  destruct (pose_transform c tr) as [tm|e]; [|reflexivity].
  cbn [trace fst tqdm_updates]. rewrite tqdm_updates_app.
  now rewrite (tqdm_updates_skip _ (evaluated_events a c tr o st)).
Qed.

Lemma progress_bar_updates (o : ambient) (st : locals) :
  0 <= training_step o ->
  Forall (fun u => 0 <= u) (tqdm_updates (trace (progress_bar o st))).
Proof.
  intros Hts. unfold progress_bar.
  destruct ((training_step o <? old_training_step st) || (old_training_step st =? 0))
    eqn:Hreset;
    destruct (fltb (lit 1 (-1)) (fsub (monotonic o) (tqdm_last_update st)));
    cbn; repeat constructor; lia.
Qed.

Lemma iteration_updates (a : args) (n : Z) (c : calibration) (f : frame_obs)
  (st : locals) :
  0 <= training_step (amb f) ->
  Forall (fun u => 0 <= u) (tqdm_updates (trace (iteration a n c f st))).
Proof.
  intros Hts. unfold iteration.
  rewrite tqdm_updates_rbind. cbn [emit trace outcome fst snd tqdm_updates app].
  rewrite tqdm_updates_rbind.
  replace (tqdm_updates (trace (init_pressnum st))) with (@nil Z)
    by (unfold init_pressnum; destruct (pressnum_initialized st); reflexivity).
  destruct (outcome (init_pressnum st)) as [st1|e]; [|constructor].
  rewrite tqdm_updates_rbind.
  replace (tqdm_updates
             (trace (if gui a && ndi a
                     then ndi_step a c (tracking0 f) (amb f) st1
                     else ret st1))) with (@nil Z)
    by (destruct (gui a && ndi a); [now rewrite tqdm_updates_ndi_step | reflexivity]).
  destruct (outcome (if gui a && ndi a
                     then ndi_step a c (tracking0 f) (amb f) st1
                     else ret st1)) as [st2|e]; [|constructor].
  rewrite tqdm_updates_rbind.
  pose proof (progress_bar_updates (amb f) st2 Hts) as Hpb.
  destruct (want_repl (amb f)), (n <=? training_step (amb f)), (gui a);
    cbn [emit ret outcome trace fst snd tqdm_updates app];
    rewrite ?tqdm_updates_rbind;
    cbn [emit ret outcome trace fst snd tqdm_updates app];
    rewrite ?tqdm_updates_rbind;
    try (destruct (outcome (progress_bar (amb f) st2)));
    cbn [ret outcome trace fst snd tqdm_updates app]; rewrite ?app_nil_r;
    try exact Hpb; constructor.
Qed.

(** X14.  The progress bar never steps back: as long as the training step the
    engine reports is not negative, no amount handed to [t.update] is
    negative, also after the step counter fell behind the last one shown. *)
Theorem progress_bar_never_steps_back (a : args) (n : Z) (c : calibration)
  (frames : list frame_obs) :
  Forall (fun f => 0 <= training_step (amb f)) frames ->
  forall st,
    Forall (fun u => 0 <= u) (tqdm_updates (trace (training_loop a n c frames st))).
Proof.
  induction 1 as [|f frames Hf _ IH]; intros st; [constructor|].
  cbn [training_loop]. rewrite tqdm_updates_rbind.
  apply Forall_app. split; [now apply iteration_updates|].
  destruct (outcome (iteration a n c f st)) as [[[|] st1]|e]; cbn [fst snd];
    [apply IH | constructor | constructor].
Qed.

End LoopFacts.

(* ================================================================== *)
(** * More facts: the training loop on concrete frames *)

Section LoopExamples.
Import Py Cli Setup Num Driver Training Observe LoopObserve Concrete.

Lemma completes_final {Fl : FloatOps} {A} (d : A) (r : run A) :
  completes r = true -> outcome r = Ok (final d r).
Proof.
  unfold completes, final. now destruct (outcome r).
Qed.

Lemma no_two_presses_witness :
  recorded
    (snd (@evaluation_block q_float q_linalg sample_calibration sample_tracking
            pressed_ambient (ev later_locals)))
    (snd (@evaluation_block q_float q_linalg sample_calibration sample_tracking
            pressed_ambient
            (snd (@evaluation_block q_float q_linalg sample_calibration sample_tracking
                    pressed_ambient (ev later_locals)))))
  = false.
Proof.
  exact (@no_two_presses_in_a_row q_float q_linalg sample_calibration
           sample_tracking sample_tracking pressed_ambient pressed_ambient
           (ev later_locals) eq_refl).
Defined.

Lemma tenth_press_witness :
  start_time
    (snd (@evaluation_block q_float q_linalg sample_calibration sample_tracking
            pressed_ambient (ev later_locals)))
  = None.
Proof.
  exact (@tenth_press_stops_the_clock q_float q_linalg sample_calibration
           sample_tracking pressed_ambient (ev later_locals) eq_refl eq_refl).
Defined.

Lemma skipped_loop_witness :
  Observe.tracker_view
    (trace (@training_phase q_float q_linalg (main_args Inputs.zero_steps_cli)
              sample_files [sample_frame; pressed_frame]))
  = [NDITracker_init "c:/Users/camp/Documents/Xinrui Zou/Tool-ROM/no-pivot.rom";
     start_tracking].
Proof.
  exact (proj1 (@skipped_loop_never_polls q_float q_linalg
                  (main_args Inputs.zero_steps_cli)
                  sample_files [sample_frame; pressed_frame] eq_refl)).
Defined.

Lemma training_keeps_counters_witness :
  counters_agree
    (ev (final later_locals
           (@training_phase q_float q_linalg (main_args Inputs.evaluation_cli)
              sample_files [sample_frame; pressed_frame; pressed_frame]))).
Proof.
  apply (@training_keeps_counters q_float q_linalg (main_args Inputs.evaluation_cli)
           sample_files [sample_frame; pressed_frame; pressed_frame]).
  apply completes_final. vm_compute. reflexivity.
Defined.

Lemma pressnum_follows_j_witness :
  last_pressnum
    (trace (@training_loop q_float q_linalg (main_args Inputs.evaluation_cli) 35000
              sample_calibration [sample_frame; pressed_frame] (@initial_locals q_float)))
    None
  = Some (j (ev (final later_locals
                   (@training_loop q_float q_linalg (main_args Inputs.evaluation_cli)
                      35000 sample_calibration [sample_frame; pressed_frame]
                      (@initial_locals q_float)))), 0, 0).
Proof.
  apply (@pressnum_follows_j q_float q_linalg (main_args Inputs.evaluation_cli) 35000
           sample_calibration sample_frame [pressed_frame]).
  apply completes_final. vm_compute. reflexivity.
Defined.

Lemma training_loop_keeps_times_witness :
  exists more,
    times_recorded
      (ev (final later_locals
             (@training_loop q_float q_linalg (main_args Inputs.evaluation_cli) 35000
                sample_calibration [pressed_frame] later_locals)))
    = times_recorded (ev later_locals) ++ more.
Proof.
  apply (@training_loop_keeps_times q_float q_linalg (main_args Inputs.evaluation_cli)
           35000 sample_calibration [pressed_frame] later_locals).
  apply completes_final. vm_compute. reflexivity.
Defined.

Lemma training_stops_witness :
  @training_loop q_float q_linalg (main_args Inputs.five_steps_cli) 5
    sample_calibration ([sample_frame] ++ pressed_frame :: [sample_frame; sample_frame])
    (@initial_locals q_float)
  = @training_loop q_float q_linalg (main_args Inputs.five_steps_cli) 5
      sample_calibration ([sample_frame] ++ [pressed_frame]) (@initial_locals q_float).
Proof.
  apply (@training_stops_at_n_steps q_float q_linalg (main_args Inputs.five_steps_cli) 5
           sample_calibration [sample_frame] [sample_frame; sample_frame] pressed_frame).
  - reflexivity.
  - cbn. lia.
Defined.

Lemma gui_loop_witness :
  tracker_view
    (trace (@training_loop q_float q_linalg (main_args Inputs.gui_ndi_cli) 5
              sample_calibration [sample_frame; pressed_frame; sample_frame]
              (@initial_locals q_float)))
  = List.concat (repeat [frame; get_frame] 3).
Proof.
  apply (@gui_loop_sees_every_frame q_float q_linalg (main_args Inputs.gui_ndi_cli) 5
           sample_calibration [sample_frame; pressed_frame; sample_frame] eq_refl
           (@initial_locals q_float)
           (final later_locals
              (@training_loop q_float q_linalg (main_args Inputs.gui_ndi_cli) 5
                 sample_calibration [sample_frame; pressed_frame; sample_frame]
                 (@initial_locals q_float)))).
  apply completes_final. vm_compute. reflexivity.
Defined.

Lemma progress_bar_witness :
  Forall (fun u => 0 <= u)
    (tqdm_updates
       (trace (@training_loop q_float q_linalg (main_args Inputs.gui_ndi_cli) 5
                 sample_calibration [pressed_frame; sample_frame]
                 (@initial_locals q_float)))).
Proof.
  apply (@progress_bar_never_steps_back q_float q_linalg (main_args Inputs.gui_ndi_cli) 5
           sample_calibration [pressed_frame; sample_frame]).
  repeat constructor; cbn; lia.
Defined.

End LoopExamples.

(* ================================================================== *)
(** * More facts: the frames of a video *)

Section VideoFrameFacts.
Import Py Cli Video VideoObserve VideoFrames.
Variable percent_format : string -> Z -> result string.

Local Abbreviation video_frame := (video_frame percent_format).
Local Abbreviation video_loop := (video_loop percent_format).
Local Abbreviation render_video := (render_video percent_format).

Lemma written_tmp_app (t1 t2 : list event) :
  written_tmp (t1 ++ t2) = written_tmp t1 ++ written_tmp t2.
Proof.
  induction t1 as [|e t1 IH]; [reflexivity|].
  destruct e as [| | | | |[name|i]|]; cbn; now rewrite ?IH.
Qed.

Lemma video_frame_written (a : args) (i : Z) :
  save_frames a = false ->
  video_frame a i
  = (fst (video_frame a i), Ok tt)
  /\ written_tmp (fst (video_frame a i)) = if in_render_range a i then [i] else [].
Proof.
  intros Hs. unfold Video.video_frame, in_render_range. rewrite Hs.
  destruct (video_render_range a) as [s e]. cbn [fst snd].
  destruct (0 <=? s) eqn:H1, (i <? s) eqn:H2, (0 <=? e) eqn:H3, (e <? i) eqn:H4,
    (s <? 0) eqn:H5, (s <=? i) eqn:H6, (e <? 0) eqn:H7, (i <=? e) eqn:H8;
    try lia; cbn; auto.
Qed.


Lemma video_frame_shutter (a : args) (i : Z) :
  0 <= i < n_frames a ->
  forallb shutter_defined (fst (video_frame a i)) = true.
Proof.
  intros Hi. unfold Video.video_frame.
  destruct (video_render_range a) as [s e].
  assert (Hok : (0 <=? i) && (i <? n_frames a) = true) by lia.
  destruct ((0 <=? s) && (i <? s)); [cbn; now rewrite Hok|].
  destruct ((0 <=? e) && (e <? i)); [reflexivity|].
  destruct (save_frames a); [|cbn; now rewrite Hok].
  destruct (percent_format (video_output a) i); cbn; now rewrite Hok.
Qed.

Lemma video_loop_shutter (a : args) (indices : list Z) :
  (forall i, In i indices -> 0 <= i < n_frames a) ->
  forallb shutter_defined (fst (video_loop a indices)) = true.
Proof.
  induction indices as [|i rest IH]; intros Hin; [reflexivity|].
  cbn [Video.video_loop].
  pose proof (video_frame_shutter a i (Hin i (or_introl eq_refl))) as Hi.
  destruct (video_frame a i) as [evs [[]|e]]; cbn [fst] in Hi; [|exact Hi].
  specialize (IH (fun k Hk => Hin k (or_intror Hk))).
  destruct (video_loop a rest) as [evs' r]. cbn [fst] in *.
  now rewrite forallb_app, Hi, IH.
Qed.

(** X16.  Every render of the loop gets shutter times that are defined: the
    index is not negative and below [n_frames], so [float(i)/n_frames] never
    divides by zero and lies between 0 and 1. *)
Theorem shutter_times_are_defined (a : args) :
  forallb shutter_defined (fst (video_loop a (frame_indices a))) = true.
Proof.
  apply video_loop_shutter. intros i Hi.
  rewrite frame_indices_range in Hi. now apply range_In in Hi.
Qed.

Lemma no_rmtree_in_loop (a : args) (indices : list Z) :
  existsb is_rmtree (fst (video_loop a indices)) = false.
Proof.
  induction indices as [|i rest IH]; [reflexivity|].
  cbn [Video.video_loop].
  assert (Hi : existsb is_rmtree (fst (video_frame a i)) = false).
  { unfold Video.video_frame. destruct (video_render_range a) as [s e].
    destruct ((0 <=? s) && (i <? s)); [reflexivity|].
    destruct ((0 <=? e) && (e <? i)); [reflexivity|].
    destruct (save_frames a); [|reflexivity].
    destruct (percent_format (video_output a) i); reflexivity. }
  destruct (video_frame a i) as [evs [[]|e]]; cbn [fst] in Hi; [|exact Hi].
  destruct (video_loop a rest) as [evs' r]. cbn [fst] in *.
  now rewrite existsb_app, Hi, IH.
Qed.

(** X17.  The directory [tmp] is removed at the end of every run that
    completes.  A run that raises leaves what it found or made: either it
    stopped at an old [tmp] that is not a directory, before anything was
    created, or it stopped in the loop, and after [makedirs] nothing is
    removed and nothing is stitched. *)
Theorem tmp_is_removed_unless_the_run_fails (a : args) (cwd : list string)
  (tmp : tmp_kind) :
  truthy (video_camera_path a) = true ->
  match snd (render_video a cwd tmp) with
  | Ok _ => exists t, fst (render_video a cwd tmp) = t ++ [rmtree "tmp"]
  | Raise _ =>
      (str_in "tmp" cwd = true /\ tmp <> a_directory
       /\ fst (render_video a cwd tmp) = [load_camera_path (video_camera_path a)])
      \/ exists before after,
           fst (render_video a cwd tmp) = before ++ makedirs "tmp" :: after
           /\ existsb is_rmtree after = false
           /\ existsb is_ffmpeg after = false
  end.
Proof.
  intros Hpath. unfold Video.render_video, Video.remove_old_tmp. rewrite Hpath.
  pose proof (no_rmtree_in_loop a (frame_indices a)) as Hrm.
  pose proof (no_ffmpeg_in_loop percent_format a (frame_indices a)) as Hff.
  destruct (str_in "tmp" cwd) eqn:Hin; [destruct tmp|].
  - destruct (video_loop a (frame_indices a)) as [evs [[]|e]]; cbn [fst snd] in *.
    + eexists. rewrite !app_assoc. reflexivity.
    + right. exists [load_camera_path (video_camera_path a); rmtree "tmp"], evs.
      split; [reflexivity | auto].
  - left. repeat split; discriminate.
  - left. repeat split; discriminate.
  - destruct (video_loop a (frame_indices a)) as [evs [[]|e]]; cbn [fst snd] in *.
    + eexists. rewrite !app_assoc. reflexivity.
    + right. exists [load_camera_path (video_camera_path a)], evs.
      split; [reflexivity | auto].
Qed.

End VideoFrameFacts.

Section VideoFrameExamples.
Import Py Cli Video VideoObserve VideoFrames Concrete.


Lemma tmp_is_left_behind_witness :
  ((str_in "tmp" ["tmp"%string] = true /\ a_file <> a_directory
    /\ fst (render_video percent_d (main_args (Inputs.video_cli 1 (2, 4) false))
              ["tmp"%string] a_file)
       = [load_camera_path "cam.json"])
   \/ exists before after,
        fst (render_video percent_d (main_args (Inputs.video_cli 1 (2, 4) false))
               ["tmp"%string] a_file)
        = before ++ makedirs "tmp" :: after
        /\ existsb VideoFrames.is_rmtree after = false
        /\ existsb is_ffmpeg after = false)
  /\ ((str_in "tmp" [] = true /\ a_directory <> a_directory
       /\ fst (render_video percent_d
                 (main_args (Inputs.video_named_cli 1 (2, 4) "out_%q.png"))
                 [] a_directory)
          = [load_camera_path "cam.json"])
      \/ exists before after,
           fst (render_video percent_d
                  (main_args (Inputs.video_named_cli 1 (2, 4) "out_%q.png"))
                  [] a_directory)
           = before ++ makedirs "tmp" :: after
           /\ existsb VideoFrames.is_rmtree after = false
           /\ existsb is_ffmpeg after = false).
Proof.
  split.
  - exact (tmp_is_removed_unless_the_run_fails percent_d
             (main_args (Inputs.video_cli 1 (2, 4) false)) ["tmp"%string] a_file eq_refl).
  - exact (tmp_is_removed_unless_the_run_fails percent_d
             (main_args (Inputs.video_named_cli 1 (2, 4) "out_%q.png")) [] a_directory
             eq_refl).
Defined.

(** A name that cannot be formatted: [tmp] is made, two warm-up frames
    and one full frame are rendered, and the run ends there. *)
Example tmp_is_left_behind :
  render_video percent_d (main_args (Inputs.video_named_cli 1 (2, 4) "out_%q.png"))
    [] a_directory
  = ([load_camera_path "cam.json"; makedirs "tmp";
      set_camera_smoothing false; render 32 32 1 0 10 10;
      set_camera_smoothing false; render 32 32 1 1 10 10;
      set_camera_smoothing false; render 1920 1080 8 2 10 10], Raise ValueError).
Proof. vm_compute. reflexivity. Qed.

End VideoFrameExamples.

(* ================================================================== *)
(** * More facts: a run of the SSIM snippet *)

Section SsimRunFacts.
Import Py Num Ssim SsimObserve.
Context {Fl : FloatOps} {Vi : Vision}.

(** The loop reads the two files of every name and never fails on one it
    cannot read. *)
Lemma directory_loop_trace (w : world) (grayA grayB : gray) (s : F)
  (images : list string) :
  structural_similarity grayA grayB = Ok s ->
  forall total,
    fst (directory_loop w grayA grayB images total)
    = flat_map (fun image =>
                  [read_image ("black_toy/test_output/" ++ image)%string;
                   read_image ("black_toy/images/" ++ image)%string]) images.
Proof.
  intros Hs. induction images as [|image images IH]; intros total; [reflexivity|].
  cbn [directory_loop cv2_imread rbind lift flat_map]. rewrite Hs.
  specialize (IH (total ++ [s])).
  destruct (directory_loop w grayA grayB images (total ++ [s])) as [evs r].
  cbn [fst] in *. rewrite IH. reflexivity.
Qed.

(** X18.  When the two hardcoded images give a score [s] and the directory lists
    [n > 0] names, the snippet completes whatever the listed files are --
    missing or unreadable ones included: it reads the two hardcoded images,
    prints [s], lists the directory, reads two files per name, and prints
    the mean of [n] copies of [s]. *)
Theorem ssim_script_run (w : world) (s : F) (images : list string) :
  spec_header_score w = Ok s ->
  listdir w "black_toy/test_output" = Ok images ->
  images <> [] ->
  ssim_script w
  = (read_image "black_toy/images/564.png"
     :: read_image "black_toy/test_output/564.png"
     :: print_ssim s
     :: list_directory "black_toy/test_output"
     :: flat_map (fun image =>
                    [read_image ("black_toy/test_output/" ++ image)%string;
                     read_image ("black_toy/images/" ++ image)%string]) images
     ++ [print_average (fdiv (fsum (repeat s (List.length images)))
                             (of_int (Z.of_nat (List.length images))))],
     Ok tt).
Proof.
  unfold spec_header_score, ssim_script. rewrite header_unfold.
  destruct (cv2_cvtColor (imread w "black_toy/images/564.png")) as [gA|e];
    cbn [bind]; [|discriminate].
  destruct (cv2_cvtColor (imread w "black_toy/test_output/564.png")) as [gB|e];
    cbn [bind]; [|discriminate].
  intros Hs Hdir Hne. rewrite Hs. cbn [rbind].
  rewrite directory_average_unfold, Hdir.
  pose proof (directory_loop_outcome w gA gB s images Hs []) as Hout.
  pose proof (directory_loop_trace w gA gB s images Hs []) as Htr.
  destruct (directory_loop w gA gB images []) as [evs r]. cbn [fst snd] in *.
  subst evs r. cbn [app].
  unfold py_mean, py_div_int. rewrite repeat_length.
  destruct (Z.of_nat (List.length images) =? 0) eqn:Hz.
  - destruct images; [contradiction | discriminate].
  - reflexivity.
Qed.

End SsimRunFacts.

Section SsimRunExamples.
Import Py Num Ssim SsimObserve Concrete.

Lemma ssim_script_run_witness :
  snd (@ssim_script q_float pixel_vision two_pairs) = Ok tt.
Proof.
  exact (f_equal snd
           (@ssim_script_run q_float pixel_vision two_pairs 1%Q
              ["564.png"%string; "565.png"%string] eq_refl eq_refl
              ltac:(discriminate))).
Defined.

End SsimRunExamples.

(* ================================================================== *)
(** * More facts: what the evaluation writes and reports *)

Section EvaluateReportFacts.
Import Py Num Evaluate EvaluateObserve.
Context {Fl : FloatOps}.
Variable image : Type.
Variables compute_mse compute_ssim : image -> image -> F.
Variable mse2psnr : F -> F.
Variable srgb_clip : image -> image.
Variable diff_image : image -> image -> image.

Local Abbreviation accumulate := (accumulate image compute_mse compute_ssim mse2psnr srgb_clip).
Local Abbreviation test_loop := (test_loop image compute_mse compute_ssim mse2psnr srgb_clip diff_image).
Local Abbreviation totals_of := (totals_of image compute_mse compute_ssim mse2psnr srgb_clip).
Local Abbreviation evaluate_test_transforms :=
  (evaluate_test_transforms image compute_mse compute_ssim mse2psnr srgb_clip diff_image).
Local Abbreviation written := (written image).

Lemma written_app (t1 t2 : list (event image)) :
  written (t1 ++ t2) = written t1 ++ written t2.
Proof. apply flat_map_app. Qed.

Lemma test_loop_written (views : list (image * image)) :
  forall first t,
    written (fst (test_loop first views t))
    = match views with
      | (ref_image, img) :: _ =>
          if first then
            [("ref.png"%string, ref_image); ("out.png"%string, img);
             ("diff.png"%string, diff_image img ref_image)]
          else []
      | [] => []
      end.
Proof.
  induction views as [|[r i] views IH]; intros first t; [reflexivity|].
  cbn [Evaluate.test_loop].
  destruct (py_div_int _ _) as [shown|e].
  - specialize (IH false (accumulate t r i)).
    destruct (test_loop false views (accumulate t r i)) as [evs res].
    cbn [fst] in *. rewrite written_app.
    change (written (set_postfix image shown :: evs)) with (written evs).
    rewrite IH.
    replace (match views with (_, _) :: _ => [] | [] => [] end)
      with (@nil (string * image)) by (destruct views as [|[] ?]; reflexivity).
    destruct first; reflexivity.
  - destruct first; reflexivity.
Qed.

(** X19.  The evaluation writes three images and no more: [ref.png], [out.png]
    and [diff.png], made from the first view of the dataset; on an empty
    dataset it writes nothing. *)
Theorem evaluation_writes_the_first_view (views : list (image * image)) :
  written (fst (evaluate_test_transforms views))
  = match views with
    | (ref_image, img) :: _ =>
        [("ref.png"%string, ref_image); ("out.png"%string, img);
         ("diff.png"%string, diff_image img ref_image)]
    | [] => []
    end.
Proof.
  unfold Evaluate.evaluate_test_transforms.
  pose proof (test_loop_written views true initial_totals) as Hw.
  destruct (test_loop true views initial_totals) as [evs [t|e]]; cbn [fst] in *.
  - destruct (py_div_int (totmse t) _); cbn [bind]; [|exact Hw].
    destruct (py_div_int (totpsnr t) _); cbn [bind]; [|exact Hw].
    destruct (py_div_int (totssim t) _); cbn [bind fst]; [|exact Hw].
    rewrite written_app. cbn. now rewrite app_nil_r.
  - exact Hw.
Qed.

Lemma min_max_fold (views : list (image * image)) :
  forall t,
    let psnrs :=
      map (fun v => mse2psnr (compute_mse (srgb_clip (snd v)) (srgb_clip (fst v)))) views in
    let t' := fold_left (fun t '(ref_image, img) => accumulate t ref_image img) views t in
    In (minpsnr t') (minpsnr t :: psnrs) /\ In (maxpsnr t') (maxpsnr t :: psnrs).
Proof.
  cbv zeta. induction views as [|[r i] views IH]; intros t.
  - cbn. auto.
  - cbn [fold_left map]. destruct (IH (accumulate t r i)) as [Hmin Hmax].
    cbn [Evaluate.accumulate minpsnr maxpsnr fst snd] in *.
    split.
    + destruct Hmin as [Hmin|Hmin]; [|right; right; exact Hmin].
      rewrite <- Hmin. destruct (fltb _ (minpsnr t)); cbn; auto.
    + destruct Hmax as [Hmax|Hmax]; [|right; right; exact Hmax].
      rewrite <- Hmax. destruct (fltb (maxpsnr t) _); cbn; auto.
Qed.

(** X20.  The least and the greatest PSNR the evaluation reports are PSNRs of
    views of the dataset, or the values they start from: 1000 for the least
    and 0 for the greatest. *)
Theorem reported_min_max_are_measured (views : list (image * image)) :
  exists rep,
    snd (evaluate_test_transforms views) = Ok rep
    /\ In (psnr_min rep)
          (of_int 1000
           :: map (fun v => mse2psnr (compute_mse (srgb_clip (snd v)) (srgb_clip (fst v))))
                  views)
    /\ In (psnr_max rep)
          (of_int 0
           :: map (fun v => mse2psnr (compute_mse (srgb_clip (snd v)) (srgb_clip (fst v))))
                  views).
Proof.
  unfold Evaluate.evaluate_test_transforms.
  pose proof (test_loop_ok image compute_mse compute_ssim mse2psnr srgb_clip diff_image
                views true initial_totals ltac:(cbn; lia)) as Hloop.
  destruct (test_loop true views initial_totals) as [evs [t|e]];
    cbn [snd] in Hloop; [|discriminate].
  injection Hloop as ->.
  fold (totals_of views). fold (divisor (totals_of views)).
  pose proof (divisor_totals_of image compute_mse compute_ssim mse2psnr srgb_clip views).
  rewrite !py_div_int_ok by lia.
  eexists. split; [reflexivity|].
  cbn [psnr_min psnr_max]. apply (min_max_fold views initial_totals).
Qed.

End EvaluateReportFacts.
